(** * ETH investment dashboard: indicator, scoring and risk engine

  A shallow embedding of the pure computations of
  [eth_risk_manager.py], [eth_technical_analysis.py],
  [eth_investment_advisor.py] and [eth_performance_tracker.py], and the
  properties of them that the design document states.

  Numbers.  The Python code computes on floats.  They are idealised here
  as exact rationals ([Q]); equalities between computed values are
  therefore stated with [==] ([Qeq]) unless the code produces the very
  same expression.  Where a float operation can raise
  ([ZeroDivisionError]) or yield NaN (pandas rolling windows), that is
  modelled explicitly. *)

From Stdlib Require Import String QArith Qminmax Qabs ZArith Bool Lia Lqa.
From Stdlib Require Import List Sorting.Sorted Permutation.
Import ListNotations.

Open Scope Q_scope.

(** ** Python runtime helpers *)

Module Py.

Inductive exn : Type :=
| ZeroDivisionError
| IndexError
| KeyError
| ValueError
| OverflowError.

(** A computation inside a [try] block: a value, or a raised exception. *)
Inductive outcome (A : Type) : Type :=
| Ok (a : A)
| Raise (e : exn).
Arguments Ok {A} a.
Arguments Raise {A} e.

Definition bind {A B : Type} (m : outcome A) (k : A -> outcome B) : outcome B :=
  match m with
  | Ok a => k a
  | Raise e => Raise e
  end.

(** [a > b] and [a <= b] on floats. *)
Definition gtb (a b : Q) : bool := negb (Qle_bool a b).
Definition leb (a b : Q) : bool := Qle_bool a b.
Definition ltb (a b : Q) : bool := negb (Qle_bool b a).
Definition geb (a b : Q) : bool := Qle_bool b a.

(** [a / b] on Python floats raises when the divisor is zero. *)
Definition div (a b : Q) : outcome Q :=
  if Qeq_bool b 0 then Raise ZeroDivisionError else Ok (a / b).

(** [s.lower()] on the ASCII letters; other characters are kept. *)
Definition lower_char (c : Ascii.ascii) : Ascii.ascii :=
  let n := Ascii.nat_of_ascii c in
  if ((65 <=? n) && (n <=? 90))%nat then Ascii.ascii_of_nat (n + 32) else c.

Fixpoint lower (s : string) : string :=
  match s with
  | EmptyString => EmptyString
  | String c rest => String (lower_char c) (lower rest)
  end.

(** A [for] loop that appends one computed element per item; a raise in
  the body leaves the loop. *)
Fixpoint for_each {A B : Type} (body : A -> outcome B) (items : list A)
    : outcome (list B) :=
  match items with
  | [] => Ok []
  | item :: rest =>
      match body item with
      | Raise e => Raise e
      | Ok b =>
          match for_each body rest with
          | Raise e => Raise e
          | Ok bs => Ok (b :: bs)
          end
      end
  end.

(** A dictionary with string keys, in insertion order. *)
Definition dict (V : Type) : Type := list (string * V).

Fixpoint get {V : Type} (d : dict V) (k : string) : option V :=
  match d with
  | [] => None
  | (k', v) :: rest => if String.eqb k' k then Some v else get rest k
  end.

(** [k in d] *)
Definition mem {V : Type} (d : dict V) (k : string) : bool :=
  match get d k with
  | Some _ => true
  | None => false
  end.

(** [d[k]] raises [KeyError] for a missing key. *)
Definition item {V : Type} (d : dict V) (k : string) : outcome V :=
  match get d k with
  | Some v => Ok v
  | None => Raise KeyError
  end.

(** [d[k] = v] for a key that [d] does not hold yet. *)
Definition set_new {V : Type} (d : dict V) (k : string) (v : V) : dict V :=
  d ++ [(k, v)].

End Py.

Notation "x <- m ;; k" := (Py.bind m (fun x => k))
(at level 61, m at next level, right associativity).

(** ** numpy scalars and arrays *)

Module Np.

(** A [numpy.float64]: a finite value, an infinity or NaN.  Division by
    zero does not raise on these, it gives an infinity or NaN. *)
Inductive float : Type :=
| NaN
| PInf
| NInf
| Fin (q : Q).

Definition sign (q : Q) : comparison := Qcompare q 0.

Definition neg (x : float) : float :=
  match x with
  | NaN => NaN
  | PInf => NInf
  | NInf => PInf
  | Fin q => Fin (- q)
  end.

Definition add (x y : float) : float :=
  match x, y with
  | Fin a, Fin b => Fin (a + b)
  | NaN, _ | _, NaN => NaN
  | PInf, NInf | NInf, PInf => NaN
  | PInf, _ | _, PInf => PInf
  | NInf, _ | _, NInf => NInf
  end.

Definition sub (x y : float) : float := add x (neg y).

(** An infinity with the sign of [c], NaN for the sign of zero. *)
Definition inf_of (c : comparison) : float :=
  match c with
  | Gt => PInf
  | Lt => NInf
  | Eq => NaN
  end.

Definition sign_of (x : float) : option comparison :=
  match x with
  | NaN => None
  | PInf => Some Gt
  | NInf => Some Lt
  | Fin q => Some (sign q)
  end.

Definition sign_mul (c d : comparison) : comparison :=
  match c, d with
  | Eq, _ | _, Eq => Eq
  | Gt, Gt | Lt, Lt => Gt
  | _, _ => Lt
  end.

Definition mul (x y : float) : float :=
  match x, y with
  | Fin a, Fin b => Fin (a * b)
  | _, _ =>
      match sign_of x, sign_of y with
      | Some c, Some d => inf_of (sign_mul c d)
      | _, _ => NaN
      end
  end.

Definition div (x y : float) : float :=
  match x, y with
  | NaN, _ | _, NaN => NaN
  | Fin a, Fin b =>
      if Qeq_bool b 0 then inf_of (sign a) else Fin (a / b)
  | Fin _, _ => Fin 0
  | _, Fin b =>
      match sign b with
      | Lt => neg x
      | _ => x
      end
  | _, _ => NaN
  end.

Definition abs (x : float) : float :=
  match x with
  | NaN => NaN
  | PInf | NInf => PInf
  | Fin q => Fin (Qabs q)
  end.

(** Comparisons; every comparison with NaN is false. *)
Definition leb (x y : float) : bool :=
  match x, y with
  | NaN, _ | _, NaN => false
  | NInf, _ | _, PInf => true
  | Fin a, Fin b => Qle_bool a b
  | _, _ => false
  end.

Definition ltb (x y : float) : bool :=
  match x, y with
  | NaN, _ | _, NaN => false
  | Fin a, Fin b => negb (Qle_bool b a)
  | NInf, NInf | PInf, PInf => false
  | NInf, _ | _, PInf => true
  | _, _ => false
  end.

Definition gtb (x y : float) : bool := ltb y x.
Definition geb (x y : float) : bool := leb y x.

Definition eqb (x y : float) : bool :=
  match x, y with
  | Fin a, Fin b => Qeq_bool a b
  | PInf, PInf | NInf, NInf => true
  | _, _ => false
  end.

Definition isnan (x : float) : bool :=
  match x with
  | NaN => true
  | _ => false
  end.

Definition sum (l : list Q) : Q := fold_right Qplus 0 l.

Definition of_nat (n : nat) : Q := inject_Z (Z.of_nat n).

(** [np.mean] of an array of finite values; NaN (and a warning) for the
    empty array. *)
Definition mean (l : list Q) : float :=
  match l with
  | [] => NaN
  | _ :: _ => Fin (sum l / of_nat (length l))
  end.

(** [np.diff]: the differences of consecutive elements. *)
Fixpoint diff (l : list Q) : list Q :=
  match l with
  | x :: (y :: _) as rest => (y - x) :: diff rest
  | _ => []
  end.

(** The slice [a[lo:hi]] for [0 <= lo]; it stops at the end of [a]. *)
Definition slice {A : Type} (a : list A) (lo hi : nat) : list A :=
  firstn (hi - lo) (skipn lo a).

End Np.

(** ** pandas series *)

Module Pd.

(** A float series, in index order; NaN marks a missing value. *)
Definition Series : Type := list Np.float.

Definition of_prices (prices : list Q) : Series := map Np.Fin prices.

(** The observations of a window, if none of them is missing. *)
Fixpoint observations (win : list Np.float) : option (list Q) :=
  match win with
  | [] => Some []
  | Np.Fin q :: rest =>
      match observations rest with
      | Some qs => Some (q :: qs)
      | None => None
      end
  | _ :: _ => None
  end.

(** [s.rolling(window=w).agg()]: position [i] aggregates the [w] values
    that end at [i]; it is NaN while fewer than [w] observations are
    there (min_periods is the window), and for an empty window. *)
Definition rolling (w : nat) (agg : list Q -> Q) (s : Series) : Series :=
  map (fun i =>
         if ((1 <=? w) && (w <=? i + 1))%nat then
           match observations (Np.slice s (i + 1 - w) (i + 1)) with
           | Some qs => Np.Fin (agg qs)
           | None => Np.NaN
           end
         else Np.NaN)
      (seq 0 (length s)).

Definition agg_mean (qs : list Q) : Q := Np.sum qs / Np.of_nat (length qs).

Definition agg_max (qs : list Q) : Q :=
  match qs with
  | [] => 0
  | q :: rest => fold_left Qmax rest q
  end.

Definition agg_min (qs : list Q) : Q :=
  match qs with
  | [] => 0
  | q :: rest => fold_left Qmin rest q
  end.

(** [s.shift()]: every value moves one position later. *)
Definition shift (s : Series) : Series :=
  match s with
  | [] => []
  | _ :: _ => Np.NaN :: removelast s
  end.

Definition zip_with (f : Np.float -> Np.float -> Np.float) (a b : Series)
    : Series :=
  map (fun p => f (fst p) (snd p)) (combine a b).

(** The larger of two values, skipping NaN, as [max(axis=1)] does. *)
Definition max_skipna (x y : Np.float) : Np.float :=
  match x, y with
  | Np.NaN, _ => y
  | _, Np.NaN => x
  | _, _ => if Np.ltb x y then y else x
  end.

(** [s.iloc[-k]] for [k >= 1]; out of bounds raises. *)
Definition iloc_back {A : Type} (s : list A) (k : nat) : Py.outcome A :=
  match nth_error (rev s) (k - 1) with
  | Some x => Py.Ok x
  | None => Py.Raise Py.IndexError
  end.

(** [s.ewm(span=span, adjust=False).mean()] on a series without missing
    values: [y0 = x0] and [y_t = (1 - alpha) y_(t-1) + alpha x_t] with
    [alpha = 2 / (span + 1)]; pandas refuses a span below 1. *)
Fixpoint ewm_from (alpha y : Q) (xs : list Q) : list Q :=
  match xs with
  | [] => []
  | x :: rest =>
      let y' := (1 - alpha) * y + alpha * x in
      y' :: ewm_from alpha y' rest
  end.

Definition ewm_mean (span : nat) (xs : list Q) : Py.outcome (list Q) :=
  if (span <? 1)%nat then Py.Raise Py.ValueError
  else
    let alpha := 2 / (Np.of_nat span + 1) in
    match xs with
    | [] => Py.Ok []
    | x :: rest => Py.Ok (x :: ewm_from alpha x rest)
    end.

End Pd.

(** ** Python lists *)

Module PyList.

(** [list.sort()] under the order [le]; the sort is stable. *)
Fixpoint insert (le : Q -> Q -> bool) (x : Q) (l : list Q) : list Q :=
  match l with
  | [] => [x]
  | y :: rest => if le y x then y :: insert le x rest else x :: l
  end.

Definition sort (le : Q -> Q -> bool) (l : list Q) : list Q :=
  fold_left (fun acc x => insert le x acc) l [].

(** [max(l)] of a non-empty list. *)
Definition max (l : list Q) : option Q :=
  match l with
  | [] => None
  | x :: rest => Some (fold_left (fun m y => if Py.gtb y m then y else m) rest x)
  end.

(** [min(l)] of a non-empty list. *)
Definition min (l : list Q) : option Q :=
  match l with
  | [] => None
  | x :: rest => Some (fold_left (fun m y => if Py.ltb y m then y else m) rest x)
  end.

(** The local-extremum test of the two support and resistance scans:
    [all(a[i] <= a[i-window:i]) and all(a[i] <= a[i+1:i+window+1])] when
    [cmp] is [<=], and the same with [>=]. *)
Definition is_local_extremum (cmp : Q -> Q -> bool) (a : list Q)
    (window i : nat) (x : Q) : bool :=
  forallb (cmp x) (Np.slice a (i - window) i)
  && forallb (cmp x) (Np.slice a (i + 1) (i + window + 1)).

End PyList.

(** ** eth_risk_manager.py *)

Module RiskManager.

(** The attributes of an [ETHRiskManager] instance. *)
Record ETHRiskManager : Type := {
  portfolio_value : Q;
  max_risk_per_trade : Q;
  max_portfolio_exposure : Q
}.

(** The dictionary [calculate_position_size] returns.  The explanation
    string is represented by [reduced], which tells which of its two
    texts was built. *)
Record PositionSize : Type := {
  position_size_coins : Q;
  position_size_dollars : Q;
  risk_amount : Q;
  risk_per_coin : Q;
  portfolio_percentage : Q;
  max_position_dollars : Q;
  reduced : bool
}.

(** The two ways [calculate_position_size] returns [None]: the guard on
    the prices, which prints "Entry price must be greater than stop-loss
    price", and the [except] handler, which prints the exception. *)
Inductive failure : Type :=
| InvalidInput
| Caught (e : Py.exn).

Definition protect {A : Type} (m : Py.outcome A) : failure + A :=
  match m with
  | Py.Ok a => inr a
  | Py.Raise e => inl (Caught e)
  end.

Definition calculate_position_size (self : ETHRiskManager)
    (entry_price stop_loss_price : Q) : failure + PositionSize :=
  let risk_amount := portfolio_value self * max_risk_per_trade self in
  if Py.leb entry_price stop_loss_price then inl InvalidInput
  else protect (
    let risk_per_coin := entry_price - stop_loss_price in
    position_size_coins <- Py.div risk_amount risk_per_coin ;;
    let position_size_dollars := position_size_coins * entry_price in
    let max_position_dollars :=
      portfolio_value self * max_portfolio_exposure self in
    sized <-
      (if Py.gtb position_size_dollars max_position_dollars then
         let position_size_dollars := max_position_dollars in
         position_size_coins <- Py.div position_size_dollars entry_price ;;
         let actual_risk_amount := position_size_coins * risk_per_coin in
         actual_risk_percentage <-
           Py.div actual_risk_amount (portfolio_value self) ;;
         (* the explanation formats risk_amount / max_risk_per_trade *)
         unreduced <- Py.div risk_amount (max_risk_per_trade self) ;;
         Py.Ok (position_size_dollars, position_size_coins, true)
       else Py.Ok (position_size_dollars, position_size_coins, false)) ;;
    let '(position_size_dollars, position_size_coins, reduced) := sized in
    portfolio_percentage <-
      Py.div position_size_dollars (portfolio_value self) ;;
    Py.Ok {| position_size_coins := position_size_coins;
             position_size_dollars := position_size_dollars;
             risk_amount := risk_amount;
             risk_per_coin := risk_per_coin;
             portfolio_percentage := portfolio_percentage;
             max_position_dollars := max_position_dollars;
             reduced := reduced |}).

(** What the Python caller receives: the dictionary or [None]. *)
Definition returned {A : Type} (r : failure + A) : option A :=
  match r with
  | inr a => Some a
  | inl _ => None
  end.

(** The dictionary [calculate_trailing_stop] returns; [trail_amount] is
    missing from the one built when the price is not above the entry. *)
Record TrailingStop : Type := {
  trailing_stop_price : Q;
  trail_amount : option Q;
  is_adjusted : bool
}.

Definition calculate_trailing_stop
    (entry_price current_price initial_stop_price trail_percentage : Q)
    : TrailingStop :=
  if Py.leb current_price entry_price then
    {| trailing_stop_price := initial_stop_price;
       trail_amount := None;
       is_adjusted := false |}
  else
    let trail_amount := current_price * (trail_percentage / 100) in
    let trailing_stop := current_price - trail_amount in
    if Py.gtb trailing_stop initial_stop_price then
      {| trailing_stop_price := trailing_stop;
         trail_amount := Some trail_amount;
         is_adjusted := true |}
    else
      {| trailing_stop_price := initial_stop_price;
         trail_amount := Some trail_amount;
         is_adjusted := false |}.

(** Repeated evaluation for one position: every returned stop is the
    initial stop of the next call.  The result lists the stops in order. *)
Fixpoint trailing_stops (entry_price trail_percentage stop : Q) (prices : list Q)
    : list Q :=
  match prices with
  | [] => []
  | current_price :: rest =>
      let stop' :=
        trailing_stop_price
          (calculate_trailing_stop entry_price current_price stop
             trail_percentage) in
      stop' :: trailing_stops entry_price trail_percentage stop' rest
  end.

(** One entry of the [methods] dictionary of [calculate_stop_loss].  Its
    keys are [stop_price], [risk_amount] (here [stop_risk_amount]),
    [risk_percentage] and, for the ATR method only, [atr_value]. *)
Record StopMethod : Type := {
  stop_price : Np.float;
  stop_risk_amount : Np.float;
  risk_percentage : Np.float;
  atr_value : option Np.float
}.

(** The dictionary [calculate_stop_loss] returns; [error] tells that it
    is the one the [except] handler builds. *)
Record StopLoss : Type := {
  entry_price : Q;
  methods : Py.dict StopMethod;
  recommended_method : string;
  recommended_stop_price : Np.float;
  error : option Py.exn
}.

(** The 14-period average of the true-range proxy. *)
Definition average_true_range (prices : list Q) : Py.outcome Np.float :=
  let price := Pd.of_prices prices in
  let high := Pd.rolling 2 Pd.agg_max price in
  let low := Pd.rolling 2 Pd.agg_min price in
  let close := price in
  let tr1 := Pd.zip_with Np.sub high low in
  let tr2 := map Np.abs (Pd.zip_with Np.sub high (Pd.shift close)) in
  let tr3 := map Np.abs (Pd.zip_with Np.sub low (Pd.shift close)) in
  let true_range :=
    Pd.zip_with Pd.max_skipna (Pd.zip_with Pd.max_skipna tr1 tr2) tr3 in
  Pd.iloc_back (Pd.rolling 14 Pd.agg_mean true_range) 1.

(** The scan for recent lows: the prices at the positions
    [window <= i < len - window] that pass the local-minimum test. *)
Definition recent_lows (prices : list Q) (window : nat) : list Q :=
  fold_left
    (fun support_levels i =>
       match nth_error prices i with
       | Some x =>
           if PyList.is_local_extremum Py.leb prices window i x
           then support_levels ++ [x]
           else support_levels
       | None => support_levels
       end)
    (seq window (length prices - window - window)) [].

Definition calculate_stop_loss (self : ETHRiskManager) (entry_price : Q)
    (historical_prices : option (list Q))
    (atr_multiplier fixed_percentage : Q) : StopLoss :=
  let body : Py.outcome StopLoss :=
    (* Method 1: fixed percentage *)
    let fixed_stop := entry_price * (1 - fixed_percentage) in
    let fixed_risk := entry_price - fixed_stop in
    fixed_risk_percentage <- Py.div fixed_risk entry_price ;;
    let methods :=
      Py.set_new [] "fixed_percentage"
        {| stop_price := Np.Fin fixed_stop;
           stop_risk_amount := Np.Fin fixed_risk;
           risk_percentage := Np.Fin fixed_risk_percentage;
           atr_value := None |} in
    methods <-
      match historical_prices with
      | Some prices =>
          if negb (length prices =? 0)%nat && (14 <=? length prices)%nat
          then
            (* Method 2: ATR *)
            atr <- average_true_range prices ;;
            let atr_stop :=
              Np.sub (Np.Fin entry_price)
                     (Np.mul atr (Np.Fin atr_multiplier)) in
            let atr_risk := Np.sub (Np.Fin entry_price) atr_stop in
            let atr_risk_percentage :=
              Np.div atr_risk (Np.Fin entry_price) in
            let methods :=
              Py.set_new methods "atr_based"
                {| stop_price := atr_stop;
                   stop_risk_amount := atr_risk;
                   risk_percentage := atr_risk_percentage;
                   atr_value := Some atr |} in
            (* Method 3: nearest support *)
            if (30 <=? length prices)%nat then
              let window := 5%nat in
              let support_levels := recent_lows prices window in
              let valid_supports :=
                filter (fun s => Py.ltb s entry_price) support_levels in
              match PyList.max valid_supports with
              | Some closest_support =>
                  let support_risk := entry_price - closest_support in
                  let support_risk_percentage :=
                    Np.div (Np.Fin support_risk) (Np.Fin entry_price) in
                  Py.Ok
                    (Py.set_new methods "support_based"
                       {| stop_price := Np.Fin closest_support;
                          stop_risk_amount := Np.Fin support_risk;
                          risk_percentage := support_risk_percentage;
                          atr_value := None |})
              | None => Py.Ok methods
              end
            else Py.Ok methods
          else Py.Ok methods
      | None => Py.Ok methods
      end ;;
    let within (k : string) : bool :=
      match Py.get methods k with
      | Some m => Np.leb (risk_percentage m) (Np.Fin 0.1)
      | None => false
      end in
    let recommended_method :=
      if within "atr_based"%string then "atr_based"%string
      else if within "support_based"%string then "support_based"%string
      else "fixed_percentage"%string in
    recommended <- Py.item methods recommended_method ;;
    Py.Ok {| entry_price := entry_price;
             methods := methods;
             recommended_method := recommended_method;
             recommended_stop_price := stop_price recommended;
             error := None |} in
  match body with
  | Py.Ok results => results
  | Py.Raise e =>
      {| entry_price := entry_price;
         methods :=
           [("fixed_percentage"%string,
             {| stop_price := Np.Fin (entry_price * (1 - fixed_percentage));
                stop_risk_amount := Np.Fin (entry_price * fixed_percentage);
                risk_percentage := Np.Fin fixed_percentage;
                atr_value := None |})];
         recommended_method := "fixed_percentage";
         recommended_stop_price :=
           Np.Fin (entry_price * (1 - fixed_percentage));
         error := Some e |}
  end.

(** One entry of the [targets] list of [calculate_take_profit_targets];
  the explanation string is left out. *)
Record Target : Type := {
  risk_reward_ratio : Q;
  target_price : Q;
  profit_amount : Q;
  profit_percentage : Q
}.

(** The dictionary [calculate_take_profit_targets] returns; its keys
  [entry_price], [stop_loss_price], [risk_amount] and [risk_percentage]
  carry the prefix [plan_] here. *)
Record TakeProfit : Type := {
  plan_entry_price : Q;
  plan_stop_loss_price : Q;
  plan_risk_amount : Q;
  plan_risk_percentage : Q;
  targets : list Target
}.

Definition calculate_take_profit_targets (entry_price stop_loss_price : Q)
    (risk_reward_ratios : list Q) : failure + TakeProfit :=
  protect (
    let risk := entry_price - stop_loss_price in
    targets <-
      Py.for_each
        (fun ratio =>
           let target_price := entry_price + risk * ratio in
           let profit := target_price - entry_price in
           profit_percentage <- Py.div profit entry_price ;;
           Py.Ok {| risk_reward_ratio := ratio;
                    target_price := target_price;
                    profit_amount := profit;
                    profit_percentage := profit_percentage |})
        risk_reward_ratios ;;
    risk_percentage <- Py.div risk entry_price ;;
    Py.Ok {| plan_entry_price := entry_price;
             plan_stop_loss_price := stop_loss_price;
             plan_risk_amount := risk;
             plan_risk_percentage := risk_percentage;
             targets := targets |}).

(** The manager built by the constructor's defaults. *)
Definition default_manager : ETHRiskManager :=
  {| portfolio_value := 10000;
     max_risk_per_trade := 0.02;
     max_portfolio_exposure := 0.25 |}.

End RiskManager.

(** ** eth_technical_analysis.py *)

Module TechnicalAnalysis.

Definition calculate_rsi (prices : list Q) (window : nat) : Np.float :=
  if (length prices <? window + 1)%nat then Np.Fin 50
  else
    let price_diff := Np.diff prices in
    let gains := map (fun d => if Py.ltb d 0 then 0 else d) price_diff in
    let losses := map (fun d => if Py.gtb d 0 then 0 else d) price_diff in
    let losses := map Qabs losses in
    let avg_gain := Np.mean (firstn window gains) in
    let avg_loss := Np.mean (firstn window losses) in
    if Np.eqb avg_loss (Np.Fin 0) then Np.Fin 100
    else
      let rs := Np.div avg_gain avg_loss in
      Np.sub (Np.Fin 100) (Np.div (Np.Fin 100) (Np.add (Np.Fin 1) rs)).

(** The dictionary [calculate_macd] returns: either the four keys
    [macd_line], [signal_line], [histogram] and [signal], or [signal]
    alone.  No path of [calculate_macd] stores [previous_histogram], the
    key that [evaluate_macd_signal] asks for. *)
Record MacdData : Type := {
  macd_line : option Q;
  signal_line : option Q;
  histogram : option Q;
  macd_signal : string;
  previous_histogram : option Q
}.

Definition macd_neutral : MacdData :=
  {| macd_line := None; signal_line := None; histogram := None;
     macd_signal := "neutral"; previous_histogram := None |}.

Definition minus_series (a b : list Q) : list Q :=
  map (fun p => fst p - snd p) (combine a b).

Definition calculate_macd (prices : list Q)
    (fast_period slow_period signal_period : nat) : MacdData :=
  let body : Py.outcome MacdData :=
    if (length prices <? slow_period + signal_period)%nat
    then Py.Ok macd_neutral
    else
      ema_fast <- Pd.ewm_mean fast_period prices ;;
      ema_slow <- Pd.ewm_mean slow_period prices ;;
      let macd_line := minus_series ema_fast ema_slow in
      signal_line <- Pd.ewm_mean signal_period macd_line ;;
      let histogram := minus_series macd_line signal_line in
      signal <-
        (if (length histogram <? 2)%nat then Py.Ok "neutral"%string
         else
           current_histogram <- Pd.iloc_back histogram 1 ;;
           previous_histogram <- Pd.iloc_back histogram 2 ;;
           if Py.gtb current_histogram 0 && Py.ltb previous_histogram 0
           then Py.Ok "buy"%string
           else if Py.ltb current_histogram 0 && Py.gtb previous_histogram 0
           then Py.Ok "sell"%string
           else Py.Ok "neutral"%string) ;;
      macd_last <- Pd.iloc_back macd_line 1 ;;
      signal_last <- Pd.iloc_back signal_line 1 ;;
      histogram_last <- Pd.iloc_back histogram 1 ;;
      Py.Ok {| macd_line := Some macd_last;
               signal_line := Some signal_last;
               histogram := Some histogram_last;
               macd_signal := signal;
               previous_histogram := None |} in
  match body with
  | Py.Ok result => result
  | Py.Raise _ => macd_neutral
  end.

(** The dictionary [check_moving_averages] returns: [signal] alone, or
    all five keys. *)
Record MAResult : Type := {
  ma_short : option Np.float;
  ma_long : option Np.float;
  ma_signal : string;
  golden_cross : option bool;
  death_cross : option bool
}.

Definition ma_signal_only (signal : string) : MAResult :=
  {| ma_short := None; ma_long := None; ma_signal := signal;
     golden_cross := None; death_cross := None |}.

Definition above_or_below (ma_short_current ma_long_current : Np.float)
    : string :=
  if Np.gtb ma_short_current ma_long_current then "above" else "below".

Definition check_moving_averages (prices : list Q) (ma_short ma_long : nat)
    : MAResult :=
  let body : Py.outcome MAResult :=
    if (length prices <? ma_long)%nat
    then Py.Ok (ma_signal_only "insufficient_data")
    else
      let prices_series := Pd.of_prices prices in
      let ma_short_values := Pd.rolling ma_short Pd.agg_mean prices_series in
      let ma_long_values := Pd.rolling ma_long Pd.agg_mean prices_series in
      ma_short_current <- Pd.iloc_back ma_short_values 1 ;;
      ma_long_current <- Pd.iloc_back ma_long_values 1 ;;
      if Np.isnan ma_short_current || Np.isnan ma_long_current
      then Py.Ok (ma_signal_only "insufficient_data")
      else
        signal <-
          (if (length ma_short_values <? 3)%nat
              || (length ma_long_values <? 3)%nat
           then Py.Ok (above_or_below ma_short_current ma_long_current)
           else
             ma_short_previous <- Pd.iloc_back ma_short_values 2 ;;
             ma_long_previous <- Pd.iloc_back ma_long_values 2 ;;
             if Np.isnan ma_short_previous || Np.isnan ma_long_previous
             then Py.Ok (above_or_below ma_short_current ma_long_current)
             else if Np.gtb ma_short_current ma_long_current
                     && Np.leb ma_short_previous ma_long_previous
             then Py.Ok "golden_cross"%string
             else if Np.ltb ma_short_current ma_long_current
                     && Np.geb ma_short_previous ma_long_previous
             then Py.Ok "death_cross"%string
             else Py.Ok (above_or_below ma_short_current ma_long_current)) ;;
        Py.Ok {| ma_short := Some ma_short_current;
                 ma_long := Some ma_long_current;
                 ma_signal := signal;
                 golden_cross := Some (String.eqb signal "golden_cross");
                 death_cross := Some (String.eqb signal "death_cross") |} in
  match body with
  | Py.Ok result => result
  | Py.Raise _ => ma_signal_only "error"
  end.


(** The dictionary [identify_support_resistance] returns. *)
Record SRLevels : Type := {
  support : list Q;
  resistance : list Q
}.

Definition no_levels : SRLevels := {| support := []; resistance := [] |}.

(** The scan for local minima and maxima: one pass over the positions
    [window <= i < len - window], appending to both lists. *)
Definition local_extrema (prices_array : list Q) (window : nat)
    : list Q * list Q :=
  fold_left
    (fun levels i =>
       let '(support_levels, resistance_levels) := levels in
       match nth_error prices_array i with
       | Some x =>
           (if PyList.is_local_extremum Py.leb prices_array window i x
            then support_levels ++ [x] else support_levels,
            if PyList.is_local_extremum Py.geb prices_array window i x
            then resistance_levels ++ [x] else resistance_levels)
       | None => levels
       end)
    (seq window (length prices_array - window - window)) ([], []).

Definition identify_support_resistance (prices : list Q) (window : nat)
    : SRLevels :=
  let body : Py.outcome SRLevels :=
    if (length prices <? window * 3)%nat then Py.Ok no_levels
    else
      let prices_array := prices in
      let '(support_levels, resistance_levels) :=
        local_extrema prices_array window in
      current_price <- Pd.iloc_back prices_array 1 ;;
      let relevant_support :=
        filter (fun level => Py.ltb level current_price) support_levels in
      let relevant_resistance :=
        filter (fun level => Py.gtb level current_price) resistance_levels in
      (* sort(reverse=True) and sort() *)
      let relevant_support := PyList.sort Py.geb relevant_support in
      let relevant_resistance := PyList.sort Py.leb relevant_resistance in
      let top_support := firstn 3 relevant_support in
      let top_resistance := firstn 3 relevant_resistance in
      Py.Ok {| support := top_support; resistance := top_resistance |} in
  match body with
  | Py.Ok result => result
  | Py.Raise _ => no_levels
  end.

(** The dictionary [analyze_price_data] returns when it is not empty. *)
Record Analysis : Type := {
  price : Q;
  rsi : Np.float;
  analysis_macd_signal : string;
  analysis_golden_cross : bool;
  analysis_death_cross : bool;
  support_levels : list Q;
  resistance_levels : list Q;
  buy_score : Q;
  sell_score : Q;
  recommendation : string
}.

(** [levels and min(abs(current_price - l) for l in levels) /
    current_price < 0.05]; the values are numpy floats. *)
Definition near (current_price : Q) (levels : list Q) : bool :=
  match PyList.min (map (fun l => Qabs (current_price - l)) levels) with
  | Some nearest =>
      Np.ltb (Np.div (Np.Fin nearest) (Np.Fin current_price)) (Np.Fin 0.05)
  | None => false
  end.

(** The label from the two scores. *)
Definition recommend (buy_signals sell_signals : Q) : string :=
  if Py.geb buy_signals 2 && Py.gtb buy_signals sell_signals then
    if Py.geb buy_signals 3 then "STRONG BUY" else "BUY"
  else if Py.geb sell_signals 2 && Py.gtb sell_signals buy_signals then
    if Py.geb sell_signals 3 then "STRONG SELL" else "SELL"
  else "HOLD".

(** [df] is given by its price column; the result is [None] for the
    empty dictionary. *)
Definition analyze_price_data (df : list Q) : option Analysis :=
  if (length df =? 0)%nat then None
  else
    let prices := df in
    match Pd.iloc_back prices 1 with
    | Py.Raise _ => None
    | Py.Ok current_price =>
        let rsi := calculate_rsi prices 14 in
        let macd_result := calculate_macd prices 12 26 9 in
        let ma_result := check_moving_averages prices 50 200 in
        let sr_levels := identify_support_resistance prices 10 in
        let buy_signals := 0 in
        let sell_signals := 0 in
        (* RSI signals *)
        let '(buy_signals, sell_signals) :=
          if Np.ltb rsi (Np.Fin 30) then (buy_signals + 1, sell_signals)
          else if Np.gtb rsi (Np.Fin 70) then (buy_signals, sell_signals + 1)
          else (buy_signals, sell_signals) in
        (* MACD signals *)
        let '(buy_signals, sell_signals) :=
          if String.eqb (macd_signal macd_result) "buy"
          then (buy_signals + 1, sell_signals)
          else if String.eqb (macd_signal macd_result) "sell"
          then (buy_signals, sell_signals + 1)
          else (buy_signals, sell_signals) in
        (* Moving average signals *)
        let '(buy_signals, sell_signals) :=
          if String.eqb (ma_signal ma_result) "golden_cross"
          then (buy_signals + 2, sell_signals)
          else if String.eqb (ma_signal ma_result) "death_cross"
          then (buy_signals, sell_signals + 2)
          else if String.eqb (ma_signal ma_result) "above"
          then (buy_signals + 0.5, sell_signals)
          else if String.eqb (ma_signal ma_result) "below"
          then (buy_signals, sell_signals + 0.5)
          else (buy_signals, sell_signals) in
        (* Support/Resistance proximity *)
        let buy_signals :=
          if near current_price (support sr_levels)
          then buy_signals + 0.5 else buy_signals in
        let sell_signals :=
          if near current_price (resistance sr_levels)
          then sell_signals + 0.5 else sell_signals in
        Some {| price := current_price;
                rsi := rsi;
                analysis_macd_signal := macd_signal macd_result;
                analysis_golden_cross :=
                  match golden_cross ma_result with
                  | Some b => b
                  | None => false
                  end;
                analysis_death_cross :=
                  match death_cross ma_result with
                  | Some b => b
                  | None => false
                  end;
                support_levels := support sr_levels;
                resistance_levels := resistance sr_levels;
                buy_score := buy_signals;
                sell_score := sell_signals;
                recommendation := recommend buy_signals sell_signals |}
    end.

End TechnicalAnalysis.

(** ** eth_investment_advisor.py *)

Module InvestmentAdvisor.

Import TechnicalAnalysis.

(** [d.get(key, default)] on a numeric key. *)
Definition get_or (value : option Q) (default : Q) : Q :=
  match value with
  | Some v => v
  | None => default
  end.

Record SignalVote : Type := {
  signal_strength : Q;
  explanation : string
}.

Definition evaluate_macd_signal (macd_data : MacdData) : SignalVote :=
  let macd_line := get_or (macd_line macd_data) 0 in
  let signal_line := get_or (signal_line macd_data) 0 in
  let histogram := get_or (histogram macd_data) 0 in
  let signal := macd_signal macd_data in
  if String.eqb signal "buy" then
    if Py.ltb macd_line 0 && Py.ltb signal_line 0 && Py.gtb histogram 0
    then {| signal_strength := 2.0;
            explanation := "MACD line crossed above signal line from below zero, strong buy signal" |}
    else {| signal_strength := 1.5;
            explanation := "MACD line crossed above signal line, buy signal" |}
  else if String.eqb signal "sell" then
    if Py.gtb macd_line 0 && Py.gtb signal_line 0 && Py.ltb histogram 0
    then {| signal_strength := -2.0;
            explanation := "MACD line crossed below signal line from above zero, strong sell signal" |}
    else {| signal_strength := -1.5;
            explanation := "MACD line crossed below signal line, sell signal" |}
  else
    if Py.gtb histogram 0
       && Py.gtb histogram (Qabs (get_or (previous_histogram macd_data) 0))
    then {| signal_strength := 0.5;
            explanation := "MACD histogram is positive and increasing, bullish momentum" |}
    else if Py.ltb histogram 0
            && Py.gtb (Qabs histogram)
                      (Qabs (get_or (previous_histogram macd_data) 0))
    then {| signal_strength := -0.5;
            explanation := "MACD histogram is negative and decreasing, bearish momentum" |}
    else {| signal_strength := 0;
            explanation := "MACD shows no clear signal" |}.

(** Which explanation [evaluate_rsi_signal] gives; each one quotes the
  RSI value. *)
Inductive rsi_reading : Type :=
| ExtremelyOversold
| Oversold
| ExtremelyOverbought
| Overbought
| NeutralLow
| NeutralHigh
| NeutralRsi.

Record RsiVote : Type := {
  rsi_strength : Np.float;
  rsi_explanation : rsi_reading
}.

(** [min(a, b)] and [max(a, b)] of Python: the second argument wins only
  if it is strictly smaller (larger). *)
Definition py_min (a b : Np.float) : Np.float := if Np.ltb b a then b else a.
Definition py_max (a b : Np.float) : Np.float := if Np.gtb b a then b else a.

Definition evaluate_rsi_signal (rsi_value : Np.float) : RsiVote :=
  if Np.ltb rsi_value (Np.Fin 30) then
    let signal_strength :=
      Np.div (Np.sub (Np.Fin 30) rsi_value) (Np.Fin 10) in
    if Np.ltb rsi_value (Np.Fin 20) then
      {| rsi_strength := py_min signal_strength (Np.Fin 2.0);
         rsi_explanation := ExtremelyOversold |}
    else
      {| rsi_strength := signal_strength; rsi_explanation := Oversold |}
  else if Np.gtb rsi_value (Np.Fin 70) then
    let signal_strength :=
      Np.div (Np.mul (Np.Fin (-1)) (Np.sub rsi_value (Np.Fin 70)))
             (Np.Fin 10) in
    if Np.gtb rsi_value (Np.Fin 80) then
      {| rsi_strength := py_max signal_strength (Np.Fin (-2.0));
         rsi_explanation := ExtremelyOverbought |}
    else
      {| rsi_strength := signal_strength; rsi_explanation := Overbought |}
  else if Np.ltb rsi_value (Np.Fin 45) then
    {| rsi_strength := Np.Fin 0.3; rsi_explanation := NeutralLow |}
  else if Np.gtb rsi_value (Np.Fin 55) then
    {| rsi_strength := Np.Fin (-0.3); rsi_explanation := NeutralHigh |}
  else
    {| rsi_strength := Np.Fin 0; rsi_explanation := NeutralRsi |}.

Definition evaluate_moving_averages (ma_data : MAResult) : SignalVote :=
  let signal := ma_signal ma_data in
  if String.eqb signal "golden_cross" then
    {| signal_strength := 2.0;
       explanation := "Golden cross detected (50-day MA crossed above 200-day MA), strong buy signal" |}
  else if String.eqb signal "death_cross" then
    {| signal_strength := -2.0;
       explanation := "Death cross detected (50-day MA crossed below 200-day MA), strong sell signal" |}
  else if String.eqb signal "above" then
    {| signal_strength := 1.0;
       explanation := "Price is above 200-day MA, bullish trend" |}
  else if String.eqb signal "below" then
    {| signal_strength := -1.0;
       explanation := "Price is below 200-day MA, bearish trend" |}
  else
    {| signal_strength := 0;
       explanation := "Moving averages show no clear signal" |}.

(** Which explanation [evaluate_support_resistance] gives; the first six
  quote the level they speak of. *)
Inductive level_reading : Type :=
| VeryCloseToSupport (level : Q)
| NearSupport (level : Q)
| ApproachingSupport (level : Q)
| VeryCloseToResistance (level : Q)
| NearResistance (level : Q)
| ApproachingResistance (level : Q)
| NotNearLevels.

Record LevelVote : Type := {
  level_strength : Q;
  level_explanation : level_reading
}.

(** The levels are numpy floats, so the two distances are numpy
  quotients. *)
Definition evaluate_support_resistance (price : Q) (sr_levels : SRLevels)
    : LevelVote :=
  let support_levels := support sr_levels in
  let resistance_levels := resistance sr_levels in
  let vote : Q * option level_reading := (0, None) in
  let vote :=
    match PyList.max support_levels with
    | Some closest_support =>
        let support_distance :=
          Np.mul (Np.div (Np.Fin (price - closest_support)) (Np.Fin price))
                 (Np.Fin 100) in
        if Np.ltb support_distance (Np.Fin 1)
        then (1.5, Some (VeryCloseToSupport closest_support))
        else if Np.ltb support_distance (Np.Fin 3)
        then (1.0, Some (NearSupport closest_support))
        else if Np.ltb support_distance (Np.Fin 5)
        then (0.5, Some (ApproachingSupport closest_support))
        else vote
    | None => vote
    end in
  let vote :=
    match PyList.min resistance_levels with
    | Some closest_resistance =>
        let resistance_distance :=
          Np.mul (Np.div (Np.Fin (closest_resistance - price)) (Np.Fin price))
                 (Np.Fin 100) in
        if Np.ltb resistance_distance (Np.Fin 1)
        then (-1.5, Some (VeryCloseToResistance closest_resistance))
        else if Np.ltb resistance_distance (Np.Fin 3)
        then
          if Py.ltb (fst vote) 1.5
          then (-1.0, Some (NearResistance closest_resistance))
          else vote
        else if Np.ltb resistance_distance (Np.Fin 5)
        then
          if Py.ltb (fst vote) 1.0
          then (-0.5, Some (ApproachingResistance closest_resistance))
          else vote
        else vote
    | None => vote
    end in
  {| level_strength := fst vote;
     level_explanation :=
       match snd vote with
       | Some reading => reading
       | None => NotNearLevels
       end |}.

(** Which explanation [evaluate_trend] gives. *)
Inductive trend_reading : Type :=
| InsufficientTrendData
| StrongUpward
| Upward
| SlightUpward
| StrongDownward
| Downward
| SlightDownward
| NoTrend.

Record TrendVote : Type := {
  trend_strength : Q;
  trend_explanation : trend_reading
}.

(** [prices[-window:]]: the last [window] prices, and all of them for a
  window of zero. *)
Definition recent (prices : list Q) (window : nat) : list Q :=
  if (window =? 0)%nat then prices
  else skipn (length prices - window) prices.

(** [np.arange(n)] *)
Definition arange (n : nat) : list Q := map Np.of_nat (seq 0 n).

Definition times (a b : list Q) : list Q :=
  map (fun p => fst p * snd p) (combine a b).

(** The least-squares slope of [y] over the positions [0 .. n-1]. *)
Definition regression_slope (y : list Q) : Np.float :=
  let x := arange (length y) in
  let n := Np.of_nat (length x) in
  Np.div
    (Np.Fin (n * Np.sum (times x y) - Np.sum x * Np.sum y))
    (Np.Fin (n * Np.sum (times x x) - Np.sum x * Np.sum x)).

Definition evaluate_trend (prices : list Q) (window : nat) : TrendVote :=
  if (length prices <? window)%nat then
    {| trend_strength := 0; trend_explanation := InsufficientTrendData |}
  else
    let recent_prices := recent prices window in
    let slope := regression_slope recent_prices in
    let avg_price := Np.mean recent_prices in
    let norm_slope := Np.mul (Np.div slope avg_price) (Np.Fin 100) in
    if Np.gtb norm_slope (Np.Fin 1.0) then
      {| trend_strength := 1.5; trend_explanation := StrongUpward |}
    else if Np.gtb norm_slope (Np.Fin 0.3) then
      {| trend_strength := 1.0; trend_explanation := Upward |}
    else if Np.gtb norm_slope (Np.Fin 0.1) then
      {| trend_strength := 0.5; trend_explanation := SlightUpward |}
    else if Np.ltb norm_slope (Np.Fin (-1.0)) then
      {| trend_strength := -1.5; trend_explanation := StrongDownward |}
    else if Np.ltb norm_slope (Np.Fin (-0.3)) then
      {| trend_strength := -1.0; trend_explanation := Downward |}
    else if Np.ltb norm_slope (Np.Fin (-0.1)) then
      {| trend_strength := -0.5; trend_explanation := SlightDownward |}
    else
      {| trend_strength := 0; trend_explanation := NoTrend |}.

End InvestmentAdvisor.

(** ** eth_performance_tracker.py *)

Module PerformanceTracker.

Record Trade : Type := {
  trade_date : Z;
  trade_type : string;
  trade_price : Q;
  amount : Q;
  value : Q
}.

Record Decision : Type := {
  date : Z;
  recommendation : string;
  price : Q
}.

Record Portfolio : Type := {
  eth_balance : Q;
  total_invested : Q;
  total_withdrawn : Q;
  current_value : Q;
  realized_pl : Q;
  unrealized_pl : Q;
  total_pl : Q;
  roi : Q
}.

Definition calculate_portfolio_value (trades : list Trade)
    (current_price : Q) : Portfolio :=
  let '(eth_balance, total_invested, total_withdrawn) :=
    fold_left
      (fun acc trade =>
         let '(eth_balance, total_invested, total_withdrawn) := acc in
         if String.eqb (trade_type trade) "buy" then
           (eth_balance + amount trade, total_invested + value trade,
            total_withdrawn)
         else if String.eqb (trade_type trade) "sell" then
           (eth_balance - amount trade, total_invested,
            total_withdrawn + value trade)
         else acc)
      trades (0, 0, 0) in
  let current_value := eth_balance * current_price in
  let realized_pl := total_withdrawn - total_invested in
  let unrealized_pl := current_value - (total_invested - total_withdrawn) in
  let total_pl := realized_pl + unrealized_pl in
  (* the division is guarded by total_invested > 0 *)
  let roi := if Py.gtb total_invested 0 then total_pl / total_invested
             else 0 in
  {| eth_balance := eth_balance;
     total_invested := total_invested;
     total_withdrawn := total_withdrawn;
     current_value := current_value;
     realized_pl := realized_pl;
     unrealized_pl := unrealized_pl;
     total_pl := total_pl;
     roi := roi |}.

(** What [calculate_performance_metrics] takes from its environment:

    - [now]: the clock, [datetime.now()].  Dates are time stamps, counted
      in seconds.
    - [pow_overflows x y]: whether the float power [x ** y] raises
      [OverflowError] (its result is beyond the largest double).  The
      power of a negative base is a complex number and does not raise.
    - [sort_values]: [decisions_df.sort_values("date")].  pandas sorts
      with quicksort, which is not stable: the order it gives to decisions
      of the same date is not fixed by the dates.  Of the routine only
      its contract is used, [sorts_by_date]. *)
Record Runtime : Type := {
  now : Z;
  pow_overflows : Q -> Q -> bool;
  sort_values : list Decision -> list Decision
}.

Definition sorts_by_date (sort : list Decision -> list Decision) : Prop :=
  forall decisions,
    Permutation decisions (sort decisions)
    /\ StronglySorted (fun a b => (date a <= date b)%Z) (sort decisions).

(** One routine that meets the contract: the stable insertion sort. *)
Fixpoint insert_by_date (d : Decision) (l : list Decision) : list Decision :=
  match l with
  | [] => [d]
  | d' :: rest =>
      if (date d' <=? date d)%Z then d' :: insert_by_date d rest
      else d :: l
  end.

Definition stable_sort_values (decisions : list Decision) : list Decision :=
  fold_left (fun acc d => insert_by_date d acc) decisions [].

(** The float power over exact numbers: [x ** y] is beyond the largest
    double when [x > 1], [y > 0] and [x ^ p >= 2 ^ (1024 * q)] for
    [y = p / q]. *)
Definition ideal_pow_overflows (x y : Q) : bool :=
  Py.gtb x 1 && Py.gtb y 0
  && Qle_bool (Qpower 2 (1024 * Zpos (Qden y))) (Qpower x (Qnum y)).

(** The environment over exact numbers, at a given time. *)
Definition ideal_runtime (now : Z) : Runtime :=
  {| now := now;
     pow_overflows := ideal_pow_overflows;
     sort_values := stable_sort_values |}.

(** The test "the recommendation was correct", on a price change that is
    a numpy float. *)
Definition was_correct (recommendation : string) (price_change : Np.float)
    : bool :=
  (String.eqb recommendation "BUY" && Np.gtb price_change (Np.Fin 0.02))
  || (String.eqb recommendation "SELL"
      && Np.ltb price_change (Np.Fin (-0.02)))
  || (String.eqb recommendation "HOLD"
      && Np.ltb (Np.abs price_change) (Np.Fin 0.05)).

(** The loop [for i in range(len(decisions_df) - 1)] with its two
    counters [correct_decisions] and [total_evaluated]. *)
Definition evaluate_accuracy (decisions_df : list Decision) : nat * nat :=
  fold_left
    (fun counters i =>
       let '(correct_decisions, total_evaluated) := counters in
       match nth_error decisions_df i, nth_error decisions_df (i + 1) with
       | Some current_decision, Some next_decision =>
           let price_change :=
             Np.div (Np.Fin (price next_decision - price current_decision))
                    (Np.Fin (price current_decision)) in
           ((if was_correct (recommendation current_decision) price_change
             then correct_decisions + 1 else correct_decisions)%nat,
            (total_evaluated + 1)%nat)
       | _, _ => counters
       end)
    (seq 0 (length decisions_df - 1)) (0%nat, 0%nat).

(** The metrics dictionary.  The values of the annualized return and
    of volatility, Sharpe ratio and drawdown (float powers and
    statistics) are left out: [has_annualized_return] and
    [has_risk_metrics] record whether the blocks that compute them ran.
    [decision_accuracy] is the key of that name, [None] when the key is
    missing. *)
Record Metrics : Type := {
  total_trades : nat;
  buy_trades : nat;
  sell_trades : nat;
  metrics_realized_pl : Q;
  metrics_unrealized_pl : Q;
  metrics_total_pl : Q;
  metrics_roi : Q;
  metrics_days_invested : Z;
  has_annualized_return : bool;
  has_risk_metrics : bool;
  decision_accuracy : option Q
}.

(** What [calculate_performance_metrics] returns: the error dictionary
    for an empty ledger, the metrics, or [None] from the [except]
    handler. *)
Inductive MetricsResult : Type :=
| NoTradeHistory
| Computed (metrics : Metrics)
| Failed (e : Py.exn).

Definition count_type (trades : list Trade) (type : string) : nat :=
  length (filter (fun trade => String.eqb (trade_type trade) type) trades).

(** [trades_df["date"].min()] of a ledger that is not empty. *)
Definition first_trade_date (trades : list Trade) : Z :=
  match map trade_date trades with
  | [] => 0
  | d :: rest => fold_left Z.min rest d
  end.

(** [(datetime.now() - first_trade_date).days]: whole days, rounded
    down. *)
Definition days_invested (now : Z) (trades : list Trade) : Z :=
  ((now - first_trade_date trades) / 86400)%Z.

(** Section 3 of the function, for a ledger that is not empty:
    [(1 + roi) ** (365 / days_invested)] is computed when
    [days_invested > 0]. *)
Definition annualized_return (rt : Runtime) (trades : list Trade)
    (roi : Q) : Py.outcome bool :=
  let days := days_invested (now rt) trades in
  if (0 <? days)%Z then
    if pow_overflows rt (1 + roi) (365 / inject_Z days)
    then Py.Raise Py.OverflowError
    else Py.Ok true
  else Py.Ok false.

Definition calculate_performance_metrics (rt : Runtime)
    (trades : list Trade) (decisions : list Decision) (current_price : Q)
    : MetricsResult :=
  let portfolio := calculate_portfolio_value trades current_price in
  if (length trades =? 0)%nat then NoTradeHistory
  else
    let body : Py.outcome Metrics :=
      (* 3. Time-based metrics *)
      has_annualized_return <-
        annualized_return rt trades (roi portfolio) ;;
      (* 4. Risk metrics *)
      let has_risk_metrics :=
        (1 <? length trades)%nat && (30 <=? length trades)%nat in
      (* 5. Decision effectiveness *)
      let decision_accuracy :=
        if (length decisions =? 0)%nat then None
        else
          let decisions_df := sort_values rt decisions in
          let '(correct_decisions, total_evaluated) :=
            evaluate_accuracy decisions_df in
          if (0 <? total_evaluated)%nat
          then Some (Np.of_nat correct_decisions / Np.of_nat total_evaluated)
          else None in
      Py.Ok {| total_trades := length trades;
               buy_trades := count_type trades "buy";
               sell_trades := count_type trades "sell";
               metrics_realized_pl := realized_pl portfolio;
               metrics_unrealized_pl := unrealized_pl portfolio;
               metrics_total_pl := total_pl portfolio;
               metrics_roi := roi portfolio;
               metrics_days_invested := days_invested (now rt) trades;
               has_annualized_return := has_annualized_return;
               has_risk_metrics := has_risk_metrics;
               decision_accuracy := decision_accuracy |} in
    match body with
    | Py.Ok metrics => Computed metrics
    | Py.Raise e => Failed e
    end.

(** The [price_change_pct] column that [evaluate_decision_history] adds
    to the sorted decisions: each price against the next one, and the
    last one against the current price. *)
Definition price_change_pct (rt : Runtime) (decisions : list Decision)
    (current_price : Q) : list Np.float :=
  let decisions_df := sort_values rt decisions in
  let next_price := tl (map price decisions_df) ++ [current_price] in
  map (fun p => Np.div (Np.Fin (snd p - price (fst p)))
                       (Np.Fin (price (fst p))))
      (combine decisions_df next_price).

(** An entry of the trade ledger: the trade with its [id] and [notes]
  keys. *)
Record RecordedTrade : Type := {
  trade_id : nat;
  trade : Trade;
  notes : string
}.

(** [record_trade] appends to [self.trades] and returns the new entry; the
  ledger is passed in and out.  The date is the argument (the clock is
  read by the caller when it is missing); saving to the file is left
  out. *)
Definition record_trade (trades : list RecordedTrade) (trade_type : string)
    (price amount : Q) (date : Z) (notes : string)
    : list RecordedTrade * RecordedTrade :=
  let entry :=
    {| trade_id := length trades + 1;
       trade := {| trade_date := date;
                   trade_type := Py.lower trade_type;
                   trade_price := price;
                   amount := amount;
                   value := price * amount |};
       notes := notes |} in
  (trades ++ [entry], entry).

(** An entry of the decision log; the analysis snapshot is left out. *)
Record RecordedDecision : Type := {
  decision_id : nat;
  decision : Decision
}.

Definition record_decision (decisions : list RecordedDecision)
    (recommendation : string) (price : Q) (date : Z)
    : list RecordedDecision * RecordedDecision :=
  let entry :=
    {| decision_id := length decisions + 1;
       decision := {| date := date;
                      recommendation := recommendation;
                      price := price |} |} in
  (decisions ++ [entry], entry).

End PerformanceTracker.

(** ** Notions of the design document

    The definitions below follow the words of the design document; the
    theorems compare the code with them. *)

(** The local-minimum test, by positions: [x] is at most every price of
    the [window] positions before [i] and of the [window] positions after
    it (as far as they exist). *)
Definition local_min_at (prices : list Q) (window i : nat) (x : Q) : Prop :=
  nth_error prices i = Some x
  /\ (forall j y, (i - window <= j < i)%nat ->
                 nth_error prices j = Some y -> x <= y)
  /\ (forall j y, (i < j <= i + window)%nat ->
                 nth_error prices j = Some y -> x <= y).

(** The local-maximum test, by positions. *)
Definition local_max_at (prices : list Q) (window i : nat) (x : Q) : Prop :=
  nth_error prices i = Some x
  /\ (forall j y, (i - window <= j < i)%nat ->
                 nth_error prices j = Some y -> y <= x)
  /\ (forall j y, (i < j <= i + window)%nat ->
                 nth_error prices j = Some y -> y <= x).


(** A stop-loss method is acceptable when it is present with a risk
    percentage of at most 10%. *)
Definition acceptable_risk (methods : Py.dict RiskManager.StopMethod)
    (method : string) : Prop :=
  exists m, Py.get methods method = Some m
            /\ Np.leb (RiskManager.risk_percentage m) (Np.Fin 0.1) = true.

(** The price change at position [i] of a series: the price that follows
    minus the price at [i].  The gain and the loss of a change, and their
    averages over the first [window] changes of a series, written by
    positions. *)
Definition change_at (prices : list Q) (i : nat) : Q :=
  nth (i + 1) prices 0 - nth i prices 0.

Definition gain_of (d : Q) : Q := Qmax d 0.
Definition loss_of (d : Q) : Q := Qmax (- d) 0.

(** [f 0 + ... + f (n - 1)] *)
Fixpoint sum_to (f : nat -> Q) (n : nat) : Q :=
  match n with
  | O => 0
  | S k => sum_to f k + f k
  end.

Definition average_gain (prices : list Q) (window : nat) : Q :=
  sum_to (fun i => gain_of (change_at prices i)) window
  / inject_Z (Z.of_nat window).

Definition average_loss (prices : list Q) (window : nat) : Q :=
  sum_to (fun i => loss_of (change_at prices i)) window
  / inject_Z (Z.of_nat window).

(** The simple moving average of the [w] prices that end [back] samples
    before the most recent one ([back = 0] is the current value, [back = 1]
    the previous one); undefined for an empty window and while fewer than
    [w] prices are there. *)
Definition moving_average (prices : list Q) (w back : nat) : option Q :=
  let n := length prices in
  if ((1 <=? w) && (w + back <=? n))%nat
  then Some (Np.sum (Np.slice prices (n - back - w) (n - back)) / Np.of_nat w)
  else None.

(** Decision accuracy in the words of the design document.  The relative
    price change from a decision to the price it is judged against: *)
Definition price_change (price next_price : Q) : Q :=
  (next_price - price) / price.

(** A decision is correct if it is BUY and the change exceeds +2%, SELL and
    the change is below -2%, or HOLD and the absolute change is below 5%. *)
Definition correct_call (recommendation : string) (change : Q) : bool :=
  (String.eqb recommendation "BUY" && Py.gtb change 0.02)
  || (String.eqb recommendation "SELL" && Py.ltb change (-0.02))
  || (String.eqb recommendation "HOLD" && Py.ltb (Qabs change) 0.05).

Definition judged_correct (d : PerformanceTracker.Decision) (next_price : Q)
    : bool :=
  correct_call (PerformanceTracker.recommendation d)
    (price_change (PerformanceTracker.price d) next_price).

(** The time-ordered log of a set of decisions taken at distinct times:
    the same decisions, each strictly earlier than the next. *)
Definition time_ordered (decisions log : list PerformanceTracker.Decision)
    : Prop :=
  Permutation decisions log
  /\ StronglySorted
       (fun a b => (PerformanceTracker.date a < PerformanceTracker.date b)%Z)
       log.

(** Every decision of a time-ordered log but the last, with the price of
    its immediate successor. *)
Definition with_successor (log : list PerformanceTracker.Decision)
    : list (PerformanceTracker.Decision * Q) :=
  combine log (map PerformanceTracker.price (tl log)).

(** The same, and the last decision with the supplied current price. *)
Definition with_successor_or_current
    (log : list PerformanceTracker.Decision) (current_price : Q)
    : list (PerformanceTracker.Decision * Q) :=
  combine log (map PerformanceTracker.price (tl log) ++ [current_price]).

Definition correct_among (evaluated : list (PerformanceTracker.Decision * Q))
    : nat :=
  length (filter (fun p => judged_correct (fst p) (snd p)) evaluated).

(** The accuracy as the design document describes it, on a time-ordered
    log: computed only with at least 30 trades, over every decision, the
    last one against the current price. *)
Definition documented_accuracy (trades : list PerformanceTracker.Trade)
    (log : list PerformanceTracker.Decision) (current_price : Q)
    : option Q :=
  let evaluated := with_successor_or_current log current_price in
  if (30 <=? length trades)%nat && (1 <=? length evaluated)%nat
  then Some (Np.of_nat (correct_among evaluated)
             / Np.of_nat (length evaluated))
  else None.

(** The [decision_accuracy] key of a result, if it is there. *)
Definition accuracy_of (result : PerformanceTracker.MetricsResult)
    : option Q :=
  match result with
  | PerformanceTracker.Computed metrics =>
      PerformanceTracker.decision_accuracy metrics
  | PerformanceTracker.NoTradeHistory => None
  | PerformanceTracker.Failed _ => None
  end.

(** What the Python caller receives from
    [calculate_performance_metrics]: a dictionary, or [None]. *)
Definition returns_none (result : PerformanceTracker.MetricsResult) : Prop :=
  exists e, result = PerformanceTracker.Failed e.

(** The take-profit target of one risk-reward ratio. *)
Definition target_for (entry_price stop_loss_price ratio : Q)
    : RiskManager.Target :=
  let risk := entry_price - stop_loss_price in
  {| RiskManager.risk_reward_ratio := ratio;
     RiskManager.target_price := entry_price + risk * ratio;
     RiskManager.profit_amount := entry_price + risk * ratio - entry_price;
     RiskManager.profit_percentage :=
       (entry_price + risk * ratio - entry_price) / entry_price |}.

(** The true-range proxy of [calculate_stop_loss] as a series, and the
    mean of the last [k] absolute price changes. *)
Definition true_range_series (prices : list Q) : Pd.Series :=
  let price := Pd.of_prices prices in
  let high := Pd.rolling 2 Pd.agg_max price in
  let low := Pd.rolling 2 Pd.agg_min price in
  let close := price in
  let tr1 := Pd.zip_with Np.sub high low in
  let tr2 := map Np.abs (Pd.zip_with Np.sub high (Pd.shift close)) in
  let tr3 := map Np.abs (Pd.zip_with Np.sub low (Pd.shift close)) in
  Pd.zip_with Pd.max_skipna (Pd.zip_with Pd.max_skipna tr1 tr2) tr3.

Definition mean_absolute_change (prices : list Q) (k : nat) : Q :=
  let changes := Np.diff prices in
  Np.sum (map Qabs (skipn (length changes - k) changes)) / Np.of_nat k.

(** The signals of [check_moving_averages] that
    [evaluate_moving_averages] reads as bullish, and as bearish. *)
Definition bullish_signal (signal : string) : Prop :=
  signal = "golden_cross"%string \/ signal = "above"%string.

Definition bearish_signal (signal : string) : Prop :=
  signal = "death_cross"%string \/ signal = "below"%string.

(** The trades of one type in a ledger, and the sum of a column over
    trades. *)
Definition trades_of (type : string)
    (trades : list PerformanceTracker.Trade) : list PerformanceTracker.Trade :=
  filter (fun t => String.eqb (PerformanceTracker.trade_type t) type) trades.

Definition total_of (column : PerformanceTracker.Trade -> Q)
    (trades : list PerformanceTracker.Trade) : Q :=
  Np.sum (map column trades).

(** A recommendation that the accuracy count does not know. *)
Definition unrecognised (recommendation : string) : Prop :=
  recommendation <> "BUY"%string /\ recommendation <> "SELL"%string
  /\ recommendation <> "HOLD"%string.

(** * Properties *)

(** ** Comparisons and division *)

Lemma gtb_spec (a b : Q) : Py.gtb a b = true <-> b < a.
Proof.
  unfold Py.gtb. rewrite negb_true_iff.
  destruct (Qle_bool a b) eqn:E.
  - apply Qle_bool_iff in E. split; [discriminate | lra].
  - split; [intros _ | reflexivity].
    apply Qnot_le_lt. intro H. apply Qle_bool_iff in H. congruence.
Qed.

Lemma gtb_false (a b : Q) : Py.gtb a b = false <-> a <= b.
Proof.
  unfold Py.gtb. rewrite negb_false_iff. apply Qle_bool_iff.
Qed.

Lemma ltb_spec (a b : Q) : Py.ltb a b = true <-> a < b.
Proof. apply gtb_spec. Qed.

Lemma ltb_false (a b : Q) : Py.ltb a b = false <-> b <= a.
Proof. apply gtb_false. Qed.

Lemma leb_spec (a b : Q) : Py.leb a b = true <-> a <= b.
Proof. apply Qle_bool_iff. Qed.

Lemma leb_false (a b : Q) : Py.leb a b = false <-> b < a.
Proof.
  unfold Py.leb. rewrite <- negb_true_iff. apply gtb_spec.
Qed.

Lemma geb_spec (a b : Q) : Py.geb a b = true <-> b <= a.
Proof. apply Qle_bool_iff. Qed.

Lemma geb_false (a b : Q) : Py.geb a b = false <-> a < b.
Proof. apply leb_false. Qed.

Lemma div_ok (a b : Q) : ~ b == 0 -> Py.div a b = Py.Ok (a / b).
Proof.
  intros H. unfold Py.div.
  destruct (Qeq_bool b 0) eqn:E; [| reflexivity].
  apply Qeq_bool_iff in E. contradiction.
Qed.

Lemma div_zero (a b : Q) :
  b == 0 -> Py.div a b = Py.Raise Py.ZeroDivisionError.
Proof.
  intros H. unfold Py.div. apply Qeq_bool_iff in H. now rewrite H.
Qed.

(** Turn the boolean tests of a goal or hypothesis into order facts. *)
Ltac py_order :=
  repeat match goal with
  | H : Py.gtb _ _ = true |- _ => apply gtb_spec in H
  | H : Py.gtb _ _ = false |- _ => apply gtb_false in H
  | H : Py.ltb _ _ = true |- _ => apply ltb_spec in H
  | H : Py.ltb _ _ = false |- _ => apply ltb_false in H
  | H : Py.leb _ _ = true |- _ => apply leb_spec in H
  | H : Py.leb _ _ = false |- _ => apply leb_false in H
  | H : Py.geb _ _ = true |- _ => apply geb_spec in H
  | H : Py.geb _ _ = false |- _ => apply geb_false in H
  end.

(** ** Position sizing *)

Module PositionSizing.

Import RiskManager.

Section Sizing.

Variable self : ETHRiskManager.
Variables entry_price stop_loss_price : Q.

Local Abbreviation risk :=
  (portfolio_value self * max_risk_per_trade self).
Local Abbreviation cap :=
  (portfolio_value self * max_portfolio_exposure self).
Local Abbreviation raw_coins := (risk / (entry_price - stop_loss_price)).
Local Abbreviation raw_dollars := (raw_coins * entry_price).

(** Within the exposure cap the risk-based size is returned. *)
Lemma size_within_cap :
  stop_loss_price < entry_price ->
  ~ portfolio_value self == 0 ->
  raw_dollars <= cap ->
  calculate_position_size self entry_price stop_loss_price =
  inr {| position_size_coins := raw_coins;
         position_size_dollars := raw_dollars;
         risk_amount := risk;
         risk_per_coin := entry_price - stop_loss_price;
         portfolio_percentage := raw_dollars / portfolio_value self;
         max_position_dollars := cap;
         reduced := false |}.
Proof.
  intros Hlt Hpv Hcap. unfold calculate_position_size.
  apply leb_false in Hlt. rewrite Hlt.
  apply leb_false in Hlt.
  rewrite div_ok by lra. cbn [Py.bind].
  apply gtb_false in Hcap.
  rewrite Hcap. cbn [Py.bind].
  rewrite div_ok by assumption. reflexivity.
Qed.

(** Above the cap the size is clamped, provided the three divisions of
    the clamp branch are defined. *)
Lemma size_clamped :
  stop_loss_price < entry_price ->
  ~ portfolio_value self == 0 ->
  cap < raw_dollars ->
  ~ entry_price == 0 ->
  ~ max_risk_per_trade self == 0 ->
  calculate_position_size self entry_price stop_loss_price =
  inr {| position_size_coins := cap / entry_price;
         position_size_dollars := cap;
         risk_amount := risk;
         risk_per_coin := entry_price - stop_loss_price;
         portfolio_percentage := cap / portfolio_value self;
         max_position_dollars := cap;
         reduced := true |}.
Proof.
  intros Hlt Hpv Hcap He Hr. unfold calculate_position_size.
  apply leb_false in Hlt. rewrite Hlt.
  apply leb_false in Hlt.
  rewrite div_ok by lra. cbn [Py.bind].
  apply gtb_spec in Hcap.
  rewrite Hcap.
  rewrite (div_ok cap) by assumption. cbn [Py.bind].
  rewrite div_ok by assumption. cbn [Py.bind].
  rewrite div_ok by assumption. cbn [Py.bind].
  rewrite div_ok by assumption. reflexivity.
Qed.

End Sizing.

(** On the configuration the design document admits, a dollar size above
    the cap leaves every divisor of the clamp branch other than zero. *)
Lemma clamp_divisors_defined (self : ETHRiskManager)
    (entry_price stop_loss_price : Q) :
  0 < portfolio_value self ->
  0 < max_risk_per_trade self ->
  0 < max_portfolio_exposure self ->
  stop_loss_price < entry_price ->
  portfolio_value self * max_portfolio_exposure self
  < portfolio_value self * max_risk_per_trade self
    / (entry_price - stop_loss_price) * entry_price ->
  ~ entry_price == 0 /\ ~ max_risk_per_trade self == 0.
Proof.
  intros Hpv Hrisk Hexp Hlt Hover. split; [| lra].
  intros Hzero.
  assert (portfolio_value self * max_risk_per_trade self
          / (entry_price - stop_loss_price) * entry_price == 0) as Hraw
    by (rewrite Hzero at 2; ring).
  assert (0 < portfolio_value self * max_portfolio_exposure self)
    by nra.
  lra.
Qed.

(** C1.  For every configuration the design document admits (a positive
    portfolio value, a risk fraction and an exposure limit strictly
    between 0 and 1) and every call with [entry_price > stop_loss_price],
    [calculate_position_size] returns a result with
    [risk_amount = portfolio_value * max_risk_per_trade]; the coins are
    [risk_amount / (entry_price - stop_loss_price)] and the dollars
    [coins * entry_price] while those dollars are within
    [portfolio_value * max_portfolio_exposure]; beyond that the dollars are
    exactly the cap and the coins [cap / entry_price]; the returned dollars
    never exceed the cap.  For entry 3000, stop 2800, portfolio 10000, risk
    0.02 and exposure 0.25 the risk amount is 200, the dollars 2500 and the
    coins 2500/3000. *)
Theorem position_size_respects_cap :
  (forall (self : ETHRiskManager) (entry_price stop_loss_price : Q),
     let risk := portfolio_value self * max_risk_per_trade self in
     let cap := portfolio_value self * max_portfolio_exposure self in
     let raw_coins := risk / (entry_price - stop_loss_price) in
     let raw_dollars := raw_coins * entry_price in
     0 < portfolio_value self ->
     0 < max_risk_per_trade self < 1 ->
     0 < max_portfolio_exposure self < 1 ->
     stop_loss_price < entry_price ->
     exists r,
       calculate_position_size self entry_price stop_loss_price = inr r
       /\ returned (calculate_position_size self entry_price stop_loss_price)
          = Some r
       /\ risk_amount r = risk
       /\ (raw_dollars <= cap ->
           position_size_coins r = raw_coins
           /\ position_size_dollars r = position_size_coins r * entry_price)
       /\ (cap < raw_dollars ->
           position_size_dollars r = cap
           /\ position_size_coins r = cap / entry_price)
       /\ position_size_dollars r <= cap)
  /\ (exists r,
        calculate_position_size default_manager 3000 2800 = inr r
        /\ risk_amount r == 200
        /\ position_size_dollars r == 2500
        /\ position_size_coins r == 2500 / 3000).
Proof.
  split.
  - intros self entry_price stop_loss_price risk cap raw_coins raw_dollars
      Hpv [Hrisk _] [Hexp _] Hlt.
    assert (~ portfolio_value self == 0) as Hpv0 by lra.
    destruct (Qlt_le_dec cap raw_dollars) as [Hover | Hunder].
    + destruct (clamp_divisors_defined self entry_price stop_loss_price
                  Hpv Hrisk Hexp Hlt Hover) as [He Hr].
      eexists. split; [apply size_clamped; assumption |].
      rewrite size_clamped by assumption.
      cbn [returned risk_amount position_size_coins position_size_dollars].
      split; [reflexivity |].
      split; [reflexivity |]. split; [| split].
      * intros Hle. exfalso. apply (Qlt_not_le _ _ Hover Hle).
      * intros _. split; reflexivity.
      * apply Qle_refl.
    + eexists. split; [apply size_within_cap; assumption |].
      rewrite size_within_cap by assumption.
      cbn [returned risk_amount position_size_coins position_size_dollars].
      split; [reflexivity |].
      split; [reflexivity |]. split; [| split].
      * intros _. split; reflexivity.
      * intros Hgt. exfalso. apply (Qlt_not_le _ _ Hgt Hunder).
      * exact Hunder.
  - eexists. split; [vm_compute; reflexivity |].
    repeat split.
Qed.

(** The instance of C1 at the documented example: the clamp applies. *)
Lemma position_size_respects_cap_witness :
  0 < portfolio_value default_manager
  /\ 2800 < 3000
  /\ exists r,
       calculate_position_size default_manager 3000 2800 = inr r
       /\ position_size_dollars r = 10000 * 0.25
       /\ position_size_coins r = 10000 * 0.25 / 3000
       /\ position_size_dollars r <= 10000 * 0.25.
Proof.
  split; [reflexivity |]. split; [reflexivity |].
  destruct (proj1 position_size_respects_cap default_manager 3000 2800)
    as [r [Hr [_ [_ [_ [Hclamp Hle]]]]]].
  - reflexivity.
  - split; reflexivity.
  - split; reflexivity.
  - reflexivity.
  - exists r. split; [exact Hr |].
    destruct Hclamp as [Hdollars Hcoins]; [reflexivity |].
    split; [exact Hdollars |]. split; [exact Hcoins | exact Hle].
Defined.

(** C7.  Whenever [entry_price <= stop_loss_price] the guard rejects the
    input: no result is produced and [None] is returned, whatever the
    portfolio value, the risk fraction and the exposure limit. *)
Theorem position_size_rejects_invalid_input :
  forall (self : ETHRiskManager) (entry_price stop_loss_price : Q),
    entry_price <= stop_loss_price ->
    calculate_position_size self entry_price stop_loss_price
    = inl InvalidInput
    /\ returned (calculate_position_size self entry_price stop_loss_price)
       = None.
Proof.
  intros self entry_price stop_loss_price Hle.
  unfold calculate_position_size.
  apply leb_spec in Hle. rewrite Hle. split; reflexivity.
Qed.

Lemma position_size_rejects_invalid_input_witness :
  2800 <= 2800
  /\ calculate_position_size default_manager 2800 2800 = inl InvalidInput.
Proof.
  split; [discriminate |].
  apply (position_size_rejects_invalid_input default_manager 2800 2800).
  discriminate.
Defined.

End PositionSizing.

(** ** Slices, series and scans *)

Lemma In_slice {A : Type} (a : list A) (lo hi : nat) (y : A) :
  In y (Np.slice a lo hi)
  <-> exists j, (lo <= j < hi)%nat /\ nth_error a j = Some y.
Proof.
  unfold Np.slice. rewrite In_iff_nth_error. split.
  - intros [k Hk]. rewrite nth_error_firstn in Hk.
    destruct (Nat.ltb_spec k (hi - lo)) as [Hlt | Hge]; [| discriminate].
    rewrite nth_error_skipn in Hk.
    exists (lo + k)%nat. split; [lia | assumption].
  - intros [j [Hj Hy]]. exists (j - lo)%nat.
    rewrite nth_error_firstn.
    destruct (Nat.ltb_spec (j - lo) (hi - lo)) as [Hlt | Hge]; [| lia].
    rewrite nth_error_skipn. replace (lo + (j - lo))%nat with j by lia.
    assumption.
Qed.

Lemma iloc_back_spec {A : Type} (s : list A) (k : nat) (x : A) :
  (1 <= k)%nat ->
  Pd.iloc_back s k = Py.Ok x
  <-> (k <= length s)%nat /\ nth_error s (length s - k) = Some x.
Proof.
  intros Hk. unfold Pd.iloc_back. rewrite nth_error_rev.
  destruct (Nat.ltb_spec (k - 1) (length s)) as [Hlt | Hge].
  - replace (length s - S (k - 1))%nat with (length s - k)%nat by lia.
    destruct (nth_error s (length s - k)) as [y |] eqn:E.
    + split.
      * intros H. injection H as ->. split; [lia | reflexivity].
      * intros [_ H]. injection H as ->. reflexivity.
    + split; [discriminate | intros [_ H]; discriminate].
  - split; [discriminate | intros [H _]; lia].
Qed.

Lemma iloc_back_defined {A : Type} (s : list A) (k : nat) :
  (1 <= k <= length s)%nat -> exists x, Pd.iloc_back s k = Py.Ok x.
Proof.
  intros Hk.
  destruct (nth_error s (length s - k)) as [x |] eqn:E.
  - exists x. apply iloc_back_spec; [lia |]. split; [lia | assumption].
  - apply nth_error_None in E. lia.
Qed.

Lemma iloc_back_raises {A : Type} (s : list A) (k : nat) :
  (1 <= k)%nat -> (length s < k)%nat ->
  Pd.iloc_back s k = Py.Raise Py.IndexError.
Proof.
  intros Hk Hlen. unfold Pd.iloc_back. rewrite nth_error_rev.
  destruct (Nat.ltb_spec (k - 1) (length s)) as [Hlt | Hge];
    [lia | reflexivity].
Qed.

Lemma length_rolling (w : nat) (agg : list Q -> Q) (s : Pd.Series) :
  length (Pd.rolling w agg s) = length s.
Proof. unfold Pd.rolling. now rewrite length_map, length_seq. Qed.

Lemma length_shift (s : Pd.Series) : length (Pd.shift s) = length s.
Proof.
  destruct s as [| x s]; [reflexivity |].
  unfold Pd.shift. cbn [length]. f_equal.
  revert x. induction s as [| y s IH]; intros x; [reflexivity |].
  cbn [removelast length] in *. f_equal. apply IH.
Qed.

Lemma length_zip_with (f : Np.float -> Np.float -> Np.float)
    (a b : Pd.Series) :
  length (Pd.zip_with f a b) = Nat.min (length a) (length b).
Proof. unfold Pd.zip_with. now rewrite length_map, length_combine. Qed.

Lemma length_of_prices (prices : list Q) :
  length (Pd.of_prices prices) = length prices.
Proof. apply length_map. Qed.

(** A scan that appends the selected elements: what it holds at the end. *)
Lemma In_scan {A B : Type} (step : list A -> B -> list A)
    (select : B -> option A) :
  (forall acc i, step acc i = match select i with
                              | Some y => acc ++ [y]
                              | None => acc
                              end) ->
  forall (l : list B) (acc : list A) (x : A),
    In x (fold_left step l acc)
    <-> In x acc \/ exists i, In i l /\ select i = Some x.
Proof.
  intros Hstep.
  induction l as [| i l IH]; intros acc x; cbn [fold_left].
  - split; [auto | intros [H | [i [[] _]]]; assumption].
  - rewrite IH, Hstep. destruct (select i) as [y |] eqn:E.
    + rewrite in_app_iff. cbn [In]. split.
      * intros [[H | [H | []]] | [j [Hj Hs]]].
        -- left; assumption.
        -- subst y. right. exists i. split; [left; reflexivity | assumption].
        -- right. exists j. split; [right; assumption | assumption].
      * intros [H | [j [[Hj | Hj] Hs]]].
        -- left; left; assumption.
        -- subst j. rewrite E in Hs. injection Hs as ->.
           left; right; left; reflexivity.
        -- right. exists j. split; assumption.
    + split.
      * intros [H | [j [Hj Hs]]]; [left; assumption |].
        right. exists j. split; [right; assumption | assumption].
      * intros [H | [j [[Hj | Hj] Hs]]].
        -- left; assumption.
        -- subst j. congruence.
        -- right. exists j. split; assumption.
Qed.

Lemma is_local_min_spec (prices : list Q) (window i : nat) (x : Q) :
  PyList.is_local_extremum Py.leb prices window i x = true
  <-> (forall j y, (i - window <= j < i)%nat ->
                   nth_error prices j = Some y -> x <= y)
      /\ (forall j y, (i < j <= i + window)%nat ->
                      nth_error prices j = Some y -> x <= y).
Proof.
  unfold PyList.is_local_extremum.
  rewrite andb_true_iff, !forallb_forall.
  split; intros [Hbefore Hafter]; split.
  - intros j y Hj Hy. apply leb_spec. apply Hbefore.
    apply In_slice. exists j. split; assumption.
  - intros j y Hj Hy. apply leb_spec. apply Hafter.
    apply In_slice. exists j. split; [lia | assumption].
  - intros y Hy. apply In_slice in Hy. destruct Hy as [j [Hj Hy]].
    apply leb_spec. apply (Hbefore j); assumption.
  - intros y Hy. apply In_slice in Hy. destruct Hy as [j [Hj Hy]].
    apply leb_spec. apply (Hafter j); [lia | assumption].
Qed.

Lemma In_recent_lows (prices : list Q) (window : nat) (x : Q) :
  In x (RiskManager.recent_lows prices window)
  <-> exists i, (window <= i < length prices - window)%nat
                /\ local_min_at prices window i x.
Proof.
  unfold RiskManager.recent_lows.
  rewrite (In_scan _
             (fun i => match nth_error prices i with
                       | Some y =>
                           if PyList.is_local_extremum Py.leb prices window i y
                           then Some y else None
                       | None => None
                       end)).
  - cbn [In]. split.
    + intros [[] | [i [Hi Hsel]]]. apply in_seq in Hi.
      destruct (nth_error prices i) as [y |] eqn:Hy; [| discriminate].
      destruct (PyList.is_local_extremum Py.leb prices window i y) eqn:Ht;
        [| discriminate].
      injection Hsel as ->. exists i. split; [lia |].
      split; [assumption |]. apply is_local_min_spec. assumption.
    + intros [i [Hi [Hy Hmin]]]. right. exists i. split.
      * apply in_seq. lia.
      * rewrite Hy. apply is_local_min_spec in Hmin. rewrite Hmin.
        reflexivity.
  - intros acc i. destruct (nth_error prices i) as [y |]; [| reflexivity].
    destruct (PyList.is_local_extremum Py.leb prices window i y);
      reflexivity.
Qed.

Lemma py_max_none (l : list Q) : PyList.max l = None <-> l = [].
Proof.
  destruct l; cbn; split; congruence.
Qed.

Lemma py_max_fold_ge (l : list Q) :
  forall m, m <= fold_left (fun m y => if Py.gtb y m then y else m) l m
            /\ Forall (fun y =>
                         y <= fold_left (fun m y => if Py.gtb y m then y else m)
                                l m) l.
Proof.
  induction l as [| y l IH]; intros m; cbn [fold_left].
  - split; [lra | constructor].
  - destruct (Py.gtb y m) eqn:E; py_order.
    + destruct (IH y) as [H1 H2]. split; [lra |].
      constructor; assumption.
    + destruct (IH m) as [H1 H2]. split; [assumption |].
      constructor; [lra | assumption].
Qed.

Lemma py_max_fold_in (l : list Q) :
  forall m, let r := fold_left (fun m y => if Py.gtb y m then y else m) l m in
            r = m \/ In r l.
Proof.
  induction l as [| y l IH]; intros m; cbn [fold_left].
  - left; reflexivity.
  - cbv zeta. destruct (Py.gtb y m).
    + destruct (IH y) as [H | H]; cbv zeta in H.
      * right; left. symmetry. exact H.
      * right; right. exact H.
    + destruct (IH m) as [H | H]; cbv zeta in H.
      * left. exact H.
      * right; right. exact H.
Qed.

Lemma py_max_spec (l : list Q) (m : Q) :
  PyList.max l = Some m -> In m l /\ Forall (fun y => y <= m) l.
Proof.
  destruct l as [| x l]; [discriminate |].
  cbn [PyList.max]. intros H. injection H as <-. split.
  - destruct (py_max_fold_in l x) as [H | H]; cbv zeta in H.
    + left. symmetry. exact H.
    + right. exact H.
  - destruct (py_max_fold_ge l x) as [H1 H2]. constructor; assumption.
Qed.

(** ** Trailing stop *)

Module TrailingStops.

Import RiskManager.

Lemma trailing_stop_cases (entry_price current_price initial_stop_price
    trail_percentage : Q) :
  let stop :=
    trailing_stop_price
      (calculate_trailing_stop entry_price current_price initial_stop_price
         trail_percentage) in
  (current_price <= entry_price /\ stop = initial_stop_price)
  \/ (entry_price < current_price
      /\ initial_stop_price
         < current_price - current_price * (trail_percentage / 100)
      /\ stop = current_price - current_price * (trail_percentage / 100))
  \/ (entry_price < current_price
      /\ current_price - current_price * (trail_percentage / 100)
         <= initial_stop_price
      /\ stop = initial_stop_price).
Proof.
  unfold calculate_trailing_stop.
  destruct (Py.leb current_price entry_price) eqn:Hprofit; py_order.
  - left. split; [assumption | reflexivity].
  - destruct (Py.gtb _ initial_stop_price) eqn:Hhigher; py_order.
    + right; left. repeat split; assumption.
    + right; right. repeat split; assumption.
Qed.

Lemma trailing_stop_ge_initial (entry_price current_price initial_stop_price
    trail_percentage : Q) :
  initial_stop_price
  <= trailing_stop_price
       (calculate_trailing_stop entry_price current_price initial_stop_price
          trail_percentage).
Proof.
  destruct (trailing_stop_cases entry_price current_price initial_stop_price
              trail_percentage) as [[_ H] | [[_ [Hlt H]] | [_ [_ H]]]];
    cbv zeta in H; rewrite H; lra.
Qed.

(** Every stop of a run is at least [bound] when the first initial stop
    is. *)
Lemma trailing_stops_bounded (entry_price trail_percentage : Q)
    (prices : list Q) :
  forall bound stop,
    bound <= stop ->
    Forall (Qle bound)
      (trailing_stops entry_price trail_percentage stop prices).
Proof.
  induction prices as [| current_price rest IH]; intros bound stop Hle;
    cbn [trailing_stops]; constructor.
  - apply Qle_trans with stop; [assumption |].
    apply trailing_stop_ge_initial.
  - apply IH. apply Qle_trans with stop; [assumption |].
    apply trailing_stop_ge_initial.
Qed.

Lemma trailing_stops_sorted (entry_price trail_percentage : Q)
    (prices : list Q) :
  forall stop,
    StronglySorted Qle
      (stop :: trailing_stops entry_price trail_percentage stop prices).
Proof.
  induction prices as [| current_price rest IH]; intros stop;
    cbn [trailing_stops].
  - repeat constructor.
  - constructor.
    + apply IH.
    + constructor.
      * apply trailing_stop_ge_initial.
      * apply trailing_stops_bounded. apply trailing_stop_ge_initial.
Qed.

(** C5.  [calculate_trailing_stop] returns the initial stop while the
    current price is not above the entry price, and otherwise the larger of
    the initial stop and [current_price * (1 - trail_percentage / 100)];
    the returned stop is never below the initial stop, and in a run that
    feeds each returned stop in as the next initial stop the stops never
    decrease (for every sequence of current prices, so in particular for
    the non-decreasing ones). *)
Theorem trailing_stop_never_decreases :
  forall (entry_price current_price initial_stop_price trail_percentage : Q),
    let stop :=
      trailing_stop_price
        (calculate_trailing_stop entry_price current_price initial_stop_price
           trail_percentage) in
    (current_price <= entry_price -> stop = initial_stop_price)
    /\ (entry_price < current_price ->
        stop == Qmax initial_stop_price
                  (current_price * (1 - trail_percentage / 100)))
    /\ initial_stop_price <= stop
    /\ (forall prices : list Q,
          StronglySorted Qle
            (initial_stop_price
             :: trailing_stops entry_price trail_percentage
                  initial_stop_price prices)).
Proof.
  intros entry_price current_price initial_stop_price trail_percentage stop.
  pose proof (trailing_stop_cases entry_price current_price
                initial_stop_price trail_percentage) as Hcases.
  cbv zeta in Hcases. fold stop in Hcases.
  repeat split.
  - intros Hle.
    destruct Hcases as [[_ H] | [[Hgt _] | [Hgt _]]];
      [exact H | lra | lra].
  - intros Hgt.
    destruct Hcases as [[Hle _] | [[_ [Hlt H]] | [_ [Hle H]]]].
    + lra.
    + rewrite H.
      destruct (Q.max_spec initial_stop_price
                  (current_price * (1 - trail_percentage / 100)))
        as [[_ Hmax] | [Hge Hmax]]; rewrite Hmax.
      * field.
      * exfalso.
        assert (current_price - current_price * (trail_percentage / 100)
                == current_price * (1 - trail_percentage / 100)) as E
          by field.
        rewrite E in Hlt. lra.
    + rewrite H.
      destruct (Q.max_spec initial_stop_price
                  (current_price * (1 - trail_percentage / 100)))
        as [[Hlt Hmax] | [_ Hmax]]; rewrite Hmax.
      * exfalso.
        assert (current_price - current_price * (trail_percentage / 100)
                == current_price * (1 - trail_percentage / 100)) as E
          by field.
        rewrite E in Hle. lra.
      * reflexivity.
  - apply trailing_stop_ge_initial.
  - intros prices. apply trailing_stops_sorted.
Qed.

(** An instance: entry 3000, price 3100, initial stop 2800, trail 0.5%;
    then a run over prices that rise and fall. *)
Lemma trailing_stop_never_decreases_witness :
  3000 < 3100
  /\ trailing_stop_price (calculate_trailing_stop 3000 3100 2800 0.5)
     == Qmax 2800 (3100 * (1 - 0.5 / 100))
  /\ StronglySorted Qle
       (2800 :: trailing_stops 3000 0.5 2800 [3100; 3050; 3200; 2900]).
Proof.
  pose proof (trailing_stop_never_decreases 3000 3100 2800 0.5) as H.
  cbv zeta in H. destruct H as [_ [Hmax [_ Hrun]]].
  split; [reflexivity |]. split.
  - apply Hmax. reflexivity.
  - apply Hrun.
Defined.

End TrailingStops.

(** ** Stop-loss methods *)

Module StopLossMethods.

Import RiskManager.

Lemma average_true_range_defined (prices : list Q) :
  (1 <= length prices)%nat ->
  exists atr, average_true_range prices = Py.Ok atr.
Proof.
  intros Hlen. unfold average_true_range. apply iloc_back_defined.
  rewrite length_rolling, !length_zip_with, !length_map, !length_zip_with,
    !length_rolling, length_shift, length_of_prices.
  lia.
Qed.

Lemma valid_support_exists (prices : list Q) (entry_price : Q) :
  (exists closest,
     PyList.max (filter (fun s => Py.ltb s entry_price)
                   (recent_lows prices 5)) = Some closest)
  <-> exists i x, (5 <= i < length prices - 5)%nat
                  /\ local_min_at prices 5 i x /\ x < entry_price.
Proof.
  split.
  - intros [closest Hmax]. apply py_max_spec in Hmax.
    destruct Hmax as [Hin _]. apply filter_In in Hin.
    destruct Hin as [Hin Hlt]. apply In_recent_lows in Hin.
    destruct Hin as [i [Hi Hmin]]. py_order.
    exists i, closest. repeat split; try lia; try assumption; apply Hmin.
  - intros [i [x [Hi [Hmin Hlt]]]].
    destruct (PyList.max _) as [closest |] eqn:Hmax; [eauto |].
    apply py_max_none in Hmax.
    assert (In x (filter (fun s => Py.ltb s entry_price)
                    (recent_lows prices 5))) as Hin.
    { apply filter_In. split.
      - apply In_recent_lows. exists i. split; assumption.
      - apply ltb_spec. assumption. }
    rewrite Hmax in Hin. destruct Hin.
Qed.

(** Evaluate the dictionary operations on the concrete keys, split on the
    two risk tests, and read the four facts off the result. *)
Ltac eval_methods :=
  cbn [Py.bind Py.item Py.get Py.mem Py.set_new app String.eqb Ascii.eqb
         Bool.eqb risk_percentage stop_price methods recommended_method
         andb].

Ltac settle_methods :=
  eval_methods;
  repeat match goal with
    | |- context [if Np.leb ?a ?b then _ else _] =>
        let E := fresh "E" in destruct (Np.leb a b) eqn:E
    end;
  eval_methods;
  repeat match goal with
    | E : Np.leb _ _ = _ |- _ => rewrite ?E; clear E
    end;
  (split; [eexists; split; reflexivity |]);
  repeat split.

(** The result of the main path, read off the code case by case. *)
Lemma stop_loss_shape (self : ETHRiskManager) (entry_price : Q)
    (historical_prices : option (list Q))
    (atr_multiplier fixed_percentage : Q) :
  0 < entry_price ->
  let r := calculate_stop_loss self entry_price historical_prices
             atr_multiplier fixed_percentage in
  let within (k : string) :=
    match Py.get (methods r) k with
    | Some m => Np.leb (risk_percentage m) (Np.Fin 0.1)
    | None => false
    end in
  (exists m, Py.get (methods r) "fixed_percentage" = Some m
             /\ stop_price m = Np.Fin (entry_price * (1 - fixed_percentage)))
  /\ Py.mem (methods r) "atr_based"
     = match historical_prices with
       | Some prices => (14 <=? length prices)%nat
       | None => false
       end
  /\ Py.mem (methods r) "support_based"
     = match historical_prices with
       | Some prices =>
           (30 <=? length prices)%nat
           && match PyList.max (filter (fun s => Py.ltb s entry_price)
                                  (recent_lows prices 5)) with
              | Some _ => true
              | None => false
              end
       | None => false
       end
  /\ recommended_method r
     = if within "atr_based"%string then "atr_based"%string
       else if within "support_based"%string then "support_based"%string
       else "fixed_percentage"%string.
Proof.
  intros Hpos r within. subst within r. unfold calculate_stop_loss.
  rewrite div_ok by lra. cbn [Py.bind].
  destruct historical_prices as [prices |].
  - destruct (negb (length prices =? 0)%nat && (14 <=? length prices)%nat)
      eqn:Hatr.
    + apply andb_true_iff in Hatr. destruct Hatr as [_ H14].
      destruct (average_true_range_defined prices) as [atr Ha].
      { apply Nat.leb_le in H14. lia. }
      rewrite Ha, H14. cbn [Py.bind].
      destruct (30 <=? length prices)%nat eqn:Hsup.
      * destruct (PyList.max _) as [closest |] eqn:Hmax; settle_methods.
      * settle_methods.
    + assert ((14 <=? length prices)%nat = false) as H14.
      { destruct (Nat.leb_spec 14 (length prices)) as [H | H];
          [| reflexivity].
        destruct (Nat.eqb_spec (length prices) 0) as [H0 | H0]; [lia |].
        discriminate Hatr. }
      rewrite H14.
      destruct (30 <=? length prices)%nat eqn:Hsup.
      { apply Nat.leb_le in Hsup. apply Nat.leb_gt in H14. lia. }
      settle_methods.
  - settle_methods.
Qed.

Lemma within_acceptable (methods : Py.dict StopMethod) (k : string) :
  match Py.get methods k with
  | Some m => Np.leb (risk_percentage m) (Np.Fin 0.1)
  | None => false
  end = true
  <-> acceptable_risk methods k.
Proof.
  unfold acceptable_risk. destruct (Py.get methods k) as [m |].
  - split.
    + intros H. exists m. split; [reflexivity | assumption].
    + intros [m' [Hm Hle]]. injection Hm as <-. assumption.
  - split; [discriminate | intros [m' [Hm _]]; discriminate].
Qed.

(** C2.  For a positive entry price: the fixed-percentage method is always
    present with stop [entry_price * (1 - fixed_percentage)]; the ATR
    method is present exactly when a history of at least 14 samples is
    supplied; the support method exactly when the history has at least 30
    samples and some local minimum (window 5) lies below the entry price;
    the recommended method is the ATR method if it is present with a risk
    percentage of at most 0.1, else the support method if it is present
    with a risk percentage of at most 0.1, else the fixed percentage. *)
Theorem stop_loss_methods_and_preference :
  forall (self : ETHRiskManager) (entry_price : Q)
         (historical_prices : option (list Q))
         (atr_multiplier fixed_percentage : Q),
    0 < entry_price ->
    let r := calculate_stop_loss self entry_price historical_prices
               atr_multiplier fixed_percentage in
    (exists m, Py.get (methods r) "fixed_percentage" = Some m
               /\ stop_price m
                  = Np.Fin (entry_price * (1 - fixed_percentage)))
    /\ (Py.mem (methods r) "atr_based" = true
        <-> exists prices, historical_prices = Some prices
                           /\ (14 <= length prices)%nat)
    /\ (Py.mem (methods r) "support_based" = true
        <-> exists prices,
              historical_prices = Some prices
              /\ (30 <= length prices)%nat
              /\ exists i x, (5 <= i < length prices - 5)%nat
                             /\ local_min_at prices 5 i x
                             /\ x < entry_price)
    /\ (acceptable_risk (methods r) "atr_based" ->
        recommended_method r = "atr_based"%string)
    /\ (~ acceptable_risk (methods r) "atr_based" ->
        acceptable_risk (methods r) "support_based" ->
        recommended_method r = "support_based"%string)
    /\ (~ acceptable_risk (methods r) "atr_based" ->
        ~ acceptable_risk (methods r) "support_based" ->
        recommended_method r = "fixed_percentage"%string).
Proof.
  intros self entry_price historical_prices atr_multiplier fixed_percentage
    Hpos r.
  destruct (stop_loss_shape self entry_price historical_prices
              atr_multiplier fixed_percentage Hpos)
    as [Hfixed [Hatr [Hsup Hrec]]].
  fold r in Hfixed, Hatr, Hsup, Hrec.
  split; [exact Hfixed |]. split; [| split].
  - rewrite Hatr. destruct historical_prices as [prices |].
    + rewrite Nat.leb_le. split.
      * intros H. exists prices. split; [reflexivity | assumption].
      * intros [prices' [Heq H]]. injection Heq as <-. assumption.
    + split; [discriminate | intros [prices' [Heq _]]; discriminate].
  - rewrite Hsup. destruct historical_prices as [prices |].
    + rewrite andb_true_iff, Nat.leb_le. split.
      * intros [H30 Hmax]. exists prices. split; [reflexivity |].
        split; [assumption |]. apply valid_support_exists.
        destruct (PyList.max _) as [closest |]; [eauto | discriminate].
      * intros [prices' [Heq [H30 Hex]]]. injection Heq as <-.
        split; [assumption |]. apply valid_support_exists in Hex.
        destruct Hex as [closest ->]. reflexivity.
    + split; [discriminate | intros [prices' [Heq _]]; discriminate].
  - pose proof (within_acceptable (methods r) "atr_based") as Ha.
    pose proof (within_acceptable (methods r) "support_based") as Hs.
    destruct (match Py.get (methods r) "atr_based" with
              | Some m => Np.leb (risk_percentage m) (Np.Fin 0.1)
              | None => false
              end) eqn:Ea.
    + split; [intros _; exact Hrec |].
      split; intros Hn; exfalso; apply Hn; apply Ha; reflexivity.
    + assert (~ acceptable_risk (methods r) "atr_based") as Hna.
      { intros H. apply Ha in H. discriminate. }
      destruct (match Py.get (methods r) "support_based" with
                | Some m => Np.leb (risk_percentage m) (Np.Fin 0.1)
                | None => false
                end) eqn:Es.
      * split; [intros H; contradiction |].
        split; [intros _ _; exact Hrec |].
        intros _ Hn. exfalso. apply Hn. apply Hs. reflexivity.
      * assert (~ acceptable_risk (methods r) "support_based") as Hns.
        { intros H. apply Hs in H. discriminate. }
        split; [intros H; contradiction |].
        split; [intros _ H; contradiction | intros _ _; exact Hrec].
Qed.

(** An instance: fifteen samples of history give the fixed and the ATR
    method. *)
Lemma stop_loss_methods_and_preference_witness :
  let history :=
    [100; 101; 99; 102; 98; 103; 97; 104; 96; 105; 95; 106; 94; 107; 93] in
  0 < 100
  /\ Py.mem (methods (calculate_stop_loss default_manager 100
                        (Some history) 2 0.05)) "atr_based" = true.
Proof.
  intros history. split; [reflexivity |].
  apply (stop_loss_methods_and_preference default_manager 100
           (Some history) 2 0.05); [reflexivity |].
  exists history. split; [reflexivity |]. cbn. lia.
Defined.

End StopLossMethods.

(** ** Relative strength index *)

Module RelativeStrength.

Import TechnicalAnalysis.

Lemma sum_map_Qeq {A : Type} (f g : A -> Q) (l : list A) :
  (forall x, f x == g x) -> Np.sum (map f l) == Np.sum (map g l).
Proof.
  intros Hfg. induction l as [| x l IH]; cbn [map Np.sum fold_right].
  - reflexivity.
  - unfold Np.sum in IH. rewrite IH, (Hfg x). reflexivity.
Qed.

Lemma sum_nonneg (l : list Q) : Forall (Qle 0) l -> 0 <= Np.sum l.
Proof.
  induction 1 as [| x l Hx _ IH]; cbn [Np.sum fold_right].
  - lra.
  - unfold Np.sum in IH. lra.
Qed.

Lemma sum_zero (l : list Q) : Forall (fun x => x == 0) l -> Np.sum l == 0.
Proof.
  induction 1 as [| x l Hx _ IH]; cbn [Np.sum fold_right].
  - reflexivity.
  - unfold Np.sum in IH. rewrite Hx, IH. reflexivity.
Qed.

Lemma length_diff (l : list Q) : length (Np.diff l) = (length l - 1)%nat.
Proof.
  induction l as [| x [| y l] IH]; [reflexivity | reflexivity |].
  change (Np.diff (x :: y :: l)) with ((y - x) :: Np.diff (y :: l)).
  cbn [length] in *. lia.
Qed.

Lemma In_diff (l : list Q) (d : Q) :
  In d (Np.diff l) -> exists x y, In x l /\ In y l /\ d = y - x.
Proof.
  induction l as [| x [| y l] IH]; [intros [] | intros [] |].
  change (Np.diff (x :: y :: l)) with ((y - x) :: Np.diff (y :: l)).
  intros [H | H].
  - exists x, y. split; [left; reflexivity |].
    split; [right; left; reflexivity | symmetry; exact H].
  - destruct (IH H) as [a [b [Ha [Hb E]]]].
    exists a, b. split; [right; exact Ha |]. split; [right; exact Hb | exact E].
Qed.

Lemma gain_of_code (d : Q) : (if Py.ltb d 0 then 0 else d) == gain_of d.
Proof.
  unfold gain_of. destruct (Py.ltb d 0) eqn:E; py_order.
  - rewrite Q.max_r; [reflexivity | lra].
  - rewrite Q.max_l; [reflexivity | lra].
Qed.

Lemma loss_of_code (d : Q) :
  Qabs (if Py.gtb d 0 then 0 else d) == loss_of d.
Proof.
  unfold loss_of. destruct (Py.gtb d 0) eqn:E; py_order.
  - rewrite Q.max_r; [reflexivity | lra].
  - rewrite Qabs_neg by assumption. rewrite Q.max_l; [reflexivity | lra].
Qed.

Lemma gain_of_nonneg (d : Q) : 0 <= gain_of d.
Proof. apply Q.le_max_r. Qed.

Lemma loss_of_nonneg (d : Q) : 0 <= loss_of d.
Proof. apply Q.le_max_r. Qed.

Lemma of_nat_pos (n : nat) : (1 <= n)%nat -> 0 < Np.of_nat n.
Proof.
  intros H. unfold Np.of_nat. change 0 with (inject_Z 0).
  rewrite <- Zlt_Qlt. lia.
Qed.

Lemma mean_firstn (w : nat) (l : list Q) :
  (1 <= w <= length l)%nat ->
  Np.mean (firstn w l) = Np.Fin (Np.sum (firstn w l) / Np.of_nat w).
Proof.
  intros Hw. assert (length (firstn w l) = w) as Hlen
    by (rewrite length_firstn; lia).
  unfold Np.mean. destruct (firstn w l) as [| x rest] eqn:E.
  - cbn in Hlen. lia.
  - rewrite Hlen. reflexivity.
Qed.

Lemma sum_to_nonneg (f : nat -> Q) (n : nat) :
  (forall i, (i < n)%nat -> 0 <= f i) -> 0 <= sum_to f n.
Proof.
  induction n as [| n IH]; intros Hf; cbn [sum_to]; [lra |].
  assert (0 <= sum_to f n) by (apply IH; intros i Hi; apply Hf; lia).
  assert (0 <= f n) by (apply Hf; lia).
  lra.
Qed.

Lemma sum_to_zero (f : nat -> Q) (n : nat) :
  (forall i, (i < n)%nat -> f i == 0) -> sum_to f n == 0.
Proof.
  induction n as [| n IH]; intros Hf; cbn [sum_to]; [reflexivity |].
  rewrite IH by (intros i Hi; apply Hf; lia).
  rewrite Hf by lia. reflexivity.
Qed.

Lemma sum_app (l l' : list Q) : Np.sum (l ++ l') == Np.sum l + Np.sum l'.
Proof.
  unfold Np.sum. induction l as [| x l IH]; cbn [app fold_right].
  - ring.
  - rewrite IH. ring.
Qed.

(** The sum by positions is the sum of the list of the values. *)
Lemma sum_to_seq (f : nat -> Q) (n : nat) :
  Np.sum (map f (seq 0 n)) == sum_to f n.
Proof.
  induction n as [| n IH]; [reflexivity |].
  rewrite seq_S, map_app, sum_app, IH. cbn [sum_to Nat.add map].
  unfold Np.sum. cbn [fold_right]. ring.
Qed.

Lemma firstn_snoc {A : Type} (l : list A) (d : A) :
  forall n, (n < length l)%nat ->
            firstn (S n) l = firstn n l ++ [nth n l d].
Proof.
  induction l as [| x l IH]; intros n Hn; [cbn in Hn; lia |].
  destruct n as [| n]; [reflexivity |].
  cbn [length] in Hn. cbn [firstn nth app]. f_equal.
  apply (IH n). lia.
Qed.

(** [np.diff] at a position is the change at that position. *)
Lemma nth_diff (prices : list Q) :
  forall i, (i + 1 < length prices)%nat ->
            nth i (Np.diff prices) 0 = change_at prices i.
Proof.
  unfold change_at.
  induction prices as [| x [| y l] IH]; intros i Hi;
    [cbn in Hi; lia | cbn in Hi; lia |].
  change (Np.diff (x :: y :: l)) with ((y - x) :: Np.diff (y :: l)).
  destruct i as [| i]; [reflexivity |].
  cbn [length] in Hi. cbn [nth Nat.add].
  rewrite (IH i) by (cbn [length]; lia).
  replace (i + 1)%nat with (S i) by lia. reflexivity.
Qed.

(** The first [window] entries of [np.diff] are the first [window]
    changes. *)
Lemma firstn_diff (prices : list Q) (window : nat) :
  (window + 1 <= length prices)%nat ->
  firstn window (Np.diff prices) = map (change_at prices) (seq 0 window).
Proof.
  induction window as [| w IH]; intros Hlen; [reflexivity |].
  rewrite (firstn_snoc _ 0) by (rewrite length_diff; lia).
  rewrite IH by lia. rewrite seq_S, map_app. cbn [Nat.add map].
  rewrite nth_diff by lia. reflexivity.
Qed.

Lemma average_gain_nonneg (prices : list Q) (window : nat) :
  (1 <= window)%nat -> 0 <= average_gain prices window.
Proof.
  intros Hw. unfold average_gain. apply Qle_shift_div_l.
  - apply of_nat_pos; assumption.
  - rewrite Qmult_0_l. apply sum_to_nonneg.
    intros i _. apply gain_of_nonneg.
Qed.

Lemma average_loss_nonneg (prices : list Q) (window : nat) :
  (1 <= window)%nat -> 0 <= average_loss prices window.
Proof.
  intros Hw. unfold average_loss. apply Qle_shift_div_l.
  - apply of_nat_pos; assumption.
  - rewrite Qmult_0_l. apply sum_to_nonneg.
    intros i _. apply loss_of_nonneg.
Qed.

(** The code's two averages, taken from [np.diff], are the averages of
    the gains and losses by positions. *)
Lemma code_average_gain (prices : list Q) (window : nat) :
  (window + 1 <= length prices)%nat ->
  Np.sum (firstn window
            (map (fun d => if Py.ltb d 0 then 0 else d) (Np.diff prices)))
  / Np.of_nat window
  == average_gain prices window.
Proof.
  intros Hlen. unfold average_gain. rewrite firstn_map.
  rewrite (sum_map_Qeq _ gain_of) by apply gain_of_code.
  rewrite firstn_diff by assumption. rewrite map_map, sum_to_seq.
  reflexivity.
Qed.

Lemma code_average_loss (prices : list Q) (window : nat) :
  (window + 1 <= length prices)%nat ->
  Np.sum (firstn window
            (map Qabs
               (map (fun d => if Py.gtb d 0 then 0 else d) (Np.diff prices))))
  / Np.of_nat window
  == average_loss prices window.
Proof.
  intros Hlen. unfold average_loss. rewrite map_map, firstn_map.
  rewrite (sum_map_Qeq _ loss_of) by apply loss_of_code.
  rewrite firstn_diff by assumption. rewrite map_map, sum_to_seq.
  reflexivity.
Qed.

Lemma rsi_insufficient (prices : list Q) (window : nat) :
  (length prices < window + 1)%nat ->
  calculate_rsi prices window = Np.Fin 50.
Proof.
  intros H. unfold calculate_rsi.
  apply Nat.ltb_lt in H. rewrite H. reflexivity.
Qed.

Lemma ratio_nonneg (g l : Q) : 0 <= g -> 0 <= l -> 0 <= g / l.
Proof.
  intros Hg Hl. destruct (Qeq_dec l 0) as [E | E].
  - unfold Qdiv. rewrite E. unfold Qinv. cbn. lra.
  - apply Qle_shift_div_l; lra.
Qed.

(** With enough samples: 100 when the average loss is zero, the formula
    otherwise. *)
Lemma rsi_sufficient (prices : list Q) (window : nat) :
  (1 <= window)%nat ->
  (window + 1 <= length prices)%nat ->
  (average_loss prices window == 0
   /\ calculate_rsi prices window = Np.Fin 100)
  \/ (~ average_loss prices window == 0
      /\ exists q,
           calculate_rsi prices window = Np.Fin q
           /\ q == 100 - 100 / (1 + average_gain prices window
                                      / average_loss prices window)).
Proof.
  intros Hw Hlen. unfold calculate_rsi.
  destruct (Nat.ltb_spec (length prices) (window + 1)) as [H | _]; [lia |].
  rewrite !mean_firstn
    by (rewrite ?length_map, length_diff; lia).
  pose proof (code_average_gain prices window Hlen) as Hg.
  pose proof (code_average_loss prices window Hlen) as Hl.
  set (l := Np.sum (firstn window (map Qabs _)) / _) in *.
  set (g := Np.sum (firstn window (map (fun d => if Py.ltb d 0 then 0 else d) _)) / _) in *.
  cbn [Np.eqb]. destruct (Qeq_bool l 0) eqn:E.
  - left. apply Qeq_bool_iff in E. split; [| reflexivity].
    rewrite <- Hl. exact E.
  - right. assert (~ l == 0) as Hne.
    { intros H. apply Qeq_bool_iff in H. congruence. }
    split; [rewrite <- Hl; exact Hne |].
    cbn [Np.div]. rewrite E. cbn [Np.add Np.div].
    assert (0 <= g / l) as Hrs.
    { apply ratio_nonneg.
      - rewrite Hg. apply average_gain_nonneg; assumption.
      - rewrite Hl. apply average_loss_nonneg; assumption. }
    destruct (Qeq_bool (1 + g / l) 0) eqn:E1.
    { apply Qeq_bool_iff in E1. lra. }
    eexists. split; [reflexivity |].
    rewrite Hg, Hl. unfold Qminus. reflexivity.
Qed.

Lemma rsi_formula_bounds (rs : Q) :
  0 <= rs -> 0 <= 100 - 100 / (1 + rs) /\ 100 - 100 / (1 + rs) < 100.
Proof.
  intros Hrs.
  assert (0 < 100 / (1 + rs)) as Hpos
    by (apply Qlt_shift_div_l; lra).
  assert (100 / (1 + rs) <= 100) as Hle
    by (apply Qle_shift_div_r; lra).
  split; lra.
Qed.

(** C6.  For a window of at least one period, [calculate_rsi] returns 50
    for every series of fewer than [window + 1] samples; for every longer
    series it returns 100 exactly when the average loss over the first
    [window] price differences is zero (so for every constant series), and
    otherwise [100 - 100 / (1 + avg_gain / avg_loss)], which lies between 0
    and 100. *)
Theorem rsi_neutral_full_or_bounded :
  forall (prices : list Q) (window : nat),
    (1 <= window)%nat ->
    ((length prices < window + 1)%nat ->
     calculate_rsi prices window = Np.Fin 50)
    /\ ((window + 1 <= length prices)%nat ->
        (average_loss prices window == 0 ->
         calculate_rsi prices window = Np.Fin 100)
        /\ (Np.eqb (calculate_rsi prices window) (Np.Fin 100) = true
            <-> average_loss prices window == 0)
        /\ (~ average_loss prices window == 0 ->
            exists q,
              calculate_rsi prices window = Np.Fin q
              /\ q == 100 - 100 / (1 + average_gain prices window
                                         / average_loss prices window)
              /\ 0 <= q <= 100)
        /\ (forall c, (forall p, In p prices -> p == c) ->
                      calculate_rsi prices window = Np.Fin 100)).
Proof.
  intros prices window Hw. split; [apply rsi_insufficient |].
  intros Hlen.
  assert (forall q,
            q == 100 - 100 / (1 + average_gain prices window
                                     / average_loss prices window) ->
            0 <= q /\ q < 100) as Hbound.
  { intros q ->. apply rsi_formula_bounds. apply ratio_nonneg.
    - apply average_gain_nonneg; assumption.
    - apply average_loss_nonneg; assumption. }
  assert (average_loss prices window == 0 ->
          calculate_rsi prices window = Np.Fin 100) as Hfull.
  { intros Hz.
    destruct (rsi_sufficient prices window Hw Hlen)
      as [[_ H] | [Hne _]]; [exact H | contradiction]. }
  split; [exact Hfull |]. split; [| split].
  - split.
    + intros Heq.
      destruct (rsi_sufficient prices window Hw Hlen)
        as [[Hz _] | [_ [q [Hq Hval]]]]; [exact Hz |].
      rewrite Hq in Heq. cbn [Np.eqb] in Heq. apply Qeq_bool_iff in Heq.
      destruct (Hbound q Hval) as [_ Hlt]. lra.
    + intros Hz. rewrite (Hfull Hz). reflexivity.
  - intros Hne.
    destruct (rsi_sufficient prices window Hw Hlen)
      as [[Hz _] | [_ [q [Hq Hval]]]]; [contradiction |].
    exists q. split; [exact Hq |]. split; [exact Hval |].
    destruct (Hbound q Hval). split; lra.
  - intros c Hconst. apply Hfull. unfold average_loss.
    rewrite sum_to_zero; [unfold Qdiv; apply Qmult_0_l |].
    intros i Hi. unfold loss_of, change_at.
    rewrite (Hconst (nth (i + 1) prices 0))
      by (apply nth_In; lia).
    rewrite (Hconst (nth i prices 0)) by (apply nth_In; lia).
    rewrite Q.max_r; [reflexivity | lra].
Qed.

(** Instances with window 2 and 3: too few samples, a constant series,
    a falling series (changes -1, -1: no gain, the index is 0) and a mixed
    one (changes -1, +2, -3: average gain 2/3, average loss 4/3, the index
    is 100 - 100 / 1.5). *)
Lemma rsi_neutral_full_or_bounded_witness :
  (1 <= 2)%nat
  /\ calculate_rsi [10; 9] 2 = Np.Fin 50
  /\ calculate_rsi [7; 7; 7; 7] 2 = Np.Fin 100
  /\ (exists q, calculate_rsi [4; 3; 2; 1] 2 = Np.Fin q
                /\ q == 0)
  /\ (exists q, calculate_rsi [10; 9; 11; 8] 3 = Np.Fin q
                /\ q == 100 / 3 /\ 0 <= q <= 100).
Proof.
  destruct (rsi_neutral_full_or_bounded [10; 9] 2) as [Hshort _]; [lia |].
  destruct (rsi_neutral_full_or_bounded [7; 7; 7; 7] 2) as [_ Hlong];
    [lia |].
  destruct (rsi_neutral_full_or_bounded [4; 3; 2; 1] 2) as [_ Hfall];
    [lia |].
  destruct (rsi_neutral_full_or_bounded [10; 9; 11; 8] 3) as [_ Hmixed];
    [lia |].
  split; [lia |]. split; [| split; [| split]].
  - apply Hshort. cbn. lia.
  - apply Hlong; [cbn; lia | reflexivity].
  - destruct Hfall as (_ & _ & Hformula & _); [cbn; lia |].
    destruct Hformula as [q [Hq [Hval _]]]; [intros H; discriminate H |].
    exists q. split; [exact Hq |]. rewrite Hval. reflexivity.
  - destruct Hmixed as (_ & _ & Hformula & _); [cbn; lia |].
    destruct Hformula as [q [Hq [Hval Hrange]]];
      [intros H; discriminate H |].
    exists q. split; [exact Hq |]. split; [| exact Hrange].
    rewrite Hval. reflexivity.
Defined.

End RelativeStrength.

(** ** Sorting, and support and resistance levels *)

Section InsertionSort.

Variable le : Q -> Q -> bool.

Local Abbreviation R := (fun a b : Q => le a b = true).

Hypothesis le_total : forall a b, le a b = false -> le b a = true.
Hypothesis le_trans :
  forall a b c, le a b = true -> le b c = true -> le a c = true.

Lemma Forall_insert (P : Q -> Prop) (x : Q) (l : list Q) :
  P x -> Forall P l -> Forall P (PyList.insert le x l).
Proof.
  intros Hx Hl. induction Hl as [| y l Hy Hl IH]; cbn [PyList.insert].
  - constructor; [assumption | constructor].
  - destruct (le y x); constructor; try assumption.
    constructor; assumption.
Qed.

Lemma insert_sorted (x : Q) (l : list Q) :
  StronglySorted R l -> StronglySorted R (PyList.insert le x l).
Proof.
  induction 1 as [| y l Hsorted IH Hy]; cbn [PyList.insert].
  - constructor; constructor.
  - destruct (le y x) eqn:E.
    + constructor; [exact IH |]. apply Forall_insert; assumption.
    + apply le_total in E. constructor.
      * constructor; assumption.
      * constructor; [exact E |].
        apply Forall_impl with (P := R y); [| exact Hy].
        intros z Hz. apply le_trans with y; assumption.
Qed.

Lemma sort_from_sorted (l : list Q) :
  forall acc, StronglySorted R acc ->
              StronglySorted R
                (fold_left (fun acc x => PyList.insert le x acc) l acc).
Proof.
  induction l as [| x l IH]; intros acc Hacc; cbn [fold_left].
  - exact Hacc.
  - apply IH. apply insert_sorted. exact Hacc.
Qed.

Lemma sort_sorted (l : list Q) : StronglySorted R (PyList.sort le l).
Proof. apply sort_from_sorted. constructor. Qed.

Lemma Forall_sort_from (P : Q -> Prop) (l : list Q) :
  forall acc, Forall P acc -> Forall P l ->
              Forall P (fold_left (fun acc x => PyList.insert le x acc) l acc).
Proof.
  induction l as [| x l IH]; intros acc Hacc Hl; cbn [fold_left].
  - exact Hacc.
  - inversion Hl as [| ? ? Hx Hl']; subst.
    apply IH; [apply Forall_insert |]; assumption.
Qed.

Lemma Forall_sort (P : Q -> Prop) (l : list Q) :
  Forall P l -> Forall P (PyList.sort le l).
Proof. intros H. apply Forall_sort_from; [constructor | exact H]. Qed.

End InsertionSort.

Lemma Forall_firstn {A : Type} (P : A -> Prop) (n : nat) (l : list A) :
  Forall P l -> Forall P (firstn n l).
Proof.
  intros H. apply Forall_forall. intros x Hx.
  rewrite Forall_forall in H. apply H.
  rewrite <- (firstn_skipn n l). apply in_or_app. left. exact Hx.
Qed.

Lemma StronglySorted_firstn {A : Type} (R : A -> A -> Prop) (n : nat)
    (l : list A) :
  StronglySorted R l -> StronglySorted R (firstn n l).
Proof.
  intros H. revert n. induction H as [| x l Hs IH Hx]; intros [| n];
    cbn [firstn]; try constructor.
  - apply IH.
  - apply Forall_firstn. exact Hx.
Qed.

Lemma Forall_filter_test {A : Type} (f : A -> bool) (l : list A) :
  Forall (fun x => f x = true) (filter f l).
Proof.
  apply Forall_forall. intros x Hx. apply filter_In in Hx. apply Hx.
Qed.

Module SupportResistance.

Import TechnicalAnalysis.

(** The levels that survive: a filtered, sorted and cut list. *)
Lemma top_levels (le keep : Q -> Q -> bool) (current : Q) (levels : list Q) :
  (forall a b, le a b = false -> le b a = true) ->
  (forall a b c, le a b = true -> le b c = true -> le a c = true) ->
  let top :=
    firstn 3 (PyList.sort le (filter (fun level => keep level current) levels))
  in
  Forall (fun level => keep level current = true) top
  /\ StronglySorted (fun a b => le a b = true) top
  /\ (length top <= 3)%nat.
Proof.
  intros Htotal Htrans top. subst top. repeat split.
  - apply Forall_firstn. apply Forall_sort.
    apply (Forall_filter_test (fun level => keep level current)).
  - apply StronglySorted_firstn. apply sort_sorted; assumption.
  - apply firstn_le_length.
Qed.

Lemma leb_total (a b : Q) : Py.leb a b = false -> Py.leb b a = true.
Proof. intros H. py_order. apply leb_spec. lra. Qed.

Lemma leb_trans (a b c : Q) :
  Py.leb a b = true -> Py.leb b c = true -> Py.leb a c = true.
Proof. intros H1 H2. py_order. apply leb_spec. lra. Qed.

Lemma geb_total (a b : Q) : Py.geb a b = false -> Py.geb b a = true.
Proof. intros H. py_order. apply geb_spec. lra. Qed.

Lemma geb_trans (a b c : Q) :
  Py.geb a b = true -> Py.geb b c = true -> Py.geb a c = true.
Proof. intros H1 H2. py_order. apply geb_spec. lra. Qed.

Lemma StronglySorted_impl {A : Type} (R S : A -> A -> Prop) (l : list A) :
  (forall a b, R a b -> S a b) -> StronglySorted R l -> StronglySorted S l.
Proof.
  intros HRS. induction 1 as [| x l Hs IH Hx]; constructor.
  - exact IH.
  - apply Forall_impl with (P := R x); [apply HRS | exact Hx].
Qed.

Lemma iloc_back_last {A : Type} (init : list A) (x : A) :
  Pd.iloc_back (init ++ [x]) 1 = Py.Ok x.
Proof.
  unfold Pd.iloc_back. rewrite rev_app_distr. reflexivity.
Qed.

(** C8.  With fewer than [3 * window] samples both lists are empty.
    Otherwise every support level is strictly below the most recent price,
    the support list is in descending order and has at most three
    elements; every resistance level is strictly above the most recent
    price, the resistance list is in ascending order and has at most three
    elements. *)
Theorem support_resistance_sorted_and_sided :
  forall (prices : list Q) (window : nat),
    let r := identify_support_resistance prices window in
    ((length prices < 3 * window)%nat ->
     support r = [] /\ resistance r = [])
    /\ ((3 * window <= length prices)%nat ->
        forall (earlier : list Q) (current_price : Q),
          prices = earlier ++ [current_price] ->
          Forall (fun level => level < current_price) (support r)
          /\ StronglySorted (fun a b => b <= a) (support r)
          /\ (length (support r) <= 3)%nat
          /\ Forall (fun level => current_price < level) (resistance r)
          /\ StronglySorted Qle (resistance r)
          /\ (length (resistance r) <= 3)%nat).
Proof.
  intros prices window r. subst r. unfold identify_support_resistance.
  split.
  - intros Hshort.
    destruct (Nat.ltb_spec (length prices) (window * 3)) as [_ | H];
      [| lia].
    split; reflexivity.
  - intros Hlong earlier current_price Hprices.
    destruct (Nat.ltb_spec (length prices) (window * 3)) as [H | _];
      [lia |].
    destruct (local_extrema prices window) as [lows highs].
    assert (Pd.iloc_back prices 1 = Py.Ok current_price) as Hcur
      by (rewrite Hprices; apply iloc_back_last).
    rewrite Hcur. cbn [Py.bind support resistance].
    destruct (top_levels Py.geb Py.ltb current_price lows
                geb_total geb_trans) as [Hside [Hsorted Hcount]].
    destruct (top_levels Py.leb Py.gtb current_price highs
                leb_total leb_trans) as [Hside' [Hsorted' Hcount']].
    cbv zeta in Hside, Hsorted, Hcount, Hside', Hsorted', Hcount'.
    repeat split.
    + apply Forall_impl with (2 := Hside). intros a Ha. py_order. exact Ha.
    + apply StronglySorted_impl with (2 := Hsorted).
      intros a b Hab. py_order. exact Hab.
    + exact Hcount.
    + apply Forall_impl with (2 := Hside'). intros a Ha. py_order. exact Ha.
    + apply StronglySorted_impl with (2 := Hsorted').
      intros a b Hab. py_order. exact Hab.
    + exact Hcount'.
Qed.

(** An instance with window 1: lows at 1 and 2 and a high at 5 around a
    last price of 3. *)
Lemma support_resistance_sorted_and_sided_witness :
  let prices := [3; 1; 4; 5; 2; 3] in
  (3 * 1 <= length prices)%nat
  /\ identify_support_resistance prices 1
     = {| support := [2; 1]; resistance := [5] |}
  /\ Forall (fun level => level < 3)
       (support (identify_support_resistance prices 1)).
Proof.
  intros prices. split; [cbn; lia |]. split; [reflexivity |].
  pose proof (support_resistance_sorted_and_sided prices 1) as H.
  cbv zeta in H. destruct H as [_ H].
  apply (H ltac:(cbn; lia) [3; 1; 4; 5; 2] 3 eq_refl).
Defined.

End SupportResistance.

(** ** Moving-average crosses *)

Module MovingAverages.

Import TechnicalAnalysis.

Lemma observations_of_prices (l : list Q) :
  Pd.observations (map Np.Fin l) = Some l.
Proof.
  induction l as [| x l IH]; [reflexivity |].
  cbn [map Pd.observations]. rewrite IH. reflexivity.
Qed.

Lemma slice_map {A B : Type} (f : A -> B) (l : list A) (lo hi : nat) :
  Np.slice (map f l) lo hi = map f (Np.slice l lo hi).
Proof. unfold Np.slice. now rewrite skipn_map, firstn_map. Qed.

Lemma length_slice {A : Type} (l : list A) (lo hi : nat) :
  (hi <= length l)%nat -> length (Np.slice l lo hi) = (hi - lo)%nat.
Proof.
  intros H. unfold Np.slice. rewrite length_firstn, length_skipn. lia.
Qed.

(** The rolling mean, read [k] positions from the end, is the moving
    average [k - 1] samples back; NaN where that is undefined. *)
Lemma rolling_mean_back (prices : list Q) (w k : nat) :
  (1 <= k <= length prices)%nat ->
  Pd.iloc_back (Pd.rolling w Pd.agg_mean (Pd.of_prices prices)) k
  = Py.Ok match moving_average prices w (k - 1) with
          | Some q => Np.Fin q
          | None => Np.NaN
          end.
Proof.
  intros Hk. apply iloc_back_spec; [lia |].
  rewrite length_rolling, length_of_prices. split; [lia |].
  unfold Pd.rolling. rewrite nth_error_map, length_of_prices.
  rewrite nth_error_seq.
  destruct (Nat.ltb_spec (length prices - k) (length prices)) as [_ | H];
    [| lia].
  cbn [option_map Nat.add]. f_equal. unfold moving_average.
  replace (length prices - k + 1)%nat with (length prices - (k - 1))%nat
    by lia.
  destruct (Nat.leb_spec 1 w) as [Hw | Hw]; cbn [andb]; [| reflexivity].
  destruct (Nat.leb_spec w (length prices - (k - 1))) as [Hfit | Hfit];
    destruct (Nat.leb_spec (w + (k - 1)) (length prices)) as [Hfit' | Hfit'];
    try lia; [| reflexivity].
  unfold Pd.of_prices. rewrite slice_map, observations_of_prices.
  unfold Pd.agg_mean. rewrite length_slice by lia.
  replace (length prices - (k - 1) - (length prices - (k - 1) - w))%nat
    with w by lia.
  reflexivity.
Qed.

Lemma iloc_back_empty_rolling (w : nat) :
  Pd.iloc_back (Pd.rolling w Pd.agg_mean (Pd.of_prices [])) 1
  = Py.Raise Py.IndexError.
Proof. reflexivity. Qed.

(** The two shapes of the result. *)
Lemma ma_result_shape (prices : list Q) (ma_short ma_long : nat) :
  let r := check_moving_averages prices ma_short ma_long in
  (exists signal, r = ma_signal_only signal)
  \/ (exists short_current long_current signal,
        r = {| ma_short := Some short_current;
               ma_long := Some long_current;
               ma_signal := signal;
               golden_cross := Some (String.eqb signal "golden_cross");
               death_cross := Some (String.eqb signal "death_cross") |}).
Proof.
  cbv zeta. unfold check_moving_averages.
  destruct (length prices <? ma_long)%nat; [left; eauto |].
  destruct (Pd.iloc_back (Pd.rolling ma_short _ _) 1) as [sc | e];
    cbn [Py.bind]; [| left; eauto].
  destruct (Pd.iloc_back (Pd.rolling ma_long _ _) 1) as [lc | e];
    cbn [Py.bind]; [| left; eauto].
  destruct (Np.isnan sc || Np.isnan lc); [left; eauto |].
  destruct ((length _ <? 3)%nat || (length _ <? 3)%nat); cbn [Py.bind];
    [right; do 3 eexists; reflexivity |].
  destruct (Pd.iloc_back (Pd.rolling ma_short _ _) 2) as [sp | e];
    cbn [Py.bind]; [| left; eauto].
  destruct (Pd.iloc_back (Pd.rolling ma_long _ _) 2) as [lp | e];
    cbn [Py.bind]; [| left; eauto].
  destruct (Np.isnan sp || Np.isnan lp); cbn [Py.bind];
    [right; do 3 eexists; reflexivity |].
  destruct (Np.gtb sc lc && Np.leb sp lp); cbn [Py.bind];
    [right; do 3 eexists; reflexivity |].
  destruct (Np.ltb sc lc && Np.geb sp lp); cbn [Py.bind];
    right; do 3 eexists; reflexivity.
Qed.

Lemma moving_average_defined (prices : list Q) (w back : nat) (q : Q) :
  moving_average prices w back = Some q ->
  (1 <= w)%nat /\ (w + back <= length prices)%nat.
Proof.
  unfold moving_average.
  destruct (Nat.leb_spec 1 w); cbn [andb]; [| discriminate].
  destruct (Nat.leb_spec (w + back) (length prices)); [| discriminate].
  intros _. split; assumption.
Qed.

Lemma np_gtb_fin (a b : Q) : Np.gtb (Np.Fin a) (Np.Fin b) = Py.gtb a b.
Proof. reflexivity. Qed.

Lemma np_ltb_fin (a b : Q) : Np.ltb (Np.Fin a) (Np.Fin b) = Py.ltb a b.
Proof. reflexivity. Qed.

Lemma np_leb_fin (a b : Q) : Np.leb (Np.Fin a) (Np.Fin b) = Py.leb a b.
Proof. reflexivity. Qed.

Lemma np_geb_fin (a b : Q) : Np.geb (Np.Fin a) (Np.Fin b) = Py.geb a b.
Proof. reflexivity. Qed.

(** The signal when the four averages are defined. *)
Lemma ma_signal_defined (prices : list Q) (ma_short ma_long : nat)
    (sc lc sp lp : Q) :
  moving_average prices ma_short 0 = Some sc ->
  moving_average prices ma_long 0 = Some lc ->
  moving_average prices ma_short 1 = Some sp ->
  moving_average prices ma_long 1 = Some lp ->
  ma_signal (check_moving_averages prices ma_short ma_long)
  = if Py.gtb sc lc && Py.leb sp lp then "golden_cross"%string
    else if Py.ltb sc lc && Py.geb sp lp then "death_cross"%string
    else if Py.gtb sc lc then "above"%string
    else "below"%string.
Proof.
  intros Hsc Hlc Hsp Hlp.
  destruct (moving_average_defined _ _ _ _ Hsp) as [Hs1 Hs2].
  destruct (moving_average_defined _ _ _ _ Hlp) as [Hl1 Hl2].
  unfold check_moving_averages.
  destruct (Nat.ltb_spec (length prices) ma_long) as [H | _]; [lia |].
  rewrite !rolling_mean_back by lia.
  cbn [Nat.sub]. rewrite Hsc, Hlc, Hsp, Hlp.
  rewrite !length_rolling, length_of_prices.
  cbn [Py.bind Np.isnan orb].
  unfold above_or_below. rewrite !np_gtb_fin, !np_ltb_fin, !np_leb_fin,
    !np_geb_fin.
  destruct (Nat.ltb_spec (length prices) 3) as [Hshort | Hlong];
    cbn [orb Py.bind].
  - assert (ma_short = 1%nat /\ ma_long = 1%nat) as [-> ->] by lia.
    rewrite Hsc in Hlc. injection Hlc as <-.
    assert (Py.gtb sc sc = false) as -> by (apply gtb_false; lra).
    assert (Py.ltb sc sc = false) as -> by (apply ltb_false; lra).
    reflexivity.
  - destruct (Py.gtb sc lc && Py.leb sp lp); [reflexivity |].
    destruct (Py.ltb sc lc && Py.geb sp lp); reflexivity.
Qed.

(** C9.  The result of [check_moving_averages] never has both cross flags
    set.  When the current and the previous value of both moving averages
    are defined, the signal is [golden_cross] exactly when the short
    average was at most the long one at the previous sample and is above
    it at the current one, and [death_cross] exactly when it was at least
    the long one and is below it now. *)
Theorem cross_flags_exclusive_and_exact :
  forall (prices : list Q) (ma_short ma_long : nat),
    let r := check_moving_averages prices ma_short ma_long in
    ~ (golden_cross r = Some true /\ death_cross r = Some true)
    /\ (forall sc lc sp lp : Q,
          moving_average prices ma_short 0 = Some sc ->
          moving_average prices ma_long 0 = Some lc ->
          moving_average prices ma_short 1 = Some sp ->
          moving_average prices ma_long 1 = Some lp ->
          (ma_signal r = "golden_cross"%string <-> sp <= lp /\ lc < sc)
          /\ (ma_signal r = "death_cross"%string <-> lp <= sp /\ sc < lc)).
Proof.
  intros prices ma_short ma_long r. split.
  - intros [Hg Hd].
    destruct (ma_result_shape prices ma_short ma_long)
      as [[signal H] | [a [b [signal H]]]]; fold r in H; rewrite H in Hg, Hd.
    + discriminate Hg.
    + cbn [golden_cross death_cross] in Hg, Hd.
      injection Hg as Hg. injection Hd as Hd.
      apply String.eqb_eq in Hg, Hd. congruence.
  - intros sc lc sp lp Hsc Hlc Hsp Hlp. subst r.
    rewrite (ma_signal_defined _ _ _ _ _ _ _ Hsc Hlc Hsp Hlp).
    destruct (Py.gtb sc lc) eqn:Egt; destruct (Py.leb sp lp) eqn:Ele;
      destruct (Py.ltb sc lc) eqn:Elt; destruct (Py.geb sp lp) eqn:Ege;
      cbn [andb]; py_order;
      (split; split;
        [ intros H; first [discriminate H | split; lra]
        | intros [H1 H2]; first [reflexivity | exfalso; lra]
        | intros H; first [discriminate H | split; lra]
        | intros [H1 H2]; first [reflexivity | exfalso; lra] ]).
Qed.

(** An instance with windows 1 and 2: the short average rises through the
    long one at the last sample. *)
Lemma cross_flags_exclusive_and_exact_witness :
  let prices := [5; 3; 2; 6] in
  moving_average prices 1 0 = Some (6 / 1)
  /\ ma_signal (check_moving_averages prices 1 2) = "golden_cross"%string.
Proof.
  intros prices. split; [reflexivity |].
  pose proof (cross_flags_exclusive_and_exact prices 1 2) as H.
  cbv zeta in H. destruct H as [_ H].
  apply (H _ _ _ _ eq_refl eq_refl eq_refl eq_refl).
  split; [discriminate | reflexivity].
Defined.

End MovingAverages.

(** ** Recommendation label *)

Module RecommendationLabel.

Import TechnicalAnalysis.

Lemma analysis_label (df : list Q) (a : Analysis) :
  analyze_price_data df = Some a ->
  recommendation a = recommend (buy_score a) (sell_score a).
Proof.
  unfold analyze_price_data.
  destruct (length df =? 0)%nat; [discriminate |].
  destruct (Pd.iloc_back df 1) as [current_price | e]; [| discriminate].
  repeat match goal with
    | |- context [if ?c then _ else _] => destruct c
    end;
    intros H; injection H as <-; reflexivity.
Qed.

Lemma recommend_cases (buy sell : Q) :
  (3 <= buy /\ sell < buy /\ recommend buy sell = "STRONG BUY"%string)
  \/ (2 <= buy < 3 /\ sell < buy /\ recommend buy sell = "BUY"%string)
  \/ (3 <= sell /\ buy < sell /\ recommend buy sell = "STRONG SELL"%string)
  \/ (2 <= sell < 3 /\ buy < sell /\ recommend buy sell = "SELL"%string)
  \/ (~ (2 <= buy /\ sell < buy) /\ ~ (2 <= sell /\ buy < sell)
      /\ recommend buy sell = "HOLD"%string).
Proof.
  unfold recommend.
  destruct (Py.geb buy 2) eqn:Hb2; destruct (Py.gtb buy sell) eqn:Hbs;
    cbn [andb]; py_order.
  1: destruct (Py.geb buy 3) eqn:Hb3; py_order;
       [left | right; left]; repeat split; assumption.
  all: destruct (Py.geb sell 2) eqn:Hs2; destruct (Py.gtb sell buy) eqn:Hsb;
    cbn [andb]; py_order.
  all: try (destruct (Py.geb sell 3) eqn:Hs3; py_order;
            [right; right; left | right; right; right; left];
            repeat split; assumption).
  all: right; right; right; right; repeat split; try reflexivity;
    intros [H1 H2]; lra.
Qed.

Ltac absurd_scores :=
  exfalso;
  first [ lra
        | match goal with
          | Hn : ~ (_ /\ _) |- _ => apply Hn; split; lra
          end ].

Ltac settle_label :=
  match goal with
  | |- _ <-> _ =>
      split;
      [ let H := fresh "H" in
        intros H;
        first [ discriminate H
              | repeat match goal with |- _ /\ _ => split end;
                first [ lra | intros [? ?]; lra ] ]
      | let H := fresh "H" in
        intros H;
        first [ reflexivity
              | repeat match goal with
                  | H' : _ /\ _ |- _ => destruct H'
                  end;
                absurd_scores ] ]
  end.

(** C4.  In every analysis that [analyze_price_data] produces the label is
    [STRONG BUY] exactly when the buy score is at least 3 and above the
    sell score, [BUY] exactly when it is at least 2, below 3 and above the
    sell score, [STRONG SELL] and [SELL] the same way for the sell score,
    and [HOLD] in every other case; equal scores give [HOLD]. *)
Theorem label_from_scores :
  forall (df : list Q) (a : Analysis),
    analyze_price_data df = Some a ->
    let buy := buy_score a in
    let sell := sell_score a in
    (recommendation a = "STRONG BUY"%string <-> 3 <= buy /\ sell < buy)
    /\ (recommendation a = "BUY"%string
        <-> (2 <= buy /\ buy < 3) /\ sell < buy)
    /\ (recommendation a = "STRONG SELL"%string <-> 3 <= sell /\ buy < sell)
    /\ (recommendation a = "SELL"%string
        <-> (2 <= sell /\ sell < 3) /\ buy < sell)
    /\ (recommendation a = "HOLD"%string
        <-> ~ (2 <= buy /\ sell < buy) /\ ~ (2 <= sell /\ buy < sell))
    /\ (buy == sell -> recommendation a = "HOLD"%string).
Proof.
  intros df a Ha buy sell. rewrite (analysis_label df a Ha).
  fold buy sell.
  destruct (recommend_cases buy sell)
    as [[H1 [H2 ->]] | [[[H1 H1'] [H2 ->]] | [[H1 [H2 ->]]
       | [[[H1 H1'] [H2 ->]] | [H1 [H2 ->]]]]]].
  all: repeat match goal with |- _ /\ _ => split end.
  all: try settle_label.
  all: intros Heq; first [reflexivity | exfalso; lra].
Qed.

(** An instance: fifteen falling prices.  The RSI is 0, which gives a buy
    score of 1 against a sell score of 0: below the threshold of 2, so the
    label is [HOLD]. *)
Lemma label_from_scores_witness :
  let df := [30; 29; 28; 27; 26; 25; 24; 23; 22; 21; 20; 19; 18; 17; 16] in
  exists a,
    analyze_price_data df = Some a
    /\ buy_score a == 1
    /\ sell_score a == 0
    /\ recommendation a = "HOLD"%string.
Proof.
  intros df.
  assert (exists a, analyze_price_data df = Some a
                    /\ buy_score a == 1 /\ sell_score a == 0)
    as [a [Ha [Hbuy Hsell]]]
    by (eexists; split; [vm_compute; reflexivity | split; reflexivity]).
  exists a. split; [exact Ha |]. split; [exact Hbuy |].
  split; [exact Hsell |].
  pose proof (label_from_scores df a Ha) as H. cbv zeta in H.
  destruct H as [_ [_ [_ [_ [Hhold _]]]]]. apply Hhold.
  split; intros [H _]; lra.
Defined.

End RecommendationLabel.

(** ** MACD momentum *)

Module MacdMomentum.

Import TechnicalAnalysis InvestmentAdvisor.

(** No path of [calculate_macd] stores the previous histogram. *)
Lemma macd_has_no_previous_histogram (prices : list Q)
    (fast_period slow_period signal_period : nat) :
  previous_histogram
    (calculate_macd prices fast_period slow_period signal_period) = None.
Proof.
  unfold calculate_macd.
  destruct (length prices <? slow_period + signal_period)%nat;
    [reflexivity |].
  repeat match goal with
    | |- context [Py.bind ?m _] =>
        match m with
        | context [Py.bind _ _] => fail 1
        | _ => destruct m; cbn [Py.bind]
        end
    | |- context [if ?c then _ else _] => destruct c; cbn [Py.bind]
    end;
    reflexivity.
Qed.

(** The momentum branch when no previous histogram is stored. *)
Lemma momentum_is_sign_test (macd_data : MacdData) :
  macd_signal macd_data = "neutral"%string ->
  previous_histogram macd_data = None ->
  let histogram := get_or (histogram macd_data) 0 in
  signal_strength (evaluate_macd_signal macd_data)
  = if Py.gtb histogram 0 then 0.5
    else if Py.ltb histogram 0 then -0.5 else 0.
Proof.
  intros Hsignal Hprev histogram. unfold evaluate_macd_signal.
  rewrite Hsignal, Hprev. cbn [String.eqb Ascii.eqb Bool.eqb get_or].
  fold histogram. change (Qabs 0) with 0.
  destruct (Py.gtb histogram 0) eqn:Hpos; cbn [andb]; [reflexivity |].
  destruct (Py.ltb histogram 0) eqn:Hneg; cbn [andb]; [| reflexivity].
  assert (Py.gtb (Qabs histogram) 0 = true) as ->; [| reflexivity].
  py_order. apply gtb_spec. rewrite Qabs_neg by lra. lra.
Qed.

(** C10.  On every dictionary that [calculate_macd] produces (it never
    holds [previous_histogram]) and whose signal is [neutral],
    [evaluate_macd_signal] gives strength 0.5 exactly when the histogram is
    strictly positive, -0.5 exactly when it is strictly negative, and 0
    when it is zero; a missing histogram counts as zero. *)
Theorem macd_momentum_is_sign_of_histogram :
  forall (prices : list Q) (fast_period slow_period signal_period : nat),
    let macd_data :=
      calculate_macd prices fast_period slow_period signal_period in
    let histogram := get_or (histogram macd_data) 0 in
    let vote := evaluate_macd_signal macd_data in
    previous_histogram macd_data = None
    /\ (macd_signal macd_data = "neutral"%string ->
        (signal_strength vote = 0.5 <-> 0 < histogram)
        /\ (signal_strength vote = -0.5 <-> histogram < 0)
        /\ (histogram == 0 -> signal_strength vote = 0)).
Proof.
  intros prices fast_period slow_period signal_period macd_data histogram
    vote.
  assert (previous_histogram macd_data = None) as Hprev
    by apply macd_has_no_previous_histogram.
  split; [exact Hprev |]. intros Hneutral. subst vote.
  rewrite (momentum_is_sign_test macd_data Hneutral Hprev).
  cbv zeta. fold histogram.
  destruct (Py.gtb histogram 0) eqn:Hpos;
    [| destruct (Py.ltb histogram 0) eqn:Hneg]; py_order.
  - split; [| split].
    + split; [intros _; assumption | reflexivity].
    + split; [discriminate | intros H; exfalso; lra].
    + intros H. exfalso. lra.
  - split; [| split].
    + split; [discriminate | intros H; exfalso; lra].
    + split; [intros _; assumption | reflexivity].
    + intros H. exfalso. lra.
  - split; [| split].
    + split; [discriminate | intros H; exfalso; lra].
    + split; [discriminate | intros H; exfalso; lra].
    + reflexivity.
Qed.

(** An instance with periods 2, 3 and 2: rising prices give no crossover
    and a positive histogram. *)
Lemma macd_momentum_is_sign_of_histogram_witness :
  let prices := [10; 12; 15; 19; 24; 30] in
  macd_signal (calculate_macd prices 2 3 2) = "neutral"%string
  /\ signal_strength (evaluate_macd_signal (calculate_macd prices 2 3 2))
     = 0.5.
Proof.
  intros prices.
  pose proof (macd_momentum_is_sign_of_histogram prices 2 3 2) as H.
  cbv zeta in H. destruct H as [_ H].
  assert (macd_signal (calculate_macd prices 2 3 2) = "neutral"%string)
    as Hneutral by (vm_compute; reflexivity).
  split; [exact Hneutral |].
  apply (H Hneutral). vm_compute. reflexivity.
Defined.

End MacdMomentum.

(** ** Decision accuracy *)

Module DecisionAccuracy.

Import PerformanceTracker.

Lemma length_insert_by_date (d : Decision) (l : list Decision) :
  length (insert_by_date d l) = S (length l).
Proof.
  induction l as [| d' l IH]; cbn [insert_by_date]; [reflexivity |].
  destruct (date d' <=? date d)%Z; cbn [length]; [rewrite IH |];
    reflexivity.
Qed.

Lemma length_sort_from (l : list Decision) :
  forall acc,
    length (fold_left (fun acc d => insert_by_date d acc) l acc)
    = (length l + length acc)%nat.
Proof.
  induction l as [| d l IH]; intros acc; cbn [fold_left length];
    [reflexivity |].
  rewrite IH, length_insert_by_date. lia.
Qed.

Lemma length_stable_sort_values (decisions : list Decision) :
  length (stable_sort_values decisions) = length decisions.
Proof. unfold stable_sort_values. rewrite length_sort_from. cbn. lia. Qed.

Lemma Forall_insert_by_date (P : Decision -> Prop) (d : Decision)
    (l : list Decision) :
  P d -> Forall P l -> Forall P (insert_by_date d l).
Proof.
  intros Hd Hl. induction Hl as [| d' l Hd' Hl IH]; cbn [insert_by_date].
  - constructor; [assumption | constructor].
  - destruct (date d' <=? date d)%Z; constructor; try assumption.
    constructor; assumption.
Qed.

Lemma Forall_stable_sort_values (P : Decision -> Prop) (decisions : list Decision) :
  Forall P decisions -> Forall P (stable_sort_values decisions).
Proof.
  unfold stable_sort_values. intros H.
  assert (Forall P []) as Hacc by constructor.
  revert Hacc. generalize (@nil Decision).
  induction H as [| d l Hd Hl IH]; intros acc Hacc; cbn [fold_left].
  - exact Hacc.
  - apply IH. apply Forall_insert_by_date; assumption.
Qed.

(** The sorted log is in date order. *)
Lemma insert_by_date_sorted (d : Decision) (l : list Decision) :
  StronglySorted (fun a b => (date a <= date b)%Z) l ->
  StronglySorted (fun a b => (date a <= date b)%Z) (insert_by_date d l).
Proof.
  induction 1 as [| d' l Hs IH Hd']; cbn [insert_by_date].
  - constructor; constructor.
  - destruct (Z.leb_spec (date d') (date d)) as [Hle | Hgt].
    + constructor; [exact IH |].
      apply Forall_insert_by_date; assumption.
    + constructor; [constructor; assumption |].
      constructor; [lia |].
      apply Forall_impl with (2 := Hd'). intros a Ha. lia.
Qed.

Lemma stable_sort_values_sorted (decisions : list Decision) :
  StronglySorted (fun a b => (date a <= date b)%Z) (stable_sort_values decisions).
Proof.
  unfold stable_sort_values.
  assert (StronglySorted (fun a b => (date a <= date b)%Z) []) as Hacc
    by constructor.
  revert Hacc. generalize (@nil Decision).
  induction decisions as [| d l IH]; intros acc Hacc; cbn [fold_left].
  - exact Hacc.
  - apply IH. apply insert_by_date_sorted. exact Hacc.
Qed.

Lemma insert_by_date_permutation (d : Decision) (l : list Decision) :
  Permutation (d :: l) (insert_by_date d l).
Proof.
  induction l as [| d' l IH]; cbn [insert_by_date]; [apply Permutation_refl |].
  destruct (date d' <=? date d)%Z; [| apply Permutation_refl].
  eapply Permutation_trans; [apply perm_swap |].
  apply perm_skip. exact IH.
Qed.

Lemma stable_sort_values_permutation (decisions : list Decision) :
  Permutation decisions (stable_sort_values decisions).
Proof.
  unfold stable_sort_values.
  assert (forall l acc,
             Permutation (l ++ acc)
               (fold_left (fun acc d => insert_by_date d acc) l acc)) as H.
  { induction l as [| d l IH]; intros acc; cbn [fold_left app];
      [apply Permutation_refl |].
    eapply Permutation_trans; [| apply IH].
    eapply Permutation_trans; [apply Permutation_middle |].
    apply Permutation_app_head. apply insert_by_date_permutation. }
  specialize (H decisions []). rewrite app_nil_r in H. exact H.
Qed.

(** The insertion sort meets the contract of [sort_values]. *)
Lemma stable_sort_sorts_by_date : sorts_by_date stable_sort_values.
Proof.
  intros decisions. split.
  - apply stable_sort_values_permutation.
  - apply stable_sort_values_sorted.
Qed.

(** With distinct dates the contract fixes the result: a date-sorted list
    with the elements of a strictly sorted one is that list. *)
Lemma sorted_permutation_unique (l1 : list Decision) :
  forall l2,
    StronglySorted (fun a b => (date a <= date b)%Z) l1 ->
    StronglySorted (fun a b => (date a < date b)%Z) l2 ->
    Permutation l1 l2 ->
    l1 = l2.
Proof.
  induction l1 as [| a l1 IH]; intros l2 Hs1 Hs2 Hperm.
  - apply Permutation_nil in Hperm. symmetry. exact Hperm.
  - destruct l2 as [| b l2].
    { apply Permutation_sym, Permutation_nil in Hperm. discriminate Hperm. }
    apply StronglySorted_inv in Hs1. destruct Hs1 as [Hs1 Ha].
    apply StronglySorted_inv in Hs2. destruct Hs2 as [Hs2 Hb].
    rewrite Forall_forall in Ha, Hb.
    assert (a = b) as Heq.
    { assert (In a (b :: l2)) as Hina
        by (eapply Permutation_in; [exact Hperm | left; reflexivity]).
      assert (In b (a :: l1)) as Hinb
        by (eapply Permutation_in;
            [apply Permutation_sym; exact Hperm | left; reflexivity]).
      destruct Hina as [Hina | Hina]; [symmetry; exact Hina |].
      destruct Hinb as [Hinb | Hinb]; [exact Hinb |].
      specialize (Ha b Hinb). specialize (Hb a Hina). lia. }
    subst b. f_equal. apply IH; try assumption.
    eapply Permutation_cons_inv. exact Hperm.
Qed.

Lemma sort_of_time_ordered (sort : list Decision -> list Decision)
    (decisions log : list Decision) :
  sorts_by_date sort -> time_ordered decisions log -> sort decisions = log.
Proof.
  intros Hsort [Hperm Hstrict].
  destruct (Hsort decisions) as [Hp Hs].
  apply sorted_permutation_unique; [exact Hs | exact Hstrict |].
  eapply Permutation_trans; [apply Permutation_sym; exact Hp | exact Hperm].
Qed.

(** The code's test on the numpy quotient is the documented test when the
    price is not zero. *)
Lemma was_correct_judged (d : Decision) (next_price : Q) :
  ~ price d == 0 ->
  was_correct (recommendation d)
    (Np.div (Np.Fin (next_price - price d)) (Np.Fin (price d)))
  = judged_correct d next_price.
Proof.
  intros Hprice. cbn [Np.div].
  destruct (Qeq_bool (price d) 0) eqn:E.
  - apply Qeq_bool_iff in E. contradiction.
  - reflexivity.
Qed.

(** The counting loop, started in the middle of the log: it adds the
    correct decisions among the remaining pairs to the first counter and
    the number of those pairs to the second. *)
Lemma evaluate_from (later : list Decision) :
  forall (earlier : list Decision) (correct total : nat),
    Forall (fun d => ~ price d == 0) later ->
    fold_left
      (fun counters i =>
         let '(correct_decisions, total_evaluated) := counters in
         match nth_error (earlier ++ later) i,
               nth_error (earlier ++ later) (i + 1) with
         | Some current_decision, Some next_decision =>
             let price_change :=
               Np.div (Np.Fin (price next_decision - price current_decision))
                      (Np.Fin (price current_decision)) in
             ((if was_correct (recommendation current_decision) price_change
               then correct_decisions + 1 else correct_decisions)%nat,
              (total_evaluated + 1)%nat)
         | _, _ => counters
         end)
      (seq (length earlier) (length later - 1)) (correct, total)
    = ((correct
        + correct_among (combine later (map price (tl later))))%nat,
       (total + (length later - 1))%nat).
Proof.
  induction later as [| d later IH]; intros earlier correct total Hprices.
  - cbn. f_equal; lia.
  - destruct later as [| d' later].
    + cbn. f_equal; lia.
    + inversion Hprices as [| ? ? Hd Hrest]; subst.
      replace (length (d :: d' :: later) - 1)%nat
        with (S (length (d' :: later) - 1))
        by (cbn [length]; lia).
      cbn [seq fold_left].
      rewrite nth_error_app2 by lia. rewrite Nat.sub_diag.
      rewrite nth_error_app2 by lia.
      replace (length earlier + 1 - length earlier)%nat with 1%nat by lia.
      cbn [nth_error].
      rewrite (was_correct_judged d (price d') Hd).
      specialize (IH (earlier ++ [d])).
      rewrite <- app_assoc in IH. cbn [app] in IH.
      rewrite length_app in IH. cbn [length] in IH.
      replace (length earlier + 1)%nat with (S (length earlier)) in IH
        by lia.
      rewrite IH by exact Hrest.
      unfold correct_among. cbn [tl map combine filter fst snd].
      destruct (judged_correct d (price d')); cbn [length]; f_equal; lia.
Qed.

Lemma evaluate_accuracy_counts (log : list Decision) :
  Forall (fun d => ~ price d == 0) log ->
  evaluate_accuracy log
  = (correct_among (combine log (map price (tl log))),
     (length log - 1)%nat).
Proof.
  intros Hprices. unfold evaluate_accuracy.
  apply (evaluate_from log [] 0 0 Hprices).
Qed.

(** C3 (as amended).  For a ledger that is not empty,
    [calculate_performance_metrics] returns [None] when the annualized
    return overflows, and otherwise metrics whose risk block ran exactly
    from 30 trades on and whose decision accuracy does not depend on the
    number of trades.  For decisions taken at distinct times and at prices
    other than zero, the accuracy is reported exactly when there are at
    least two decisions.  A decision counts as correct exactly when it is
    BUY and the price change exceeds +2%, SELL and the change is below -2%,
    or HOLD and the absolute change is below 5%; every decision but the
    last is judged against its immediate successor in the time-ordered
    log, the last decision is not judged and the current price is not
    used; the accuracy is the number of correct decisions divided by the
    number of judged ones.  Without trades no accuracy is reported. *)
Theorem decision_accuracy_is_pairwise :
  forall (rt : Runtime) (trades : list Trade) (decisions : list Decision)
         (current_price : Q),
    sorts_by_date (sort_values rt) ->
    let result :=
      calculate_performance_metrics rt trades decisions current_price in
    let roi := roi (calculate_portfolio_value trades current_price) in
    (trades = [] -> accuracy_of result = None)
    /\ (trades <> [] ->
        annualized_return rt trades roi = Py.Raise Py.OverflowError ->
        returns_none result /\ accuracy_of result = None)
    /\ (trades <> [] ->
        (exists ran, annualized_return rt trades roi = Py.Ok ran) ->
        (exists metrics,
           result = Computed metrics
           /\ has_risk_metrics metrics = (30 <=? length trades)%nat)
        /\ (forall log,
              time_ordered decisions log ->
              Forall (fun d => ~ price d == 0) decisions ->
              accuracy_of result
              = if (2 <=? length log)%nat
                then Some (Np.of_nat (correct_among (with_successor log))
                           / Np.of_nat (length log - 1))
                else None)).
Proof.
  intros rt trades decisions current_price Hsort result roi.
  subst result roi. unfold calculate_performance_metrics.
  split; [| split].
  - intros ->. reflexivity.
  - intros Htrades Hraise.
    destruct trades as [| trade trades]; [contradiction |].
    cbn [length Nat.eqb]. rewrite Hraise. cbn [Py.bind accuracy_of].
    split; [eexists; reflexivity | reflexivity].
  - intros Htrades [ran Hran].
    destruct trades as [| trade trades]; [contradiction |].
    cbn [length Nat.eqb]. rewrite Hran. cbn [Py.bind]. split.
    + eexists. split; [reflexivity |].
      cbn [has_risk_metrics].
      destruct (Nat.ltb_spec 1 (S (length trades)));
        destruct (Nat.leb_spec 30 (S (length trades)));
        try lia; reflexivity.
    + intros log Hlog Hprices.
      cbn [accuracy_of decision_accuracy].
      rewrite (sort_of_time_ordered _ _ _ Hsort Hlog).
      destruct Hlog as [Hperm _].
      assert (length decisions = length log) as Hlen
        by (apply Permutation_length; exact Hperm).
      assert (Forall (fun d => ~ price d == 0) log) as Hlogprices
        by (eapply Permutation_Forall; eassumption).
      rewrite Hlen.
      destruct (Nat.eqb_spec (length log) 0) as [Hnone | Hsome].
      * destruct (Nat.leb_spec 2 (length log)); [lia | reflexivity].
      * rewrite (evaluate_accuracy_counts log Hlogprices).
        fold (with_successor log).
        destruct (Nat.ltb_spec 0 (length log - 1)) as [Hpairs | Hsingle];
          destruct (Nat.leb_spec 2 (length log)) as [Htwo | Hone];
          try lia; reflexivity.
Qed.

(** An instance: one trade, three decisions recorded out of order, two of
    them judged. *)
Lemma decision_accuracy_is_pairwise_witness :
  let trades :=
    [{| trade_date := 1; trade_type := "buy"; trade_price := 100;
        amount := 1; value := 100 |}] in
  let decisions :=
    [{| date := 3; recommendation := "SELL"; price := 105 |};
     {| date := 1; recommendation := "BUY"; price := 100 |};
     {| date := 2; recommendation := "HOLD"; price := 110 |}] in
  trades <> []
  /\ accuracy_of
       (calculate_performance_metrics (ideal_runtime 864001) trades
          decisions 50)
     = Some (Np.of_nat 2 / Np.of_nat 2).
Proof.
  intros trades decisions. split; [discriminate |].
  pose proof (decision_accuracy_is_pairwise (ideal_runtime 864001) trades
                decisions 50 stable_sort_sorts_by_date) as H.
  cbv zeta in H. destruct H as [_ [_ H]].
  destruct H as [_ H]; [discriminate | exists true; reflexivity |].
  rewrite (H [{| date := 1; recommendation := "BUY"; price := 100 |};
              {| date := 2; recommendation := "HOLD"; price := 110 |};
              {| date := 3; recommendation := "SELL"; price := 105 |}]).
  - reflexivity.
  - split.
    + apply Permutation_cons_app with (l1 := [_; _]) (l2 := []).
      apply Permutation_refl.
    + repeat constructor.
  - repeat constructor; intro E; discriminate E.
Defined.

(** C3 as stated fails twice.  With a single trade and two decisions the
    accuracy is reported, where the design document reports none below 30
    trades.  With 30 trades the last decision (HOLD at 110, current price
    50) is not judged: the code reports 1/1, the document's rule gives
    1/2.  The decisions are in time order, at distinct times. *)
Lemma decision_accuracy_ignores_trade_count_and_current_price :
  let trade :=
    {| trade_date := 1; trade_type := "buy"; trade_price := 100;
       amount := 1; value := 100 |} in
  let decisions :=
    [{| date := 1; recommendation := "BUY"; price := 100 |};
     {| date := 2; recommendation := "HOLD"; price := 110 |}] in
  let rt := ideal_runtime 864001 in
  time_ordered decisions decisions
  /\ accuracy_of (calculate_performance_metrics rt [trade] decisions 50)
     = Some (1 / 1)
  /\ documented_accuracy [trade] decisions 50 = None
  /\ accuracy_of
       (calculate_performance_metrics rt (repeat trade 30) decisions 50)
     = Some (1 / 1)
  /\ documented_accuracy (repeat trade 30) decisions 50 = Some (1 / 2)
  /\ ~ 1 / 1 == 1 / 2.
Proof.
  intros trade decisions rt.
  split; [split; [apply Permutation_refl | repeat constructor] |].
  repeat split. intro E. discriminate E.
Qed.

(** The [except] path is taken: one coin bought at 1, a price of 1000 a
    day later, and the annualized return [999 ** 365] is beyond the
    doubles. *)
Lemma metrics_overflow_returns_none :
  calculate_performance_metrics (ideal_runtime 86401)
    [{| trade_date := 1; trade_type := "buy"; trade_price := 1;
        amount := 1; value := 1 |}]
    [{| date := 1; recommendation := "BUY"; price := 100 |};
     {| date := 2; recommendation := "HOLD"; price := 110 |}] 1000
  = Failed Py.OverflowError.
Proof. reflexivity. Qed.

(** The sibling [evaluate_decision_history] does compare the last decision
    with the current price: on the data above its [price_change_pct]
    column ends with (50 - 110) / 110. *)
Lemma decision_history_uses_current_price :
  price_change_pct (ideal_runtime 864001)
    [{| date := 1; recommendation := "BUY"; price := 100 |};
     {| date := 2; recommendation := "HOLD"; price := 110 |}] 50
  = [Np.Fin ((110 - 100) / 100); Np.Fin ((50 - 110) / 110)].
Proof. reflexivity. Qed.

End DecisionAccuracy.

(** ** Take-profit targets *)

Module TakeProfitTargets.

Import RiskManager.

Lemma for_each_ok {A B : Type} (body : A -> Py.outcome B) (items : list A) :
  forall results,
    Py.for_each body items = Py.Ok results ->
    Forall2 (fun item result => body item = Py.Ok result) items results.
Proof.
  induction items as [| item rest IH]; intros results H; cbn in H.
  - injection H as <-. constructor.
  - destruct (body item) as [b | e] eqn:Hb; [| discriminate].
    destruct (Py.for_each body rest) as [bs | e] eqn:Hbs; [| discriminate].
    injection H as <-. constructor; [assumption | apply IH; reflexivity].
Qed.

Lemma for_each_total {A B : Type} (body : A -> Py.outcome B) (f : A -> B)
    (items : list A) :
  (forall item, body item = Py.Ok (f item)) ->
  Py.for_each body items = Py.Ok (map f items).
Proof.
  intros Hbody. induction items as [| item rest IH]; [reflexivity |].
  cbn. rewrite Hbody, IH. reflexivity.
Qed.

Lemma for_each_raises {A B : Type} (body : A -> Py.outcome B) (e : Py.exn)
    (items : list A) :
  (forall item, body item = Py.Raise e) ->
  items <> [] ->
  Py.for_each body items = Py.Raise e.
Proof.
  intros Hbody Hitems. destruct items as [| item rest]; [contradiction |].
  cbn. rewrite Hbody. reflexivity.
Qed.

(** The two outcomes of [calculate_take_profit_targets]. *)
Lemma take_profit_outcome :
  forall (entry_price stop_loss_price : Q) (risk_reward_ratios : list Q),
    let result :=
      calculate_take_profit_targets entry_price stop_loss_price
        risk_reward_ratios in
    (entry_price == 0 ->
     result = inl (Caught Py.ZeroDivisionError) /\ returned result = None)
    /\ (~ entry_price == 0 ->
        exists plan,
          result = inr plan
          /\ targets plan
             = map (target_for entry_price stop_loss_price)
                 risk_reward_ratios
          /\ map risk_reward_ratio (targets plan) = risk_reward_ratios
          /\ plan_risk_amount plan = entry_price - stop_loss_price).
Proof.
  intros entry_price stop_loss_price risk_reward_ratios result.
  subst result. unfold calculate_take_profit_targets. split.
  - intros Hzero.
    destruct risk_reward_ratios as [| ratio rest].
    + cbn [Py.for_each Py.bind]. rewrite div_zero by assumption.
      split; reflexivity.
    + cbn [Py.for_each]. rewrite div_zero by assumption.
      split; reflexivity.
  - intros Hentry.
    rewrite (for_each_total _ (target_for entry_price stop_loss_price)).
    + cbn [Py.bind]. rewrite div_ok by assumption. cbn [Py.bind protect].
      eexists. split; [reflexivity |]. cbn [targets plan_risk_amount].
      split; [reflexivity |]. split; [| reflexivity].
      rewrite map_map. cbn [target_for risk_reward_ratio].
      apply map_id.
    + intros ratio. rewrite div_ok by assumption. reflexivity.
Qed.

(** X1.  [calculate_take_profit_targets] returns [None] exactly when the
    entry price is zero (both divisions by it raise), whatever the stop and
    the ratios, also for an empty list of ratios.  Otherwise it returns one
    target per ratio, in the order of the ratios, each with the price
    [entry_price + (entry_price - stop_loss_price) * ratio]. *)
Theorem take_profit_fails_only_at_zero_entry :
  forall (entry_price stop_loss_price : Q) (risk_reward_ratios : list Q),
    let result :=
      calculate_take_profit_targets entry_price stop_loss_price
        risk_reward_ratios in
    (entry_price == 0 ->
     result = inl (Caught Py.ZeroDivisionError) /\ returned result = None)
    /\ (~ entry_price == 0 ->
        exists plan,
          result = inr plan
          /\ targets plan
             = map (target_for entry_price stop_loss_price)
                 risk_reward_ratios
          /\ map risk_reward_ratio (targets plan) = risk_reward_ratios
          /\ plan_risk_amount plan = entry_price - stop_loss_price).
Proof.
  intros entry_price stop_loss_price risk_reward_ratios.
  apply take_profit_outcome.
Qed.

Lemma take_profit_fails_only_at_zero_entry_witness :
  ~ 3000 == 0
  /\ exists plan,
       calculate_take_profit_targets 3000 2800 [1.5; 2.5; 3.5] = inr plan
       /\ map risk_reward_ratio (targets plan) = [1.5; 2.5; 3.5].
Proof.
  split; [intro H; discriminate H |].
  destruct (proj2 (take_profit_fails_only_at_zero_entry 3000 2800
                     [1.5; 2.5; 3.5]))
    as [plan [Hplan [_ [Hratios _]]]].
  - intro H; discriminate H.
  - exists plan. split; assumption.
Defined.



End TakeProfitTargets.

(** ** Stop-loss: the recommendation is well formed *)

Module StopLossRecommendation.

Import RiskManager StopLossMethods.

Lemma rolling_fin_or_nan (w : nat) (agg : list Q -> Q) (s : Pd.Series)
    (x : Np.float) :
  In x (Pd.rolling w agg s) -> x = Np.NaN \/ exists q, x = Np.Fin q.
Proof.
  unfold Pd.rolling. intros Hin. apply in_map_iff in Hin.
  destruct Hin as [i [<- _]].
  destruct ((1 <=? w)%nat && (w <=? i + 1)%nat); [| left; reflexivity].
  destruct (Pd.observations _); [right; eauto | left; reflexivity].
Qed.

Lemma iloc_back_In {A : Type} (s : list A) (k : nat) (x : A) :
  Pd.iloc_back s k = Py.Ok x -> In x s.
Proof.
  unfold Pd.iloc_back. destruct (nth_error (rev s) (k - 1)) as [y |] eqn:E;
    [| discriminate].
  intros H. injection H as <-. apply nth_error_In in E.
  apply in_rev. exact E.
Qed.

Lemma average_true_range_fin_or_nan (prices : list Q) (atr : Np.float) :
  average_true_range prices = Py.Ok atr ->
  atr = Np.NaN \/ exists q, atr = Np.Fin q.
Proof.
  unfold average_true_range. intros H. apply iloc_back_In in H.
  apply rolling_fin_or_nan in H. exact H.
Qed.

Ltac settle_recommendation :=
  eval_methods;
  repeat match goal with
    | |- context [if Np.leb ?a ?b then _ else _] =>
        let E := fresh "E" in destruct (Np.leb a b) eqn:E
    end;
  eval_methods;
  cbn [error recommended_stop_price];
  (split; [split; [intros _; assumption | reflexivity] |]);
  (eexists; split; [reflexivity |]; split; [reflexivity |]);
  cbn [stop_price Np.sub Np.add Np.neg Np.mul];
  first [ eexists; reflexivity
        | match goal with
          | E : Np.leb _ _ = true |- _ => cbn in E; discriminate E
          end ].

(** X6.  [calculate_stop_loss] always answers with a usable
    recommendation: the recommended method is one of the methods present,
    the recommended stop price is the stop price of that method, and it is
    a number (the ATR entry, which is NaN with exactly 14 samples, is never
    recommended then).  The error fallback is taken exactly when the entry
    price is zero. *)
Theorem stop_loss_recommendation_is_usable :
  forall (self : ETHRiskManager) (entry_price : Q)
         (historical_prices : option (list Q))
         (atr_multiplier fixed_percentage : Q),
    let r := calculate_stop_loss self entry_price historical_prices
               atr_multiplier fixed_percentage in
    (error r = None <-> ~ entry_price == 0)
    /\ exists m,
         Py.get (methods r) (recommended_method r) = Some m
         /\ recommended_stop_price r = stop_price m
         /\ exists q, stop_price m = Np.Fin q.
Proof.
  intros self entry_price historical_prices atr_multiplier fixed_percentage
    r. subst r. unfold calculate_stop_loss.
  destruct (Qeq_dec entry_price 0) as [Hzero | Hentry].
  { rewrite div_zero by assumption. cbn. split.
    - split; [discriminate | intros H; contradiction].
    - eexists. split; [reflexivity |]. split; [reflexivity |].
      eexists. reflexivity. }
  rewrite div_ok by assumption. cbn [Py.bind].
  destruct historical_prices as [prices |].
  - destruct (negb (length prices =? 0)%nat && (14 <=? length prices)%nat)
      eqn:Hatr.
    + apply andb_true_iff in Hatr. destruct Hatr as [_ H14].
      destruct (average_true_range_defined prices) as [atr Ha].
      { apply Nat.leb_le in H14. lia. }
      rewrite Ha. cbn [Py.bind].
      destruct (average_true_range_fin_or_nan prices atr Ha)
        as [-> | [a ->]];
        (destruct (30 <=? length prices)%nat;
         [ destruct (PyList.max _) as [closest |] | ];
         settle_recommendation).
    + settle_recommendation.
  - settle_recommendation.
Qed.

End StopLossRecommendation.

(** ** The average true range *)

Module AverageTrueRange.

Import RiskManager StopLossMethods.

Lemma nth_error_rolling (w : nat) (agg : list Q -> Q) (s : Pd.Series)
    (i : nat) :
  (i < length s)%nat ->
  nth_error (Pd.rolling w agg s) i
  = Some (if ((1 <=? w) && (w <=? i + 1))%nat
          then match Pd.observations (Np.slice s (i + 1 - w) (i + 1)) with
               | Some qs => Np.Fin (agg qs)
               | None => Np.NaN
               end
          else Np.NaN).
Proof.
  intros Hi. unfold Pd.rolling. rewrite nth_error_map, nth_error_seq.
  destruct (Nat.ltb_spec i (length s)) as [_ | H]; [| lia].
  reflexivity.
Qed.

Lemma nth_error_zip_with (f : Np.float -> Np.float -> Np.float)
    (a b : Pd.Series) (i : nat) :
  nth_error (Pd.zip_with f a b) i
  = match nth_error a i, nth_error b i with
    | Some x, Some y => Some (f x y)
    | _, _ => None
    end.
Proof.
  unfold Pd.zip_with. revert b i.
  induction a as [| x a IH]; intros b i.
  - destruct i; reflexivity.
  - destruct b as [| y b].
    + destruct i; cbn; [reflexivity |].
      destruct (nth_error a i); reflexivity.
    + destruct i; cbn; [reflexivity | apply IH].
Qed.

Lemma nth_error_shift (s : Pd.Series) (i : nat) :
  (S i < length s)%nat ->
  nth_error (Pd.shift s) (S i) = nth_error s i.
Proof.
  intros Hi. destruct s as [| x s]; [cbn in Hi; lia |].
  unfold Pd.shift. cbn [nth_error].
  rewrite removelast_firstn_len, nth_error_firstn.
  destruct (Nat.ltb_spec i (Nat.pred (length (x :: s)))) as [_ | H];
    [reflexivity | cbn [length] in *; lia].
Qed.

Lemma slice_pair {A : Type} (l : list A) (i : nat) (a b : A) :
  nth_error l i = Some a ->
  nth_error l (S i) = Some b ->
  Np.slice l i (S (S i)) = [a; b].
Proof.
  intros Ha Hb. apply nth_error_ext. intros k. unfold Np.slice.
  rewrite nth_error_firstn, nth_error_skipn.
  replace (S (S i) - i)%nat with 2%nat by lia.
  destruct k as [| [| k]]; cbn [Nat.ltb Nat.leb nth_error].
  - rewrite Nat.add_0_r. exact Ha.
  - replace (i + 1)%nat with (S i) by lia. exact Hb.
  - destruct k; reflexivity.
Qed.

(** The true range between two consecutive prices: the largest of
    high - low, |high - previous| and |low - previous|, which is the
    absolute change. *)
Lemma true_range_at (prices : list Q) (i : nat) (prev cur : Q) :
  nth_error prices i = Some prev ->
  nth_error prices (S i) = Some cur ->
  exists t, nth_error (true_range_series prices) (S i) = Some (Np.Fin t)
            /\ t == Qabs (cur - prev).
Proof.
  intros Hprev Hcur.
  assert (S i < length prices)%nat as Hlen
    by (apply nth_error_Some; congruence).
  assert (Np.slice (Pd.of_prices prices) (S i + 1 - 2) (S i + 1)
          = [Np.Fin prev; Np.Fin cur]) as Hwin.
  { replace (S i + 1 - 2)%nat with i by lia.
    replace (S i + 1)%nat with (S (S i)) by lia.
    apply slice_pair; unfold Pd.of_prices; rewrite nth_error_map.
    - rewrite Hprev. reflexivity.
    - rewrite Hcur. reflexivity. }
  assert (nth_error (Pd.rolling 2 Pd.agg_max (Pd.of_prices prices)) (S i)
          = Some (Np.Fin (Qmax prev cur))) as Hhigh.
  { rewrite nth_error_rolling by (rewrite length_of_prices; exact Hlen).
    rewrite Hwin. replace (S i + 1)%nat with (S (S i)) by lia.
    reflexivity. }
  assert (nth_error (Pd.rolling 2 Pd.agg_min (Pd.of_prices prices)) (S i)
          = Some (Np.Fin (Qmin prev cur))) as Hlow.
  { rewrite nth_error_rolling by (rewrite length_of_prices; exact Hlen).
    rewrite Hwin. replace (S i + 1)%nat with (S (S i)) by lia.
    reflexivity. }
  assert (nth_error (Pd.shift (Pd.of_prices prices)) (S i)
          = Some (Np.Fin prev)) as Hshift.
  { rewrite nth_error_shift by (rewrite length_of_prices; exact Hlen).
    unfold Pd.of_prices. rewrite nth_error_map, Hprev. reflexivity. }
  unfold true_range_series. cbv zeta.
  rewrite !nth_error_zip_with, !nth_error_map, !nth_error_zip_with.
  rewrite Hhigh, Hlow, Hshift.
  cbn [option_map Np.sub Np.add Np.neg Np.abs Pd.max_skipna Np.ltb].
  set (hi := Qmax prev cur). set (lo := Qmin prev cur).
  assert (hi + - lo == Qabs (cur - prev)
          /\ Qabs (hi + - prev) <= Qabs (cur - prev)
          /\ Qabs (lo + - prev) <= Qabs (cur - prev)) as [H1 [H2 H3]].
  { subst hi lo.
    destruct (Q.max_spec prev cur) as [[Hlt Hmax] | [Hge Hmax]];
      destruct (Q.min_spec prev cur) as [[Hlt' Hmin] | [Hge' Hmin]];
      try lra; rewrite Hmax, Hmin.
    - rewrite (Qabs_pos (cur - prev)) by lra.
      rewrite (Qabs_pos (cur + - prev)) by lra.
      assert (prev + - prev == 0) as -> by ring.
      cbn [Qabs Z.abs Qnum Qden]. repeat split; lra.
    - rewrite (Qabs_neg (cur - prev)) by lra.
      rewrite (Qabs_neg (cur + - prev)) by lra.
      assert (prev + - prev == 0) as -> by ring.
      cbn [Qabs Z.abs Qnum Qden]. repeat split; lra. }
  destruct (negb (Qle_bool (Qabs (hi + - prev)) (hi + - lo))) eqn:E12.
  - (* the second column is the larger of the first two *)
    apply negb_true_iff in E12.
    assert (hi + - lo < Qabs (hi + - prev)) as Hlt.
    { apply Qnot_le_lt. intros H. apply Qle_bool_iff in H. congruence. }
    exfalso. lra.
  - cbn [Pd.max_skipna Np.ltb].
    destruct (negb (Qle_bool (Qabs (lo + - prev)) (hi + - lo))) eqn:E13.
    + apply negb_true_iff in E13.
      assert (hi + - lo < Qabs (lo + - prev)) as Hlt.
      { apply Qnot_le_lt. intros H. apply Qle_bool_iff in H. congruence. }
      exfalso. lra.
    + eexists. split; [reflexivity | exact H1].
Qed.

Lemma length_true_range (prices : list Q) :
  length (true_range_series prices) = length prices.
Proof.
  unfold true_range_series.
  rewrite !length_zip_with, !length_map, !length_zip_with, !length_rolling,
    length_shift, length_of_prices.
  lia.
Qed.

Lemma true_range_first (prices : list Q) :
  prices <> [] -> nth_error (true_range_series prices) 0 = Some Np.NaN.
Proof.
  intros Hne. destruct prices as [| p rest]; [contradiction |].
  reflexivity.
Qed.

Lemma nth_error_diff (l : list Q) (j : nat) :
  nth_error (Np.diff l) j
  = match nth_error l j, nth_error l (S j) with
    | Some a, Some b => Some (b - a)
    | _, _ => None
    end.
Proof.
  revert j. induction l as [| x [| y l] IH]; intros j.
  - destruct j; reflexivity.
  - destruct j as [| j]; [reflexivity |]. cbn. destruct j; reflexivity.
  - change (Np.diff (x :: y :: l)) with ((y - x) :: Np.diff (y :: l)).
    destruct j as [| j]; [reflexivity |].
    cbn [nth_error]. rewrite IH. reflexivity.
Qed.

Lemma Forall2_by_position {A B : Type} (R : A -> B -> Prop) (l : list A)
    (l' : list B) :
  length l = length l' ->
  (forall k x y, nth_error l k = Some x -> nth_error l' k = Some y -> R x y) ->
  Forall2 R l l'.
Proof.
  revert l'. induction l as [| x l IH]; intros [| y l'] Hlen Hpos;
    try discriminate Hlen; constructor.
  - apply (Hpos 0%nat); reflexivity.
  - apply IH; [cbn in Hlen; lia |].
    intros k a b Ha Hb. apply (Hpos (S k)); assumption.
Qed.

(** A window of numbers is a window of observations. *)
Lemma observations_of_numbers (win : list Np.float) (qs : list Q) :
  Forall2 (fun x q => exists t, x = Np.Fin t /\ t == q) win qs ->
  exists ts, Pd.observations win = Some ts /\ Forall2 Qeq ts qs.
Proof.
  induction 1 as [| x q win qs [t [-> Ht]] _ [ts [Hobs Hts]]].
  - exists []. split; [reflexivity | constructor].
  - exists (t :: ts). cbn [Pd.observations]. rewrite Hobs.
    split; [reflexivity | constructor; assumption].
Qed.

Lemma sum_Forall2_Qeq (ts qs : list Q) :
  Forall2 Qeq ts qs -> Np.sum ts == Np.sum qs.
Proof.
  induction 1 as [| t q ts qs Ht _ IH]; cbn [Np.sum fold_right].
  - reflexivity.
  - unfold Np.sum in IH. rewrite Ht, IH. reflexivity.
Qed.

(** The average true range: undefined on exactly 14 samples, the mean of
    the last 14 absolute changes from 15 samples on. *)
Lemma average_true_range_value (prices : list Q) :
  (length prices = 14%nat -> average_true_range prices = Py.Ok Np.NaN)
  /\ ((15 <= length prices)%nat ->
      exists atr,
        average_true_range prices = Py.Ok (Np.Fin atr)
        /\ atr == mean_absolute_change prices 14).
Proof.
  assert (average_true_range prices
          = Pd.iloc_back
              (Pd.rolling 14 Pd.agg_mean (true_range_series prices)) 1)
    as -> by reflexivity.
  split.
  - intros Hlen. apply iloc_back_spec; [lia |].
    rewrite length_rolling, length_true_range. split; [lia |].
    rewrite nth_error_rolling by (rewrite length_true_range; lia).
    rewrite Hlen. cbn [Nat.sub Nat.add Nat.leb andb].
    unfold Np.slice. cbn [skipn Nat.sub].
    pose proof (true_range_first prices) as Hfirst.
    destruct (true_range_series prices) as [| x rest] eqn:E.
    + exfalso. pose proof (length_true_range prices) as Hl.
      rewrite E in Hl. cbn in Hl. lia.
    + cbn [nth_error] in Hfirst.
      assert (prices <> []) as Hne
        by (intros ->; cbn in Hlen; discriminate Hlen).
      specialize (Hfirst Hne). injection Hfirst as ->. reflexivity.
  - intros Hlen.
    set (n := length prices) in *.
    assert (Forall2 (fun x q => exists t, x = Np.Fin t /\ t == q)
              (Np.slice (true_range_series prices) (n - 14) n)
              (map Qabs (skipn (length (Np.diff prices) - 14)
                           (Np.diff prices)))) as Hwin.
    { apply Forall2_by_position.
      - rewrite MovingAverages.length_slice
          by (rewrite length_true_range; fold n; lia).
        rewrite length_map, length_skipn, RelativeStrength.length_diff.
        fold n. lia.
      - intros k x y Hx Hy. unfold Np.slice in Hx.
        rewrite nth_error_firstn, nth_error_skipn in Hx.
        destruct (Nat.ltb_spec k (n - (n - 14))) as [Hk | Hk];
          [| discriminate Hx].
        rewrite nth_error_map, nth_error_skipn, nth_error_diff in Hy.
        rewrite RelativeStrength.length_diff in Hy. fold n in Hy.
        replace (S (n - 1 - 14 + k)) with (n - 14 + k)%nat in Hy by lia.
        destruct (nth_error prices (n - 1 - 14 + k)) as [prev |] eqn:Hprev;
          [| discriminate Hy].
        destruct (nth_error prices (n - 14 + k)) as [cur |] eqn:Hcur;
          [| discriminate Hy].
        cbn [option_map] in Hy. injection Hy as <-.
        assert (nth_error prices (S (n - 1 - 14 + k)) = Some cur) as Hcur'
          by (replace (S (n - 1 - 14 + k)) with (n - 14 + k)%nat by lia;
              exact Hcur).
        destruct (true_range_at prices _ prev cur Hprev Hcur')
          as [t [Ht Hval]].
        replace (S (n - 1 - 14 + k)) with (n - 14 + k)%nat in Ht by lia.
        rewrite Ht in Hx. injection Hx as <-. exists t.
        split; [reflexivity | exact Hval]. }
    apply observations_of_numbers in Hwin.
    destruct Hwin as [ts [Hobs Hts]].
    exists (Pd.agg_mean ts). split.
    + apply iloc_back_spec; [lia |].
      rewrite length_rolling, length_true_range. fold n. split; [lia |].
      rewrite nth_error_rolling by (rewrite length_true_range; fold n; lia).
      replace (n - 1 + 1)%nat with n by lia.
      destruct (Nat.leb_spec 14 n) as [_ | H]; [| lia].
      cbn [Nat.leb andb]. rewrite Hobs. reflexivity.
    + unfold Pd.agg_mean, mean_absolute_change.
      rewrite (sum_Forall2_Qeq _ _ Hts).
      rewrite (Forall2_length Hts), length_map, length_skipn,
        RelativeStrength.length_diff.
      fold n. replace (n - 1 - (n - 1 - 14))%nat with 14%nat by lia.
      reflexivity.
Qed.

Lemma atr_entry (self : ETHRiskManager) (entry_price : Q)
    (prices : list Q) (atr_multiplier fixed_percentage : Q)
    (atr : Np.float) :
  ~ entry_price == 0 ->
  (14 <= length prices)%nat ->
  average_true_range prices = Py.Ok atr ->
  exists m,
    Py.get (methods (calculate_stop_loss self entry_price (Some prices)
                       atr_multiplier fixed_percentage)) "atr_based"
    = Some m
    /\ atr_value m = Some atr
    /\ stop_price m
       = Np.sub (Np.Fin entry_price) (Np.mul atr (Np.Fin atr_multiplier)).
Proof.
  intros Hentry Hlen Hatr. unfold calculate_stop_loss.
  rewrite div_ok by assumption. cbn [Py.bind].
  assert (negb (length prices =? 0)%nat && (14 <=? length prices)%nat
          = true) as ->.
  { apply andb_true_iff. split.
    - apply negb_true_iff, Nat.eqb_neq. lia.
    - apply Nat.leb_le. exact Hlen. }
  rewrite Hatr. cbn [Py.bind].
  destruct (30 <=? length prices)%nat;
    [destruct (PyList.max _) as [closest |] |];
    eval_methods;
    repeat match goal with
      | |- context [if Np.leb ?a ?b then _ else _] => destruct (Np.leb a b)
      end;
    eval_methods;
    (eexists; split; [reflexivity | split; reflexivity]).
Qed.

(** X7.  The ATR method of [calculate_stop_loss] needs 15 samples to have
    a value.  With exactly 14 samples its entry is present but its ATR and
    stop price are NaN.  From 15 samples on the ATR is the mean of the last
    14 absolute price changes (the true-range proxy of a price series is
    the absolute change), and the stop is
    [entry_price - ATR * atr_multiplier]. *)
Theorem atr_is_mean_absolute_change :
  forall (self : ETHRiskManager) (entry_price : Q) (prices : list Q)
         (atr_multiplier fixed_percentage : Q),
    ~ entry_price == 0 ->
    let r := calculate_stop_loss self entry_price (Some prices)
               atr_multiplier fixed_percentage in
    (length prices = 14%nat ->
     exists m,
       Py.get (methods r) "atr_based" = Some m
       /\ atr_value m = Some Np.NaN
       /\ stop_price m = Np.NaN)
    /\ ((15 <= length prices)%nat ->
        exists m atr stop,
          Py.get (methods r) "atr_based" = Some m
          /\ atr_value m = Some (Np.Fin atr)
          /\ atr == mean_absolute_change prices 14
          /\ stop_price m = Np.Fin stop
          /\ stop == entry_price - atr * atr_multiplier).
Proof.
  intros self entry_price prices atr_multiplier fixed_percentage Hentry r.
  destruct (average_true_range_value prices) as [Hshort Hlong].
  split.
  - intros Hlen.
    destruct (atr_entry self entry_price prices atr_multiplier
                fixed_percentage Np.NaN Hentry) as [m [Hm [Hatr Hstop]]];
      [lia | apply Hshort; exact Hlen |].
    exists m. split; [exact Hm |]. split; [exact Hatr |].
    rewrite Hstop. reflexivity.
  - intros Hlen. destruct (Hlong Hlen) as [atr [Ha Hval]].
    destruct (atr_entry self entry_price prices atr_multiplier
                fixed_percentage (Np.Fin atr) Hentry) as [m [Hm [Hatr Hstop]]];
      [lia | exact Ha |].
    exists m, atr, (entry_price + - (atr * atr_multiplier)).
    split; [exact Hm |]. split; [exact Hatr |]. split; [exact Hval |].
    split; [rewrite Hstop; reflexivity | ring].
Qed.

(** An instance: fifteen samples that move by 2 each day. *)
Lemma atr_is_mean_absolute_change_witness :
  let prices :=
    [100; 102; 100; 102; 100; 102; 100; 102; 100; 102; 100; 102; 100; 102;
     100] in
  ~ 100 == 0
  /\ mean_absolute_change prices 14 == 2
  /\ exists m atr,
       Py.get (methods (calculate_stop_loss default_manager 100
                          (Some prices) 2 0.05)) "atr_based" = Some m
       /\ atr_value m = Some (Np.Fin atr)
       /\ atr == 2.
Proof.
  intros prices.
  assert (mean_absolute_change prices 14 == 2) as Hmean by reflexivity.
  split; [intro H; discriminate H |]. split; [exact Hmean |].
  destruct (proj2 (atr_is_mean_absolute_change default_manager 100 prices
                     2 0.05 ltac:(intro H; discriminate H)))
    as [m [atr [stop [Hm [Hatr [Hval _]]]]]].
  - cbn. lia.
  - exists m, atr. split; [exact Hm |]. split; [exact Hatr |].
    rewrite Hval. exact Hmean.
Defined.

End AverageTrueRange.

(** ** Trailing stop: re-evaluation *)

Module TrailingStopRepeat.

Import RiskManager.

(** X8.  Evaluating the trailing stop again at the same price, with the
    returned stop as the initial one, changes nothing: the stop stays and
    [is_adjusted] is false.  [is_adjusted] is true exactly when the
    returned stop is strictly above the initial stop. *)
Theorem trailing_stop_settles :
  forall (entry_price current_price initial_stop_price trail_percentage : Q),
    let first :=
      calculate_trailing_stop entry_price current_price initial_stop_price
        trail_percentage in
    let second :=
      calculate_trailing_stop entry_price current_price
        (trailing_stop_price first) trail_percentage in
    trailing_stop_price second = trailing_stop_price first
    /\ is_adjusted second = false
    /\ (is_adjusted first = true
        <-> initial_stop_price < trailing_stop_price first).
Proof.
  intros entry_price current_price initial_stop_price trail_percentage.
  cbv zeta. unfold calculate_trailing_stop.
  destruct (Py.leb current_price entry_price) eqn:Hprofit.
  - cbn [trailing_stop_price is_adjusted].
    split; [reflexivity |]. split; [reflexivity |].
    split; [discriminate | intros H; exfalso; lra].
  - destruct (Py.gtb (current_price
                      - current_price * (trail_percentage / 100))
                initial_stop_price) eqn:Hraise;
      cbn [trailing_stop_price is_adjusted].
    + assert (Py.gtb (current_price
                      - current_price * (trail_percentage / 100))
                (current_price
                 - current_price * (trail_percentage / 100)) = false)
        as -> by (apply gtb_false; lra).
      cbn [trailing_stop_price is_adjusted].
      split; [reflexivity |]. split; [reflexivity |].
      split; [intros _; py_order; assumption | reflexivity].
    + rewrite Hraise. cbn [trailing_stop_price is_adjusted].
      split; [reflexivity |]. split; [reflexivity |].
      split; [discriminate | intros H; exfalso; lra].
Qed.

Lemma trailing_stop_settles_witness :
  is_adjusted (calculate_trailing_stop 3000 3100 2800 0.5) = true
  /\ 2800 < trailing_stop_price (calculate_trailing_stop 3000 3100 2800 0.5).
Proof.
  pose proof (trailing_stop_settles 3000 3100 2800 0.5) as H.
  cbv zeta in H. destruct H as [_ [_ H]].
  split; [reflexivity | apply H; reflexivity].
Defined.

End TrailingStopRepeat.

(** ** RSI: which prices it reads *)

Module RelativeStrengthReach.

Import TechnicalAnalysis RelativeStrength.

Lemma diff_firstn (l : list Q) (k : nat) :
  Np.diff (firstn (S k) l) = firstn k (Np.diff l).
Proof.
  revert k. induction l as [| x [| y l] IH]; intros k.
  - destruct k; reflexivity.
  - destruct k; reflexivity.
  - destruct k as [| k]; [reflexivity |].
    change (Np.diff (x :: y :: l)) with ((y - x) :: Np.diff (y :: l)).
    cbn [firstn].
    change (Np.diff (x :: y :: firstn k l))
      with ((y - x) :: Np.diff (y :: firstn k l)).
    f_equal. apply (IH k).
Qed.

Lemma firstn_twice {A : Type} (k : nat) (l : list A) :
  firstn k (firstn k l) = firstn k l.
Proof. rewrite firstn_firstn. now rewrite Nat.min_id. Qed.

(** X9.  [calculate_rsi] reads the first [window + 1] prices only: prices
    added after them never change the result.  The index is computed from
    the oldest samples of the series, not from the most recent ones. *)
Theorem rsi_ignores_later_prices :
  forall (oldest later : list Q) (window : nat),
    length oldest = (window + 1)%nat ->
    calculate_rsi (oldest ++ later) window = calculate_rsi oldest window.
Proof.
  intros oldest later window Hlen. unfold calculate_rsi.
  rewrite length_app, Hlen.
  destruct (Nat.ltb_spec (window + 1 + length later) (window + 1))
    as [H | _]; [lia |].
  rewrite Nat.ltb_irrefl.
  assert (firstn window (Np.diff (oldest ++ later))
          = firstn window (Np.diff oldest)) as Hdiff.
  { rewrite <- diff_firstn.
    replace (S window) with (length oldest + 0)%nat by lia.
    rewrite firstn_app_2. cbn [firstn]. rewrite app_nil_r.
    replace (Np.diff oldest) with (Np.diff (firstn (S window) oldest)).
    - rewrite diff_firstn. symmetry. apply firstn_twice.
    - f_equal. apply firstn_all2. lia. }
  rewrite !firstn_map, Hdiff. reflexivity.
Qed.

(** Thirty rising prices after a falling start leave the RSI at 0. *)
Lemma rsi_ignores_later_prices_witness :
  length [10; 9; 8] = (2 + 1)%nat
  /\ calculate_rsi ([10; 9; 8] ++ [20; 30; 40; 50]) 2
     = calculate_rsi [10; 9; 8] 2.
Proof.
  split; [reflexivity |].
  apply rsi_ignores_later_prices. reflexivity.
Defined.

(** X10.  With a window of at least one period, enough samples and some
    loss among the first [window] differences, the RSI is 0 exactly when
    there is no gain among them. *)
Theorem rsi_zero_iff_no_gain :
  forall (prices : list Q) (window : nat),
    (1 <= window)%nat ->
    (window + 1 <= length prices)%nat ->
    ~ average_loss prices window == 0 ->
    exists q,
      calculate_rsi prices window = Np.Fin q
      /\ (q == 0 <-> average_gain prices window == 0).
Proof.
  intros prices window Hw Hlen Hloss.
  destruct (rsi_sufficient prices window Hw Hlen)
    as [[Hz _] | [_ [q [Hq Hval]]]]; [contradiction |].
  exists q. split; [exact Hq |]. rewrite Hval.
  pose proof (average_gain_nonneg prices window Hw) as Hg.
  pose proof (average_loss_nonneg prices window Hw) as Hl.
  set (g := average_gain prices window) in *.
  set (l := average_loss prices window) in *.
  assert (0 < l) as Hlpos by lra.
  split.
  - intros H.
    assert (100 / (1 + g / l) == 100) as H100 by lra.
    assert (0 <= g / l) as Hrs by (apply ratio_nonneg; lra).
    assert (100 / (1 + g / l) * (1 + g / l) == 100) as Hmul
      by (field; split; lra).
    rewrite H100 in Hmul.
    assert (g / l == 0) as Hratio by lra.
    assert (g == g / l * l) as -> by (field; lra).
    rewrite Hratio. ring.
  - intros H. rewrite H. field. lra.
Qed.

Lemma rsi_zero_iff_no_gain_witness :
  (1 <= 2)%nat
  /\ exists q, calculate_rsi [10; 9; 8; 7] 2 = Np.Fin q /\ q == 0.
Proof.
  split; [lia |].
  destruct (rsi_zero_iff_no_gain [10; 9; 8; 7] 2) as [q [Hq Hiff]].
  - lia.
  - cbn. lia.
  - intro H. discriminate H.
  - exists q. split; [exact Hq |]. apply Hiff. reflexivity.
Defined.

End RelativeStrengthReach.

(** ** MACD: the returned fields *)

Module MacdFields.

Import TechnicalAnalysis InvestmentAdvisor.

Lemma length_ewm_from (alpha : Q) (xs : list Q) :
  forall y, length (Pd.ewm_from alpha y xs) = length xs.
Proof.
  induction xs as [| x xs IH]; intros y; cbn [Pd.ewm_from length];
    [reflexivity |].
  rewrite IH. reflexivity.
Qed.

Lemma ewm_mean_defined (span : nat) (xs : list Q) :
  (1 <= span)%nat ->
  exists ys, Pd.ewm_mean span xs = Py.Ok ys /\ length ys = length xs.
Proof.
  intros Hspan. unfold Pd.ewm_mean.
  destruct (Nat.ltb_spec span 1) as [H | _]; [lia |].
  destruct xs as [| x xs].
  - exists []. split; reflexivity.
  - eexists. split; [reflexivity |].
    cbn [length]. rewrite length_ewm_from. reflexivity.
Qed.

Lemma ewm_mean_refused (xs : list Q) :
  Pd.ewm_mean 0 xs = Py.Raise Py.ValueError.
Proof. reflexivity. Qed.

Lemma length_minus_series (a b : list Q) :
  length (minus_series a b) = Nat.min (length a) (length b).
Proof. unfold minus_series. now rewrite length_map, length_combine. Qed.

Lemma nth_error_minus_series (a b : list Q) (i : nat) :
  nth_error (minus_series a b) i
  = match nth_error a i, nth_error b i with
    | Some x, Some y => Some (x - y)
    | _, _ => None
    end.
Proof.
  unfold minus_series. revert b i.
  induction a as [| x a IH]; intros b i.
  - destruct i; reflexivity.
  - destruct b as [| y b].
    + destruct i; cbn; [reflexivity |].
      destruct (nth_error a i); reflexivity.
    + destruct i; cbn; [reflexivity | apply IH].
Qed.

Lemma iloc_back_minus_series (a b : list Q) (k : nat) (x y : Q) :
  (1 <= k)%nat ->
  length a = length b ->
  Pd.iloc_back a k = Py.Ok x ->
  Pd.iloc_back b k = Py.Ok y ->
  Pd.iloc_back (minus_series a b) k = Py.Ok (x - y).
Proof.
  intros Hk Hlen Ha Hb.
  apply iloc_back_spec in Ha; [| exact Hk].
  apply iloc_back_spec in Hb; [| exact Hk].
  destruct Ha as [Hka Ha]. destruct Hb as [_ Hb].
  apply iloc_back_spec; [exact Hk |].
  rewrite length_minus_series, <- Hlen, Nat.min_id. split; [exact Hka |].
  rewrite nth_error_minus_series, Ha. rewrite Hlen, Hb. reflexivity.
Qed.

Lemma iloc_back_member (xs : list Q) (k : nat) (x : Q) :
  (1 <= k)%nat -> Pd.iloc_back xs k = Py.Ok x -> In x xs.
Proof.
  intros Hk H. apply iloc_back_spec in H; [| exact Hk].
  destruct H as [_ H]. eapply nth_error_In. exact H.
Qed.

(** With enough prices and periods that pandas accepts, every step of
    [calculate_macd] succeeds. *)
Lemma macd_full (prices : list Q)
    (fast_period slow_period signal_period : nat) :
  (1 <= fast_period)%nat -> (1 <= slow_period)%nat ->
  (1 <= signal_period)%nat ->
  (slow_period + signal_period <= length prices)%nat ->
  exists ema_fast ema_slow signal_series m s signal,
    Pd.ewm_mean fast_period prices = Py.Ok ema_fast
    /\ Pd.ewm_mean slow_period prices = Py.Ok ema_slow
    /\ Pd.ewm_mean signal_period (minus_series ema_fast ema_slow)
       = Py.Ok signal_series
    /\ In m (minus_series ema_fast ema_slow)
    /\ In s signal_series
    /\ calculate_macd prices fast_period slow_period signal_period
       = {| macd_line := Some m;
            signal_line := Some s;
            histogram := Some (m - s);
            macd_signal := signal;
            previous_histogram := None |}
    /\ ((signal = "buy"%string /\ 0 < m - s)
        \/ (signal = "sell"%string /\ m - s < 0)
        \/ (signal = "neutral"%string)).
Proof.
  intros Hfast Hslow Hsig Hlong. unfold calculate_macd.
  destruct (Nat.ltb_spec (length prices) (slow_period + signal_period))
    as [Hshort | _]; [lia |].
  destruct (ewm_mean_defined fast_period prices Hfast)
    as [ema_fast [Hef Hf]].
  destruct (ewm_mean_defined slow_period prices Hslow)
    as [ema_slow [Hes Hs]].
  destruct (ewm_mean_defined signal_period (minus_series ema_fast ema_slow)
              Hsig) as [signal_series [Hss Hsl]].
  rewrite Hef, Hes. cbn [Py.bind]. rewrite Hss. cbn [Py.bind].
  assert (length (minus_series ema_fast ema_slow) = length prices) as Hml
    by (rewrite length_minus_series; lia).
  rewrite Hml in Hsl.
  assert (length (minus_series (minus_series ema_fast ema_slow) signal_series)
          = length prices) as Hh
    by (rewrite length_minus_series; lia).
  assert (2 <= length prices)%nat as Hn by lia.
  destruct (iloc_back_defined (minus_series ema_fast ema_slow) 1)
    as [m Hm]; [lia |].
  destruct (iloc_back_defined signal_series 1) as [s Hs1]; [lia |].
  destruct (iloc_back_defined
              (minus_series (minus_series ema_fast ema_slow) signal_series) 2)
    as [previous Hprev]; [lia |].
  assert (Pd.iloc_back
            (minus_series (minus_series ema_fast ema_slow) signal_series) 1
          = Py.Ok (m - s)) as Hcur
    by (apply iloc_back_minus_series; try assumption; lia).
  rewrite Hh. destruct (Nat.ltb_spec (length prices) 2) as [H | _]; [lia |].
  rewrite Hcur, Hprev, Hm, Hs1. cbn [Py.bind].
  exists ema_fast, ema_slow, signal_series, m, s.
  assert (In m (minus_series ema_fast ema_slow)) as Hinm
    by (eapply iloc_back_member; [| exact Hm]; lia).
  assert (In s signal_series) as Hins
    by (eapply iloc_back_member; [| exact Hs1]; lia).
  destruct (Py.gtb (m - s) 0 && Py.ltb previous 0) eqn:Ebuy.
  - cbn [Py.bind]. eexists. repeat (split; [first [reflexivity | assumption] |]).
    left. split; [reflexivity |].
    apply andb_true_iff in Ebuy. destruct Ebuy as [H _]. py_order. exact H.
  - destruct (Py.ltb (m - s) 0 && Py.gtb previous 0) eqn:Esell.
    + cbn [Py.bind]. eexists.
      repeat (split; [first [reflexivity | assumption] |]).
      right; left. split; [reflexivity |].
      apply andb_true_iff in Esell. destruct Esell as [H _]. py_order.
      exact H.
    + cbn [Py.bind]. eexists.
      repeat (split; [first [reflexivity | assumption] |]).
      right; right. reflexivity.
Qed.

(** Too few prices, or a period that pandas refuses, give the neutral
    dictionary. *)
Lemma macd_degenerate (prices : list Q)
    (fast_period slow_period signal_period : nat) :
  (length prices < slow_period + signal_period)%nat
  \/ fast_period = 0%nat \/ slow_period = 0%nat \/ signal_period = 0%nat ->
  calculate_macd prices fast_period slow_period signal_period = macd_neutral.
Proof.
  intros H. unfold calculate_macd.
  destruct (Nat.ltb_spec (length prices) (slow_period + signal_period))
    as [Hshort | Hlong]; [reflexivity |].
  destruct H as [H | H]; [lia |].
  destruct fast_period as [| fast]; [reflexivity |].
  destruct slow_period as [| slow].
  { destruct (Pd.ewm_mean (S fast) prices); reflexivity. }
  destruct signal_period as [| sig].
  { destruct (Pd.ewm_mean (S fast) prices); cbn [Py.bind]; [| reflexivity].
    destruct (Pd.ewm_mean (S slow) prices); reflexivity. }
  destruct H as [H | [H | H]]; discriminate H.
Qed.

(** X11.  [calculate_macd] returns the neutral dictionary (signal
    [neutral], no other key) when there are fewer prices than
    [slow_period + signal_period] or when a period is zero; otherwise it
    returns all of [macd_line], [signal_line] and [histogram], the
    histogram is the MACD line minus the signal line, a [buy] signal only
    comes with a strictly positive histogram and a [sell] signal only with
    a strictly negative one. *)
Theorem macd_fields_consistent :
  forall (prices : list Q) (fast_period slow_period signal_period : nat),
    let d := calculate_macd prices fast_period slow_period signal_period in
    let degenerate :=
      (length prices < slow_period + signal_period)%nat
      \/ fast_period = 0%nat \/ slow_period = 0%nat
      \/ signal_period = 0%nat in
    (degenerate -> d = macd_neutral)
    /\ (~ degenerate ->
        exists m s,
          macd_line d = Some m /\ signal_line d = Some s
          /\ histogram d = Some (m - s)
          /\ (macd_signal d = "buy"%string \/ macd_signal d = "sell"%string
              \/ macd_signal d = "neutral"%string)
          /\ (macd_signal d = "buy"%string -> 0 < m - s)
          /\ (macd_signal d = "sell"%string -> m - s < 0)).
Proof.
  intros prices fast_period slow_period signal_period d degenerate.
  subst d degenerate. split; [apply macd_degenerate |].
  intros Hn.
  destruct (macd_full prices fast_period slow_period signal_period)
    as (ef & es & ss & m & s & signal & _ & _ & _ & _ & _ & -> & Hsig);
    try lia.
  exists m, s. cbn [macd_line signal_line histogram macd_signal].
  repeat (split; [reflexivity |]).
  destruct Hsig as [[-> Hpos] | [[-> Hneg] | ->]].
  - split; [left; reflexivity |]. split; [intros _; exact Hpos |].
    intros H; discriminate H.
  - split; [right; left; reflexivity |]. split; [intros H; discriminate H |].
    intros _; exact Hneg.
  - split; [right; right; reflexivity |].
    split; intros H; discriminate H.
Qed.

Lemma ewm_from_constant (alpha c : Q) (xs : list Q) :
  Forall (fun x => x == c) xs ->
  forall y, y == c -> Forall (fun x => x == c) (Pd.ewm_from alpha y xs).
Proof.
  induction 1 as [| x xs Hx _ IH]; intros y Hy; cbn [Pd.ewm_from];
    constructor.
  - rewrite Hx, Hy. ring.
  - apply IH. rewrite Hx, Hy. ring.
Qed.

Lemma ewm_mean_constant (span : nat) (c : Q) (xs ys : list Q) :
  Forall (fun x => x == c) xs ->
  Pd.ewm_mean span xs = Py.Ok ys ->
  Forall (fun x => x == c) ys.
Proof.
  intros Hxs. unfold Pd.ewm_mean.
  destruct (span <? 1)%nat; [discriminate |].
  destruct Hxs as [| x xs Hx Hxs]; intros H; injection H as <-;
    constructor; [exact Hx |].
  apply ewm_from_constant; assumption.
Qed.

Lemma minus_series_constant (c d : Q) (a b : list Q) :
  Forall (fun x => x == c) a ->
  Forall (fun x => x == d) b ->
  Forall (fun x => x == c - d) (minus_series a b).
Proof.
  intros Ha. revert b. unfold minus_series.
  induction Ha as [| x a Hx _ IH]; intros b Hb; [constructor |].
  destruct Hb as [| y b Hy Hb]; [constructor |].
  cbn [combine map fst snd]. constructor.
  - rewrite Hx, Hy. reflexivity.
  - apply IH. exact Hb.
Qed.

(** X12.  On a price series that does not move (every price equal to
    [c]), with enough prices and periods of at least 1, the MACD line,
    the signal line and the histogram are all zero and the signal is
    [neutral]: a flat market never produces a crossover. *)
Theorem macd_of_flat_prices_is_zero :
  forall (prices : list Q) (c : Q)
         (fast_period slow_period signal_period : nat),
    Forall (fun p => p == c) prices ->
    (1 <= fast_period)%nat -> (1 <= slow_period)%nat ->
    (1 <= signal_period)%nat ->
    (slow_period + signal_period <= length prices)%nat ->
    let d := calculate_macd prices fast_period slow_period signal_period in
    exists m s h,
      macd_line d = Some m /\ signal_line d = Some s
      /\ histogram d = Some h
      /\ m == 0 /\ s == 0 /\ h == 0
      /\ macd_signal d = "neutral"%string.
Proof.
  intros prices c fast_period slow_period signal_period Hflat Hf Hs Hsg
    Hlong d. subst d.
  destruct (macd_full prices fast_period slow_period signal_period)
    as (ef & es & ss & m & s & signal & Hef & Hes & Hss & Hm & Hs1 & ->
        & Hsig); try assumption.
  assert (Forall (fun x => x == 0) (minus_series ef es)) as Hzero.
  { eapply Forall_impl;
      [| apply (minus_series_constant c c);
         eapply ewm_mean_constant; eassumption].
    cbv beta. intros x Hx. rewrite Hx. ring. }
  assert (m == 0) as Hm0 by (rewrite Forall_forall in Hzero; auto).
  assert (s == 0) as Hs0.
  { pose proof (ewm_mean_constant _ _ _ _ Hzero Hss) as H.
    rewrite Forall_forall in H. auto. }
  exists m, s, (m - s). cbn [macd_line signal_line histogram macd_signal].
  repeat (split; [reflexivity |]).
  split; [exact Hm0 |]. split; [exact Hs0 |].
  split; [rewrite Hm0, Hs0; reflexivity |].
  destruct Hsig as [[_ H] | [[_ H] | H]]; [lra | lra | exact H].
Qed.

Lemma macd_of_flat_prices_is_zero_witness :
  exists m s h,
    macd_line (calculate_macd [5; 5; 5; 5; 5] 2 3 2) = Some m
    /\ signal_line (calculate_macd [5; 5; 5; 5; 5] 2 3 2) = Some s
    /\ histogram (calculate_macd [5; 5; 5; 5; 5] 2 3 2) = Some h
    /\ m == 0 /\ s == 0 /\ h == 0
    /\ macd_signal (calculate_macd [5; 5; 5; 5; 5] 2 3 2) = "neutral"%string.
Proof.
  apply (macd_of_flat_prices_is_zero [5; 5; 5; 5; 5] 5 2 3 2).
  - repeat constructor.
  - lia.
  - lia.
  - lia.
  - cbn. lia.
Defined.

(** X13.  Whatever the prices and periods, the strength that
    [evaluate_macd_signal] gives to the dictionary of [calculate_macd] has
    the sign of the current histogram (a missing histogram counts as
    zero): it is positive exactly when the histogram is positive and
    negative exactly when it is negative.  A [buy] signal is worth at
    least 1.5, a [sell] signal at most -1.5, and a [neutral] one stays
    within a half point. *)
Theorem macd_vote_follows_histogram :
  forall (prices : list Q) (fast_period slow_period signal_period : nat),
    let d := calculate_macd prices fast_period slow_period signal_period in
    let h := get_or (histogram d) 0 in
    let strength := signal_strength (evaluate_macd_signal d) in
    (0 < strength <-> 0 < h)
    /\ (strength < 0 <-> h < 0)
    /\ (macd_signal d = "buy"%string -> 1.5 <= strength)
    /\ (macd_signal d = "sell"%string -> strength <= -1.5)
    /\ (macd_signal d = "neutral"%string ->
        -0.5 <= strength /\ strength <= 0.5).
Proof.
  intros prices fast_period slow_period signal_period d h strength.
  assert (previous_histogram d = None) as Hprev
    by apply MacdMomentum.macd_has_no_previous_histogram.
  assert (macd_signal d = "neutral"%string ->
          strength = if Py.gtb h 0 then 0.5
                     else if Py.ltb h 0 then -0.5 else 0) as Hneutral
    by (intros H; apply MacdMomentum.momentum_is_sign_test; assumption).
  assert (macd_signal d = "neutral"%string ->
          (0 < strength <-> 0 < h) /\ (strength < 0 <-> h < 0)
          /\ (-0.5 <= strength /\ strength <= 0.5)) as Hcase.
  { intros H. rewrite (Hneutral H).
    destruct (Py.gtb h 0) eqn:Hpos; py_order;
      [repeat split; intros; lra |].
    destruct (Py.ltb h 0) eqn:Hneg; py_order; repeat split; intros; lra. }
  destruct (Nat.ltb_spec (length prices) (slow_period + signal_period))
    as [Hshort | Hlong].
  { assert (d = macd_neutral) as Hd
      by (apply macd_degenerate; left; exact Hshort).
    assert (macd_signal d = "neutral"%string) as Hn by (rewrite Hd; reflexivity).
    destruct (Hcase Hn) as (H1 & H2 & H3).
    repeat split; try apply H1; try apply H2; try apply H3;
      rewrite Hn; intros H; discriminate H. }
  destruct fast_period as [| fast], slow_period as [| slow],
    signal_period as [| sig];
    try (assert (d = macd_neutral) as Hd
           by (apply macd_degenerate; right; auto);
         assert (macd_signal d = "neutral"%string) as Hn
           by (rewrite Hd; reflexivity);
         destruct (Hcase Hn) as (H1 & H2 & H3);
         repeat split; try apply H1; try apply H2; try apply H3;
         rewrite Hn; intros H; discriminate H).
  destruct (macd_full prices (S fast) (S slow) (S sig))
    as (ef & es & ss & m & s & signal & _ & _ & _ & _ & _ & Hd & Hsig);
    try lia.
  fold d in Hd.
  destruct Hsig as [[-> Hpos] | [[-> Hneg] | ->]].
  - assert (h = m - s) as Hh by (subst h; rewrite Hd; reflexivity).
    assert (strength = 2.0 \/ strength = 1.5) as Hstr.
    { subst strength. rewrite Hd. unfold evaluate_macd_signal.
      cbn [macd_signal String.eqb Ascii.eqb Bool.eqb].
      match goal with |- context [if ?c then _ else _] => destruct c end;
        [left | right]; reflexivity. }
    rewrite Hh, Hd. cbn [macd_signal].
    destruct Hstr as [-> | ->]; repeat split; intros; try lra;
      discriminate.
  - assert (h = m - s) as Hh by (subst h; rewrite Hd; reflexivity).
    assert (strength = -2.0 \/ strength = -1.5) as Hstr.
    { subst strength. rewrite Hd. unfold evaluate_macd_signal.
      cbn [macd_signal String.eqb Ascii.eqb Bool.eqb].
      match goal with |- context [if ?c then _ else _] => destruct c end;
        [left | right]; reflexivity. }
    rewrite Hh, Hd. cbn [macd_signal].
    destruct Hstr as [-> | ->]; repeat split; intros; try lra;
      discriminate.
  - assert (macd_signal d = "neutral"%string) as Hn
      by (rewrite Hd; reflexivity).
    destruct (Hcase Hn) as (H1 & H2 & H3).
    repeat split; try apply H1; try apply H2; try apply H3;
      rewrite Hn; intros H; discriminate H.
Qed.

End MacdFields.

(** ** Moving averages: what is reported, and the vote on it *)

Module MovingAverageReport.

Import TechnicalAnalysis InvestmentAdvisor.

(** The result when both current averages are defined. *)
Lemma ma_current_defined (prices : list Q) (ma_short ma_long : nat)
    (sc lc : Q) :
  moving_average prices ma_short 0 = Some sc ->
  moving_average prices ma_long 0 = Some lc ->
  exists signal,
    check_moving_averages prices ma_short ma_long
    = {| TechnicalAnalysis.ma_short := Some (Np.Fin sc);
         TechnicalAnalysis.ma_long := Some (Np.Fin lc);
         ma_signal := signal;
         golden_cross := Some (String.eqb signal "golden_cross");
         death_cross := Some (String.eqb signal "death_cross") |}
    /\ ((bullish_signal signal /\ lc < sc)
        \/ (bearish_signal signal /\ sc <= lc)).
Proof.
  intros Hsc Hlc.
  destruct (MovingAverages.moving_average_defined _ _ _ _ Hsc) as [Hs1 Hs2].
  destruct (MovingAverages.moving_average_defined _ _ _ _ Hlc) as [Hl1 Hl2].
  assert (exists signal,
            above_or_below (Np.Fin sc) (Np.Fin lc) = signal
            /\ ((bullish_signal signal /\ lc < sc)
                \/ (bearish_signal signal /\ sc <= lc))) as Hplain.
  { unfold above_or_below. rewrite MovingAverages.np_gtb_fin.
    destruct (Py.gtb sc lc) eqn:E; py_order; eexists;
      (split; [reflexivity |]);
      [left | right]; (split; [| lra]); right; reflexivity. }
  unfold check_moving_averages.
  destruct (Nat.ltb_spec (length prices) ma_long) as [H | _]; [lia |].
  rewrite !(MovingAverages.rolling_mean_back prices _ 1) by lia.
  cbn [Nat.sub]. rewrite Hsc, Hlc.
  rewrite !length_rolling, length_of_prices.
  cbn [Py.bind Np.isnan orb].
  destruct (Nat.ltb_spec (length prices) 3) as [Hshort | Hlong];
    cbn [orb Py.bind].
  { destruct Hplain as [signal [-> Hside]]. exists signal.
    split; [reflexivity | exact Hside]. }
  rewrite !(MovingAverages.rolling_mean_back prices _ 2) by lia.
  cbn [Nat.sub Py.bind].
  destruct (moving_average prices ma_short 1) as [sp |];
    cbn [Np.isnan orb Py.bind].
  2:{ destruct Hplain as [signal [-> Hside]]. exists signal.
      split; [reflexivity | exact Hside]. }
  destruct (moving_average prices ma_long 1) as [lp |];
    cbn [Np.isnan orb Py.bind].
  2:{ destruct Hplain as [signal [-> Hside]]. exists signal.
      split; [reflexivity | exact Hside]. }
  rewrite MovingAverages.np_gtb_fin, MovingAverages.np_ltb_fin,
    MovingAverages.np_leb_fin, MovingAverages.np_geb_fin.
  destruct (Py.gtb sc lc && Py.leb sp lp) eqn:Egold; cbn [Py.bind].
  { eexists. split; [reflexivity |]. left.
    split; [left; reflexivity |].
    apply andb_true_iff in Egold. destruct Egold as [H _]. py_order.
    exact H. }
  destruct (Py.ltb sc lc && Py.geb sp lp) eqn:Edeath; cbn [Py.bind].
  { eexists. split; [reflexivity |]. right.
    split; [left; reflexivity |].
    apply andb_true_iff in Edeath. destruct Edeath as [H _]. py_order.
    lra. }
  destruct Hplain as [signal [-> Hside]]. exists signal.
  split; [reflexivity | exact Hside].
Qed.

(** The result when a current average is undefined. *)
Lemma ma_current_undefined (prices : list Q) (ma_short ma_long : nat) :
  moving_average prices ma_short 0 = None
  \/ moving_average prices ma_long 0 = None ->
  check_moving_averages prices ma_short ma_long
  = ma_signal_only
      (match prices, ma_long with
       | [], O => "error"
       | _, _ => "insufficient_data"
       end).
Proof.
  intros Hnone. unfold check_moving_averages.
  destruct (Nat.ltb_spec (length prices) ma_long) as [Hfew | Henough].
  { destruct prices, ma_long; try reflexivity. cbn in Hfew. lia. }
  destruct prices as [| p prices].
  { assert (ma_long = 0%nat) as -> by (cbn in Henough; lia).
    reflexivity. }
  rewrite !(MovingAverages.rolling_mean_back (p :: prices) _ 1)
    by (cbn [length]; lia).
  cbn [Nat.sub Py.bind].
  destruct Hnone as [-> | ->]; cbn [Np.isnan orb]; [reflexivity |].
  destruct (moving_average (p :: prices) ma_short 0);
    cbn [Np.isnan orb]; reflexivity.
Qed.

(** X14.  [check_moving_averages] reports the two averages exactly when
    both are defined on the prices (a window of at least one sample that
    the prices fill): then [ma_short] and [ma_long] are the means of the
    last [ma_short] and [ma_long] prices, and the signal is [golden_cross]
    or [above] when the short average is strictly above the long one, and
    [death_cross] or [below] otherwise, equal averages included.  When an
    average is undefined the result carries the signal alone:
    [insufficient_data], or [error] for no prices with a long window of
    zero. *)
Theorem moving_averages_reported_or_withheld :
  forall (prices : list Q) (ma_short ma_long : nat),
    let r := check_moving_averages prices ma_short ma_long in
    (forall sc lc : Q,
        moving_average prices ma_short 0 = Some sc ->
        moving_average prices ma_long 0 = Some lc ->
        TechnicalAnalysis.ma_short r = Some (Np.Fin sc)
        /\ TechnicalAnalysis.ma_long r = Some (Np.Fin lc)
        /\ (bullish_signal (ma_signal r) <-> lc < sc)
        /\ (bearish_signal (ma_signal r) <-> sc <= lc))
    /\ (moving_average prices ma_short 0 = None
        \/ moving_average prices ma_long 0 = None ->
        TechnicalAnalysis.ma_short r = None
        /\ TechnicalAnalysis.ma_long r = None
        /\ golden_cross r = None /\ death_cross r = None
        /\ ma_signal r = match prices, ma_long with
                         | [], O => "error"%string
                         | _, _ => "insufficient_data"%string
                         end).
Proof.
  intros prices ma_short ma_long r. subst r. split.
  - intros sc lc Hsc Hlc.
    destruct (ma_current_defined _ _ _ _ _ Hsc Hlc) as [signal [-> Hside]].
    cbn [TechnicalAnalysis.ma_short TechnicalAnalysis.ma_long ma_signal].
    split; [reflexivity |]. split; [reflexivity |].
    unfold bullish_signal, bearish_signal in *.
    destruct Hside as [[[-> | ->] Hlt] | [[-> | ->] Hle]];
      (split; split;
       [ intros [H | H]; first [discriminate H | lra]
       | intros H; first [exfalso; lra | auto]
       | intros [H | H]; first [discriminate H | lra]
       | intros H; first [exfalso; lra | auto] ]).
  - intros Hnone. rewrite (ma_current_undefined _ _ _ Hnone).
    repeat split; reflexivity.
Qed.

Lemma moving_averages_reported_or_withheld_witness :
  TechnicalAnalysis.ma_short (check_moving_averages [4; 6; 8] 1 2)
  = Some (Np.Fin (8 / 1))
  /\ (bullish_signal (ma_signal (check_moving_averages [4; 6; 8] 1 2))
      <-> (6 + (8 + 0)) / 2 < 8 / 1).
Proof.
  pose proof (moving_averages_reported_or_withheld [4; 6; 8] 1 2) as H.
  cbv zeta in H. destruct H as [H _].
  destruct (H (8 / 1) ((6 + (8 + 0)) / 2) eq_refl eq_refl)
    as (Hs & _ & Hbull & _).
  split; [exact Hs | exact Hbull].
Defined.

Lemma ma_vote_of_signal (r : MAResult) :
  (bullish_signal (ma_signal r) ->
   0 < signal_strength (evaluate_moving_averages r))
  /\ (bearish_signal (ma_signal r) ->
      signal_strength (evaluate_moving_averages r) < 0)
  /\ (ma_signal r = "insufficient_data"%string
      \/ ma_signal r = "error"%string ->
      signal_strength (evaluate_moving_averages r) = 0).
Proof.
  unfold bullish_signal, bearish_signal, evaluate_moving_averages.
  repeat split; intros [-> | ->]; cbn; reflexivity.
Qed.

(** X15.  The vote of [evaluate_moving_averages] on the result of
    [check_moving_averages]: when both averages are defined the strength
    is positive exactly when the short average is strictly above the long
    one and negative otherwise, so equal averages vote bearish and the
    vote is never zero; when an average is undefined the strength is
    zero. *)
Theorem moving_average_vote_never_neutral_on_data :
  forall (prices : list Q) (ma_short ma_long : nat),
    let vote :=
      evaluate_moving_averages
        (check_moving_averages prices ma_short ma_long) in
    (forall sc lc : Q,
        moving_average prices ma_short 0 = Some sc ->
        moving_average prices ma_long 0 = Some lc ->
        (0 < signal_strength vote <-> lc < sc)
        /\ (signal_strength vote < 0 <-> sc <= lc))
    /\ (moving_average prices ma_short 0 = None
        \/ moving_average prices ma_long 0 = None ->
        signal_strength vote = 0).
Proof.
  intros prices ma_short ma_long vote. subst vote. split.
  - intros sc lc Hsc Hlc.
    destruct (ma_current_defined _ _ _ _ _ Hsc Hlc) as [signal [-> Hside]].
    match goal with
    | |- context [evaluate_moving_averages ?r] =>
        destruct (ma_vote_of_signal r) as (Hup & Hdown & _)
    end.
    cbn [ma_signal] in Hup, Hdown.
    destruct Hside as [[Hb Hlt] | [Hb Hle]].
    + specialize (Hup Hb). split; split; intros; lra.
    + specialize (Hdown Hb). split; split; intros; lra.
  - intros Hnone. rewrite (ma_current_undefined _ _ _ Hnone).
    destruct prices, ma_long; reflexivity.
Qed.

Lemma moving_average_vote_never_neutral_on_data_witness :
  signal_strength
    (evaluate_moving_averages (check_moving_averages [7; 7; 7] 1 2)) < 0.
Proof.
  pose proof (moving_average_vote_never_neutral_on_data [7; 7; 7] 1 2) as H.
  cbv zeta in H. destruct H as [H _].
  destruct (H (7 / 1) ((7 + (7 + 0)) / 2) eq_refl eq_refl) as [_ Hneg].
  apply Hneg. vm_compute. discriminate.
Defined.

End MovingAverageReport.

(** ** Support and resistance: which levels are returned *)

Module NearestLevels.

Import TechnicalAnalysis.

Lemma In_insert (le : Q -> Q -> bool) (x y : Q) (l : list Q) :
  In y (PyList.insert le x l) <-> y = x \/ In y l.
Proof.
  induction l as [| z l IH]; cbn [PyList.insert In].
  - intuition auto.
  - destruct (le z x); cbn [In]; [rewrite IH |]; intuition auto.
Qed.

Lemma In_sort_from (le : Q -> Q -> bool) (y : Q) (l : list Q) :
  forall acc,
    In y (fold_left (fun acc x => PyList.insert le x acc) l acc)
    <-> In y l \/ In y acc.
Proof.
  induction l as [| x l IH]; intros acc; cbn [fold_left In].
  - intuition auto.
  - rewrite IH, In_insert. intuition auto.
Qed.

Lemma In_sort (le : Q -> Q -> bool) (y : Q) (l : list Q) :
  In y (PyList.sort le l) <-> In y l.
Proof.
  unfold PyList.sort. rewrite In_sort_from. cbn [In]. intuition auto.
Qed.

(** In a sorted list, whatever is cut off by [firstn] comes after
    everything that is kept. *)
Lemma sorted_cut {A : Type} (R : A -> A -> Prop) (n : nat) (l : list A) :
  StronglySorted R l ->
  forall y, In y (skipn n l) -> Forall (fun x => R x y) (firstn n l).
Proof.
  intros Hsorted. revert n.
  induction Hsorted as [| x l Hsorted IH Hx]; intros n y Hy.
  - rewrite firstn_nil. constructor.
  - destruct n as [| n]; [constructor |].
    cbn [skipn firstn] in *. constructor.
    + rewrite Forall_forall in Hx. apply Hx.
      rewrite <- (firstn_skipn n l). apply in_or_app. right. exact Hy.
    + apply IH. exact Hy.
Qed.

Lemma In_firstn_or_skipn {A : Type} (n : nat) (l : list A) (y : A) :
  In y l -> In y (firstn n l) \/ In y (skipn n l).
Proof.
  intros H. rewrite <- (firstn_skipn n l) in H.
  apply in_app_or in H. exact H.
Qed.

Lemma firstn_full {A : Type} (n : nat) (l : list A) (y : A) :
  In y (skipn n l) -> length (firstn n l) = n.
Proof.
  intros H. apply firstn_length_le.
  destruct (Nat.le_gt_cases n (length l)) as [Hle | Hgt]; [exact Hle |].
  rewrite skipn_all2 in H by lia. destruct H.
Qed.

(** The levels that survive are the kept candidates that sort first. *)
Lemma top_levels_nearest (le keep : Q -> Q -> bool) (current : Q)
    (levels : list Q) :
  (forall a b, le a b = false -> le b a = true) ->
  (forall a b c, le a b = true -> le b c = true -> le a c = true) ->
  let top :=
    firstn 3 (PyList.sort le (filter (fun level => keep level current) levels))
  in
  (forall x, In x top -> In x levels)
  /\ (forall y, In y levels -> keep y current = true ->
                In y top
                \/ (length top = 3%nat
                    /\ Forall (fun x => le x y = true) top)).
Proof.
  intros Htotal Htrans top. subst top. split.
  - intros x Hx.
    assert (In x (PyList.sort le
                    (filter (fun level => keep level current) levels)))
      as Hall.
    { rewrite <- (firstn_skipn 3 (PyList.sort _ _)).
      apply in_or_app. left. exact Hx. }
    clear Hx. rename Hall into Hx. apply In_sort in Hx.
    apply filter_In in Hx. apply Hx.
  - intros y Hy Hkeep.
    assert (In y (PyList.sort le
                    (filter (fun level => keep level current) levels)))
      as Hsorted
      by (apply In_sort; apply filter_In; split; assumption).
    destruct (In_firstn_or_skipn 3 _ _ Hsorted) as [H | H];
      [left; exact H | right].
    split; [eapply firstn_full; exact H |].
    apply (sorted_cut (fun a b => le a b = true));
      [apply sort_sorted; assumption | exact H].
Qed.

Lemma local_extrema_split (prices : list Q) (window : nat) :
  forall (l : list nat) (lows highs : list Q),
    fold_left
      (fun levels i =>
         let '(support_levels, resistance_levels) := levels in
         match nth_error prices i with
         | Some x =>
             (if PyList.is_local_extremum Py.leb prices window i x
              then support_levels ++ [x] else support_levels,
              if PyList.is_local_extremum Py.geb prices window i x
              then resistance_levels ++ [x] else resistance_levels)
         | None => levels
         end) l (lows, highs)
    = (fold_left
         (fun support_levels i =>
            match nth_error prices i with
            | Some x =>
                if PyList.is_local_extremum Py.leb prices window i x
                then support_levels ++ [x] else support_levels
            | None => support_levels
            end) l lows,
       fold_left
         (fun resistance_levels i =>
            match nth_error prices i with
            | Some x =>
                if PyList.is_local_extremum Py.geb prices window i x
                then resistance_levels ++ [x] else resistance_levels
            | None => resistance_levels
            end) l highs).
Proof.
  induction l as [| i l IH]; intros lows highs; cbn [fold_left];
    [reflexivity |].
  destruct (nth_error prices i); apply IH.
Qed.

Lemma is_local_max_spec (prices : list Q) (window i : nat) (x : Q) :
  PyList.is_local_extremum Py.geb prices window i x = true
  <-> (forall j y, (i - window <= j < i)%nat ->
                   nth_error prices j = Some y -> y <= x)
      /\ (forall j y, (i < j <= i + window)%nat ->
                      nth_error prices j = Some y -> y <= x).
Proof.
  unfold PyList.is_local_extremum.
  rewrite andb_true_iff, !forallb_forall.
  split; intros [Hbefore Hafter]; split.
  - intros j y Hj Hy. apply geb_spec. apply Hbefore.
    apply In_slice. exists j. split; assumption.
  - intros j y Hj Hy. apply geb_spec. apply Hafter.
    apply In_slice. exists j. split; [lia | assumption].
  - intros y Hy. apply In_slice in Hy. destruct Hy as [j [Hj Hy]].
    apply geb_spec. apply (Hbefore j); assumption.
  - intros y Hy. apply In_slice in Hy. destruct Hy as [j [Hj Hy]].
    apply geb_spec. apply (Hafter j); [lia | assumption].
Qed.

(** The scan of [identify_support_resistance] collects the same minima as
    the scan of the risk manager. *)
Lemma local_extrema_lows (prices : list Q) (window : nat) :
  fst (local_extrema prices window) = RiskManager.recent_lows prices window.
Proof.
  unfold local_extrema. rewrite local_extrema_split. reflexivity.
Qed.

Lemma In_local_extrema_highs (prices : list Q) (window : nat) (x : Q) :
  In x (snd (local_extrema prices window))
  <-> exists i, (window <= i < length prices - window)%nat
                /\ local_max_at prices window i x.
Proof.
  unfold local_extrema. rewrite local_extrema_split. cbn [snd].
  rewrite (In_scan _
             (fun i => match nth_error prices i with
                       | Some y =>
                           if PyList.is_local_extremum Py.geb prices window i y
                           then Some y else None
                       | None => None
                       end)).
  - cbn [In]. split.
    + intros [[] | [i [Hi Hsel]]]. apply in_seq in Hi.
      destruct (nth_error prices i) as [y |] eqn:Hy; [| discriminate].
      destruct (PyList.is_local_extremum Py.geb prices window i y) eqn:Ht;
        [| discriminate].
      injection Hsel as ->. exists i. split; [lia |].
      split; [assumption |]. apply is_local_max_spec. assumption.
    + intros [i [Hi [Hy Hmax]]]. right. exists i. split.
      * apply in_seq. lia.
      * rewrite Hy. apply is_local_max_spec in Hmax. rewrite Hmax.
        reflexivity.
  - intros acc i. destruct (nth_error prices i) as [y |]; [| reflexivity].
    destruct (PyList.is_local_extremum Py.geb prices window i y);
      reflexivity.
Qed.

(** X16.  With at least [3 * window] samples, every support level that
    [identify_support_resistance] returns is a local minimum of the
    prices at a position with [window] samples on both sides, and every
    local minimum strictly below the most recent price is either returned
    or at most as high as each of three returned levels: the support
    levels are the three highest local minima below the price. *)
Theorem support_levels_are_nearest_minima :
  forall (prices earlier : list Q) (current_price : Q) (window : nat),
    prices = earlier ++ [current_price] ->
    (3 * window <= length prices)%nat ->
    let levels := support (identify_support_resistance prices window) in
    (forall x, In x levels ->
       exists i, (window <= i < length prices - window)%nat
                 /\ local_min_at prices window i x)
    /\ (forall i y,
          (window <= i < length prices - window)%nat ->
          local_min_at prices window i y ->
          y < current_price ->
          In y levels
          \/ (length levels = 3%nat /\ Forall (fun x => y <= x) levels)).
Proof.
  intros prices earlier current_price window Hprices Hlong levels.
  subst levels. unfold identify_support_resistance.
  destruct (Nat.ltb_spec (length prices) (window * 3)) as [H | _]; [lia |].
  pose proof (local_extrema_lows prices window) as Hlows.
  destruct (local_extrema prices window) as [lows highs].
  cbn [fst] in Hlows.
  assert (Pd.iloc_back prices 1 = Py.Ok current_price) as ->
    by (rewrite Hprices; apply SupportResistance.iloc_back_last).
  cbn [Py.bind support].
  destruct (top_levels_nearest Py.geb Py.ltb current_price lows
              SupportResistance.geb_total SupportResistance.geb_trans)
    as [Hsound Hnear].
  split.
  - intros x Hx. apply In_recent_lows. rewrite <- Hlows.
    apply Hsound. exact Hx.
  - intros i y Hi Hmin Hbelow.
    destruct (Hnear y) as [H | [Hlen Hall]].
    + rewrite Hlows. apply In_recent_lows. exists i. split; assumption.
    + apply ltb_spec. exact Hbelow.
    + left. exact H.
    + right. split; [exact Hlen |].
      eapply Forall_impl; [| exact Hall].
      cbv beta. intros x Hx. apply geb_spec in Hx. exact Hx.
Qed.

Lemma support_levels_are_nearest_minima_witness :
  let prices := [9; 5; 9; 3; 9; 4; 9; 2; 9; 6] in
  In 2 (support (identify_support_resistance prices 1))
  \/ (length (support (identify_support_resistance prices 1)) = 3%nat
      /\ Forall (fun x => 2 <= x)
           (support (identify_support_resistance prices 1))).
Proof.
  intros prices.
  destruct (support_levels_are_nearest_minima prices
              [9; 5; 9; 3; 9; 4; 9; 2; 9] 6 1 eq_refl) as [_ H].
  - cbn. lia.
  - apply (H 7%nat 2).
    + cbn. lia.
    + split; [reflexivity |].
      split; intros j y Hj Hy.
      * assert (j = 6%nat) as -> by lia. injection Hy as <-.
        discriminate.
      * assert (j = 8%nat) as -> by lia. injection Hy as <-.
        discriminate.
    + reflexivity.
Defined.

(** X17.  The same for resistance: every returned resistance level is a
    local maximum of the prices at a position with [window] samples on
    both sides, and every local maximum strictly above the most recent
    price is either returned or at least as high as each of three
    returned levels. *)
Theorem resistance_levels_are_nearest_maxima :
  forall (prices earlier : list Q) (current_price : Q) (window : nat),
    prices = earlier ++ [current_price] ->
    (3 * window <= length prices)%nat ->
    let levels := resistance (identify_support_resistance prices window) in
    (forall x, In x levels ->
       exists i, (window <= i < length prices - window)%nat
                 /\ local_max_at prices window i x)
    /\ (forall i y,
          (window <= i < length prices - window)%nat ->
          local_max_at prices window i y ->
          current_price < y ->
          In y levels
          \/ (length levels = 3%nat /\ Forall (fun x => x <= y) levels)).
Proof.
  intros prices earlier current_price window Hprices Hlong levels.
  subst levels. unfold identify_support_resistance.
  destruct (Nat.ltb_spec (length prices) (window * 3)) as [H | _]; [lia |].
  pose proof (In_local_extrema_highs prices window) as Hhighs.
  destruct (local_extrema prices window) as [lows highs].
  cbn [snd] in Hhighs.
  assert (Pd.iloc_back prices 1 = Py.Ok current_price) as ->
    by (rewrite Hprices; apply SupportResistance.iloc_back_last).
  cbn [Py.bind resistance].
  destruct (top_levels_nearest Py.leb Py.gtb current_price highs
              SupportResistance.leb_total SupportResistance.leb_trans)
    as [Hsound Hnear].
  split.
  - intros x Hx. apply Hhighs. apply Hsound. exact Hx.
  - intros i y Hi Hmax Habove.
    destruct (Hnear y) as [H | [Hlen Hall]].
    + apply Hhighs. exists i. split; assumption.
    + apply gtb_spec. exact Habove.
    + left. exact H.
    + right. split; [exact Hlen |].
      eapply Forall_impl; [| exact Hall].
      cbv beta. intros x Hx. apply leb_spec in Hx. exact Hx.
Qed.

Lemma resistance_levels_are_nearest_maxima_witness :
  let prices := [1; 5; 1; 7; 1; 6; 1; 8; 1; 4] in
  In 8 (resistance (identify_support_resistance prices 1))
  \/ (length (resistance (identify_support_resistance prices 1)) = 3%nat
      /\ Forall (fun x => x <= 8)
           (resistance (identify_support_resistance prices 1))).
Proof.
  intros prices.
  destruct (resistance_levels_are_nearest_maxima prices
              [1; 5; 1; 7; 1; 6; 1; 8; 1] 4 1 eq_refl) as [_ H].
  - cbn. lia.
  - apply (H 7%nat 8).
    + cbn. lia.
    + split; [reflexivity |].
      split; intros j y Hj Hy.
      * assert (j = 6%nat) as -> by lia. injection Hy as <-.
        discriminate.
      * assert (j = 8%nat) as -> by lia. injection Hy as <-.
        discriminate.
    + reflexivity.
Defined.

End NearestLevels.

(** ** The analysis: scores and what a short history allows *)

Module AnalysisScores.

Import TechnicalAnalysis.

Lemma analysis_price (df : list Q) (a : Analysis) :
  analyze_price_data df = Some a -> Pd.iloc_back df 1 = Py.Ok (price a).
Proof.
  unfold analyze_price_data.
  destruct (length df =? 0)%nat; [discriminate |].
  destruct (Pd.iloc_back df 1) as [current_price | e]; [| discriminate].
  repeat match goal with
    | |- context [if ?c then _ else _] => destruct c
    end;
    intros H; injection H as <-; reflexivity.
Qed.

(** The two scores, indicator by indicator. *)
Lemma analysis_scores (df : list Q) (a : Analysis) :
  analyze_price_data df = Some a ->
  let rsi := calculate_rsi df 14 in
  let macd := macd_signal (calculate_macd df 12 26 9) in
  let ma := ma_signal (check_moving_averages df 50 200) in
  let sr := identify_support_resistance df 10 in
  buy_score a
  == (if Np.ltb rsi (Np.Fin 30) then 1 else 0)
     + (if String.eqb macd "buy" then 1 else 0)
     + (if String.eqb ma "golden_cross" then 2
        else if String.eqb ma "death_cross" then 0
        else if String.eqb ma "above" then 0.5 else 0)
     + (if near (price a) (support sr) then 0.5 else 0)
  /\ sell_score a
     == (if Np.ltb rsi (Np.Fin 30) then 0
         else if Np.gtb rsi (Np.Fin 70) then 1 else 0)
        + (if String.eqb macd "buy" then 0
           else if String.eqb macd "sell" then 1 else 0)
        + (if String.eqb ma "golden_cross" then 0
           else if String.eqb ma "death_cross" then 2
           else if String.eqb ma "above" then 0
           else if String.eqb ma "below" then 0.5 else 0)
        + (if near (price a) (resistance sr) then 0.5 else 0).
Proof.
  intros Ha. pose proof (analysis_price df a Ha) as Hprice.
  revert Ha. unfold analyze_price_data.
  destruct (length df =? 0)%nat; [discriminate |].
  rewrite Hprice. cbv zeta.
  repeat match goal with
    | |- context [if ?c then _ else _] => destruct c
    end;
    intros H; injection H as H; rewrite <- H;
    cbn [buy_score sell_score]; split; ring.
Qed.

Lemma analysis_exists (df : list Q) :
  df <> [] -> exists a, analyze_price_data df = Some a.
Proof.
  intros Hdf. unfold analyze_price_data.
  destruct df as [| p df]; [contradiction |].
  cbn [length Nat.eqb].
  destruct (iloc_back_defined (p :: df) 1) as [current_price ->];
    [cbn [length]; lia |].
  repeat match goal with
    | |- context [if ?c then _ else _] => destruct c
    end;
    eexists; reflexivity.
Qed.

(** X18.  [analyze_price_data] gives no analysis exactly for an empty
    price column.  In every analysis the reported price is the last
    price, both scores lie between 0 and 4.5, and together they are at
    most 5: the RSI, the MACD and the moving averages each add to one
    side only. *)
Theorem analysis_scores_bounded :
  forall (df : list Q),
    (analyze_price_data df = None <-> df = [])
    /\ (forall a, analyze_price_data df = Some a ->
          Pd.iloc_back df 1 = Py.Ok (price a)
          /\ 0 <= buy_score a <= 4.5
          /\ 0 <= sell_score a <= 4.5
          /\ buy_score a + sell_score a <= 5).
Proof.
  intros df. split.
  - split.
    + intros Hnone. destruct df as [| p df]; [reflexivity |].
      destruct (analysis_exists (p :: df)) as [a Ha]; [discriminate |].
      congruence.
    + intros ->. reflexivity.
  - intros a Ha.
    destruct (analysis_scores df a Ha) as (Hbuy & Hsell).
    split; [exact (analysis_price df a Ha) |].
    rewrite Hbuy, Hsell.
    repeat match goal with
      | |- context [if ?c then _ else _] => destruct c
      end;
      repeat split; lra.
Qed.

Lemma analysis_scores_bounded_witness :
  exists a, analyze_price_data [3; 2; 1] = Some a
            /\ price a = 1 /\ buy_score a + sell_score a <= 5.
Proof.
  destruct (analysis_exists [3; 2; 1]) as [a Ha]; [discriminate |].
  exists a. split; [exact Ha |].
  destruct (analysis_scores_bounded [3; 2; 1]) as [_ H].
  destruct (H a Ha) as (Hprice & _ & _ & Hsum).
  split; [| exact Hsum].
  cbn in Hprice. injection Hprice as <-. reflexivity.
Defined.

Lemma ma_insufficient (prices : list Q) (ma_short ma_long : nat) :
  (length prices < ma_long)%nat ->
  check_moving_averages prices ma_short ma_long
  = ma_signal_only "insufficient_data".
Proof.
  intros H. unfold check_moving_averages.
  apply Nat.ltb_lt in H. rewrite H. reflexivity.
Qed.

(** X19.  The labels a history allows.  With fewer than 35 prices the
    MACD is neutral and the moving averages are missing, so the label is
    [HOLD] whatever the prices are.  With fewer than 200 prices the
    moving averages are still missing, neither score exceeds 2.5, and
    the label is never [STRONG BUY] or [STRONG SELL]. *)
Theorem strong_label_needs_long_history :
  forall (df : list Q) (a : Analysis),
    analyze_price_data df = Some a ->
    ((length df < 35)%nat ->
     buy_score a <= 1.5 /\ sell_score a <= 1.5
     /\ recommendation a = "HOLD"%string)
    /\ ((length df < 200)%nat ->
        buy_score a <= 2.5 /\ sell_score a <= 2.5
        /\ recommendation a <> "STRONG BUY"%string
        /\ recommendation a <> "STRONG SELL"%string).
Proof.
  intros df a Ha.
  destruct (analysis_scores df a Ha) as (Hbuy & Hsell).
  pose proof (RecommendationLabel.analysis_label df a Ha) as Hlabel.
  assert ((length df < 200)%nat ->
          buy_score a
          == (if Np.ltb (calculate_rsi df 14) (Np.Fin 30) then 1 else 0)
             + (if String.eqb (macd_signal (calculate_macd df 12 26 9)) "buy"
                then 1 else 0)
             + (if near (price a) (support (identify_support_resistance df 10))
                then 0.5 else 0)
          /\ sell_score a
             == (if Np.ltb (calculate_rsi df 14) (Np.Fin 30) then 0
                 else if Np.gtb (calculate_rsi df 14) (Np.Fin 70) then 1
                 else 0)
                + (if String.eqb (macd_signal (calculate_macd df 12 26 9))
                        "buy" then 0
                   else if String.eqb
                             (macd_signal (calculate_macd df 12 26 9)) "sell"
                   then 1 else 0)
                + (if near (price a)
                        (resistance (identify_support_resistance df 10))
                   then 0.5 else 0)) as Hshort.
  { intros Hlen. rewrite Hbuy, Hsell.
    rewrite (ma_insufficient df 50 200 Hlen).
    cbn [ma_signal ma_signal_only String.eqb Ascii.eqb Bool.eqb].
    split; ring. }
  split.
  - intros Hlen. destruct Hshort as [Hb Hs]; [lia |].
    rewrite (MacdFields.macd_degenerate df 12 26 9) in Hb, Hs
      by (left; cbn [Nat.add]; lia).
    cbn [macd_signal macd_neutral String.eqb Ascii.eqb Bool.eqb] in Hb, Hs.
    assert (buy_score a <= 1.5 /\ sell_score a <= 1.5) as [Hb' Hs'].
    { rewrite Hb, Hs.
      repeat match goal with
        | |- context [if ?c then _ else _] => destruct c
        end; split; lra. }
    split; [exact Hb' |]. split; [exact Hs' |].
    rewrite Hlabel.
    destruct (RecommendationLabel.recommend_cases (buy_score a)
                (sell_score a))
      as [[H1 _] | [[[H1 _] _] | [[H1 _] | [[[H1 _] _] | [_ [_ H]]]]]];
      try (exfalso; lra).
    exact H.
  - intros Hlen. destruct (Hshort Hlen) as [Hb Hs].
    assert (buy_score a <= 2.5 /\ sell_score a <= 2.5) as [Hb' Hs'].
    { rewrite Hb, Hs.
      repeat match goal with
        | |- context [if ?c then _ else _] => destruct c
        end; split; lra. }
    split; [exact Hb' |]. split; [exact Hs' |].
    rewrite Hlabel.
    destruct (RecommendationLabel.recommend_cases (buy_score a)
                (sell_score a))
      as [[H1 _] | [[_ [_ ->]] | [[H1 _] | [[_ [_ ->]] | [_ [_ ->]]]]]];
      try (exfalso; lra); split; discriminate.
Qed.

Lemma strong_label_needs_long_history_witness :
  exists a, analyze_price_data [3; 2; 1] = Some a
            /\ recommendation a = "HOLD"%string.
Proof.
  destruct (analysis_exists [3; 2; 1]) as [a Ha]; [discriminate |].
  exists a. split; [exact Ha |].
  destruct (strong_label_needs_long_history [3; 2; 1] a Ha) as [H _].
  apply H. cbn. lia.
Defined.

End AnalysisScores.

(** ** The advisor's votes *)

Module AdvisorVotes.

Import TechnicalAnalysis InvestmentAdvisor.

Lemma rsi_vote_fin (r : Q) :
  rsi_strength (evaluate_rsi_signal (Np.Fin r))
  = Np.Fin
      (if Py.ltb r 30 then
         if Py.ltb r 20 then
           if Py.ltb 2.0 ((30 + - r) / 10) then 2.0 else (30 + - r) / 10
         else (30 + - r) / 10
       else if Py.gtb r 70 then
         if Py.gtb r 80 then
           if Py.gtb (-2.0) (-1 * (r + - (70)) / 10) then -2.0
           else -1 * (r + - (70)) / 10
         else -1 * (r + - (70)) / 10
       else if Py.ltb r 45 then 0.3
       else if Py.gtb r 55 then -0.3
       else 0).
Proof.
  unfold evaluate_rsi_signal, py_min, py_max.
  cbn [Np.div Np.sub Np.add Np.neg Np.mul].
  change (Qeq_bool 10 0) with false. cbv iota.
  rewrite !MovingAverages.np_ltb_fin, !MovingAverages.np_gtb_fin.
  destruct (Py.ltb r 30).
  { destruct (Py.ltb r 20); cbn [rsi_strength]; [| reflexivity].
    destruct (Py.ltb 2.0 ((30 + - r) / 10)); reflexivity. }
  destruct (Py.gtb r 70).
  { destruct (Py.gtb r 80); cbn [rsi_strength]; [| reflexivity].
    destruct (Py.gtb (-2.0) (-1 * (r + - (70)) / 10)); reflexivity. }
  destruct (Py.ltb r 45); [reflexivity |].
  destruct (Py.gtb r 55); reflexivity.
Qed.

(** X20.  The strength [evaluate_rsi_signal] returns is always a finite
    number between -2 and 2, also for an RSI that is NaN (strength 0) or
    infinite.  For a finite RSI the vote is positive exactly below 45,
    negative exactly above 55 and zero in between; it is the full 2 at an
    RSI of 10 or less and -2 at 90 or more. *)
Theorem rsi_vote_bounded_and_signed :
  forall rsi_value : Np.float,
    exists q,
      rsi_strength (evaluate_rsi_signal rsi_value) = Np.Fin q
      /\ -2 <= q <= 2
      /\ (rsi_value = Np.NaN -> q = 0)
      /\ (forall r, rsi_value = Np.Fin r ->
            (0 < q <-> r < 45)
            /\ (q < 0 <-> 55 < r)
            /\ (r <= 10 -> q == 2)
            /\ (90 <= r -> q == -2)).
Proof.
  intros [| | | r].
  - exists 0. split; [reflexivity |]. split; [lra |].
    split; [reflexivity |]. intros r H. discriminate H.
  - exists (-2.0). split; [reflexivity |]. split; [lra |].
    split; intros; discriminate.
  - exists 2.0. split; [reflexivity |]. split; [lra |].
    split; intros; discriminate.
  - eexists. split; [apply rsi_vote_fin |].
    assert ((30 + - r) / 10 * 10 == 30 - r) as E1 by (field).
    assert (-1 * (r + - (70)) / 10 * 10 == 70 - r) as E2 by (field).
    assert (forall r', Np.Fin r = Np.Fin r' -> r' = r) as Hinj
        by (intros r' H; injection H as <-; reflexivity).
    split; [| split; [intros H; discriminate H |]].
    + destruct (Py.ltb r 30) eqn:H30; py_order.
      { destruct (Py.ltb r 20) eqn:H20; py_order.
        - destruct (Py.ltb 2.0 ((30 + - r) / 10)) eqn:Hcap; py_order;
            lra.
        - lra. }
      destruct (Py.gtb r 70) eqn:H70; py_order.
      { destruct (Py.gtb r 80) eqn:H80; py_order.
        - destruct (Py.gtb (-2.0) (-1 * (r + - (70)) / 10)) eqn:Hcap;
            py_order; lra.
        - lra. }
      destruct (Py.ltb r 45); [lra |].
      destruct (Py.gtb r 55); lra.
    + intros r' Hr. apply Hinj in Hr. subst r'.
      destruct (Py.ltb r 30) eqn:H30; py_order.
      { destruct (Py.ltb r 20) eqn:H20; py_order.
        - destruct (Py.ltb 2.0 ((30 + - r) / 10)) eqn:Hcap; py_order;
            repeat split; intros; lra.
        - repeat split; intros; lra. }
      destruct (Py.gtb r 70) eqn:H70; py_order.
      { destruct (Py.gtb r 80) eqn:H80; py_order.
        - destruct (Py.gtb (-2.0) (-1 * (r + - (70)) / 10)) eqn:Hcap;
            py_order; repeat split; intros; lra.
        - repeat split; intros; lra. }
      destruct (Py.ltb r 45) eqn:H45; py_order;
        [repeat split; intros; lra |].
      destruct (Py.gtb r 55) eqn:H55; py_order;
        repeat split; intros; lra.
Qed.

(** X21.  The RSI vote is not monotone: an oversold RSI between 27 and
    30 gets a weaker buy vote than any RSI of the neutral-low band from
    30 to 45, and an overbought RSI between 70 and 73 a weaker sell vote
    than any RSI of the neutral-high band. *)
Theorem rsi_vote_dips_next_to_neutral_band :
  forall r1 r2 q1 q2 : Q,
    rsi_strength (evaluate_rsi_signal (Np.Fin r1)) = Np.Fin q1 ->
    rsi_strength (evaluate_rsi_signal (Np.Fin r2)) = Np.Fin q2 ->
    (27 < r1 < 30 -> 30 <= r2 < 45 -> 0 < q1 < q2)
    /\ (55 < r1 <= 70 -> 70 < r2 < 73 -> q1 < q2 < 0).
Proof.
  intros r1 r2 q1 q2 H1 H2.
  rewrite rsi_vote_fin in H1, H2.
  injection H1 as <-. injection H2 as <-.
  assert ((30 + - r1) / 10 * 10 == 30 - r1) as E1 by (field).
  assert (-1 * (r2 + - (70)) / 10 * 10 == 70 - r2) as E2 by (field).
  split.
  - intros Hr1 Hr2.
    assert (Py.ltb r1 30 = true) as -> by (apply ltb_spec; lra).
    assert (Py.ltb r1 20 = false) as -> by (apply ltb_false; lra).
    assert (Py.ltb r2 30 = false) as -> by (apply ltb_false; lra).
    assert (Py.gtb r2 70 = false) as -> by (apply gtb_false; lra).
    assert (Py.ltb r2 45 = true) as -> by (apply ltb_spec; lra).
    lra.
  - intros Hr1 Hr2.
    assert (Py.ltb r1 30 = false) as -> by (apply ltb_false; lra).
    assert (Py.gtb r1 70 = false) as -> by (apply gtb_false; lra).
    assert (Py.ltb r1 45 = false) as -> by (apply ltb_false; lra).
    assert (Py.gtb r1 55 = true) as -> by (apply gtb_spec; lra).
    assert (Py.ltb r2 30 = false) as -> by (apply ltb_false; lra).
    assert (Py.gtb r2 70 = true) as -> by (apply gtb_spec; lra).
    assert (Py.gtb r2 80 = false) as -> by (apply gtb_false; lra).
    lra.
Qed.

Lemma rsi_vote_dips_next_to_neutral_band_witness :
  0 < (30 + - (29)) / 10 < 0.3.
Proof.
  destruct (rsi_vote_dips_next_to_neutral_band 29 40
              ((30 + - (29)) / 10) 0.3 eq_refl eq_refl) as [H _].
  apply H; lra.
Defined.

(** With a positive price the numpy distance is the plain quotient. *)
Lemma distance_below (a price k : Q) :
  0 < price ->
  Np.ltb (Np.mul (Np.div (Np.Fin a) (Np.Fin price)) (Np.Fin 100)) (Np.Fin k)
  = Py.ltb (a / price * 100) k.
Proof.
  intros Hprice. cbn [Np.div].
  destruct (Qeq_bool price 0) eqn:E.
  - apply Qeq_bool_iff in E. lra.
  - reflexivity.
Qed.

(** X22.  The vote of [evaluate_support_resistance] at a positive price.
    Without levels it is 0.  A closest resistance (the minimum of the
    resistance list) less than 1% above the price gives -1.5 whatever the
    support levels are, so resistance wins when both are that close.  A
    positive vote needs the closest support (the maximum of the support
    list) less than 5% below the price, a negative vote the closest
    resistance less than 5% above it, and the strength always lies
    between -1.5 and 1.5. *)
Theorem level_vote_sides :
  forall (price : Q) (sr_levels : SRLevels),
    0 < price ->
    let vote := evaluate_support_resistance price sr_levels in
    (support sr_levels = [] -> resistance sr_levels = [] ->
     level_strength vote = 0 /\ level_explanation vote = NotNearLevels)
    /\ (forall m, PyList.min (resistance sr_levels) = Some m ->
                  (m - price) / price * 100 < 1 ->
                  level_strength vote = -1.5
                  /\ level_explanation vote = VeryCloseToResistance m)
    /\ (0 < level_strength vote ->
        exists s, PyList.max (support sr_levels) = Some s
                  /\ (price - s) / price * 100 < 5)
    /\ (level_strength vote < 0 ->
        exists m, PyList.min (resistance sr_levels) = Some m
                  /\ (m - price) / price * 100 < 5)
    /\ -1.5 <= level_strength vote <= 1.5.
Proof.
  intros price sr_levels Hprice vote. subst vote.
  unfold evaluate_support_resistance.
  split; [intros -> ->; split; reflexivity |].
  split.
  { intros m Hm Hclose. rewrite Hm.
    rewrite (distance_below (m - price) price 1 Hprice).
    apply ltb_spec in Hclose. rewrite Hclose. split; reflexivity. }
  destruct (PyList.max (support sr_levels)) as [s |];
    destruct (PyList.min (resistance sr_levels)) as [m |];
    rewrite ?(distance_below _ price _ Hprice).
  - destruct (Py.ltb ((price - s) / price * 100) 1) eqn:S1;
      [| destruct (Py.ltb ((price - s) / price * 100) 3) eqn:S3;
         [| destruct (Py.ltb ((price - s) / price * 100) 5) eqn:S5]];
      (destruct (Py.ltb ((m - price) / price * 100) 1) eqn:R1;
       [| destruct (Py.ltb ((m - price) / price * 100) 3) eqn:R3;
          [| destruct (Py.ltb ((m - price) / price * 100) 5) eqn:R5]]);
      cbn [fst snd];
      repeat match goal with
        | |- context [Py.ltb ?a ?b] =>
            let v := eval vm_compute in (Py.ltb a b) in
            change (Py.ltb a b) with v
        end;
      cbn [fst snd level_strength];
      py_order;
      (split; [intros H; first [exfalso; lra | exists s; split;
                                               [reflexivity | lra]] |]);
      (split; [intros H; first [exfalso; lra | exists m; split;
                                               [reflexivity | lra]] |]);
      lra.
  - destruct (Py.ltb ((price - s) / price * 100) 1) eqn:S1;
      [| destruct (Py.ltb ((price - s) / price * 100) 3) eqn:S3;
         [| destruct (Py.ltb ((price - s) / price * 100) 5) eqn:S5]];
      cbn [fst snd level_strength];
      py_order;
      (split; [intros H; first [exfalso; lra | exists s; split;
                                               [reflexivity | lra]] |]);
      (split; [intros H; exfalso; lra |]);
      lra.
  - destruct (Py.ltb ((m - price) / price * 100) 1) eqn:R1;
      [| destruct (Py.ltb ((m - price) / price * 100) 3) eqn:R3;
         [| destruct (Py.ltb ((m - price) / price * 100) 5) eqn:R5]];
      cbn [fst snd];
      repeat match goal with
        | |- context [Py.ltb ?a ?b] =>
            let v := eval vm_compute in (Py.ltb a b) in
            change (Py.ltb a b) with v
        end;
      cbn [fst snd level_strength];
      py_order;
      (split; [intros H; exfalso; lra |]);
      (split; [intros H; first [exfalso; lra | exists m; split;
                                               [reflexivity | lra]] |]);
      lra.
  - cbn [fst snd level_strength].
    split; [intros H; exfalso; lra |].
    split; [intros H; exfalso; lra |]. lra.
Qed.

Lemma level_vote_sides_witness :
  level_strength
    (evaluate_support_resistance 1000
       {| support := [995; 900]; resistance := [1005; 1100] |}) = -1.5.
Proof.
  destruct (level_vote_sides 1000
              {| support := [995; 900]; resistance := [1005; 1100] |})
    as (_ & H & _).
  - reflexivity.
  - destruct (H 1005 eq_refl) as [Hs _]; [reflexivity | exact Hs].
Defined.

Lemma sum_times_flat (c : Q) (y : list Q) :
  Forall (fun p => p == c) y ->
  forall x, Np.sum (times x y) == c * Np.sum (firstn (length y) x).
Proof.
  unfold times, Np.sum.
  induction 1 as [| p y Hp _ IH]; intros x.
  - destruct x; cbn; ring.
  - destruct x as [| a x]; cbn [combine map fold_right length firstn fst snd].
    + ring.
    + rewrite IH, Hp. ring.
Qed.

Lemma sum_flat (c : Q) (y : list Q) :
  Forall (fun p => p == c) y ->
  Np.sum y == Np.of_nat (length y) * c.
Proof.
  unfold Np.sum, Np.of_nat.
  induction 1 as [| p y Hp _ IH]; [cbn; ring |].
  cbn [fold_right length]. rewrite IH, Hp, Nat2Z.inj_succ.
  unfold Z.succ. rewrite inject_Z_plus. ring.
Qed.

Lemma length_arange (n : nat) : length (arange n) = n.
Proof. unfold arange. now rewrite length_map, length_seq. Qed.

Lemma Forall_recent (P : Q -> Prop) (prices : list Q) (window : nat) :
  Forall P prices -> Forall P (recent prices window).
Proof.
  intros H. unfold recent. destruct (window =? 0)%nat; [exact H |].
  rewrite <- (firstn_skipn (length prices - window) prices) in H.
  apply Forall_app in H. apply H.
Qed.

(** The regression slope of a flat series is zero, or NaN where numpy
    divides zero by zero. *)
Lemma slope_of_flat (c : Q) (y : list Q) :
  Forall (fun p => p == c) y ->
  regression_slope y = Np.NaN
  \/ exists q, regression_slope y = Np.Fin q /\ q == 0.
Proof.
  intros Hflat. unfold regression_slope.
  set (x := arange (length y)).
  assert (Np.of_nat (length x) * Np.sum (times x y)
          - Np.sum x * Np.sum y == 0) as Hnum.
  { rewrite (sum_times_flat c y Hflat), (sum_flat c y Hflat).
    subst x. rewrite length_arange.
    rewrite <- (length_arange (length y)) at 2.
    rewrite firstn_all. ring. }
  cbn [Np.div].
  destruct (Qeq_bool _ 0).
  - left. unfold Np.sign. rewrite Hnum. reflexivity.
  - right. eexists. split; [reflexivity |]. rewrite Hnum.
    unfold Qdiv. ring.
Qed.

Lemma zero_is_no_trend (x : Q) :
  x == 0 ->
  Np.gtb (Np.Fin x) (Np.Fin 1.0) = false
  /\ Np.gtb (Np.Fin x) (Np.Fin 0.3) = false
  /\ Np.gtb (Np.Fin x) (Np.Fin 0.1) = false
  /\ Np.ltb (Np.Fin x) (Np.Fin (-1.0)) = false
  /\ Np.ltb (Np.Fin x) (Np.Fin (-0.3)) = false
  /\ Np.ltb (Np.Fin x) (Np.Fin (-0.1)) = false.
Proof.
  intros Hx.
  rewrite !MovingAverages.np_gtb_fin, !MovingAverages.np_ltb_fin.
  repeat split; first [apply gtb_false | apply ltb_false]; lra.
Qed.

(** X23.  [evaluate_trend] votes 0 on every flat series (all prices equal
    to [c]), for every window and every level [c]: the slope is zero,
    and where numpy divides zero by zero (a single sample, or a level of
    zero) the NaN fails every comparison.  It also votes 0 when there are
    fewer prices than the window. *)
Theorem flat_prices_have_no_trend :
  forall (prices : list Q) (c : Q) (window : nat),
    (Forall (fun p => p == c) prices
     \/ (length prices < window)%nat) ->
    trend_strength (evaluate_trend prices window) = 0
    /\ (trend_explanation (evaluate_trend prices window) = NoTrend
        \/ trend_explanation (evaluate_trend prices window)
           = InsufficientTrendData).
Proof.
  intros prices c window Hcase. unfold evaluate_trend.
  destruct (Nat.ltb_spec (length prices) window) as [Hshort | Hlong];
    [split; [reflexivity | right; reflexivity] |].
  destruct Hcase as [Hflat | Hshort]; [| lia].
  apply (Forall_recent _ _ window) in Hflat.
  assert (forall norm_slope,
             norm_slope = Np.NaN
             \/ (exists x, norm_slope = Np.Fin x /\ x == 0) ->
             Np.gtb norm_slope (Np.Fin 1.0) = false
             /\ Np.gtb norm_slope (Np.Fin 0.3) = false
             /\ Np.gtb norm_slope (Np.Fin 0.1) = false
             /\ Np.ltb norm_slope (Np.Fin (-1.0)) = false
             /\ Np.ltb norm_slope (Np.Fin (-0.3)) = false
             /\ Np.ltb norm_slope (Np.Fin (-0.1)) = false) as Hnone.
  { intros norm_slope [-> | [x [-> Hx]]];
      [repeat split; reflexivity | apply zero_is_no_trend; exact Hx]. }
  match goal with
  | |- context [Np.gtb ?n (Np.Fin 1.0)] =>
      destruct (Hnone n) as (-> & -> & -> & -> & -> & ->);
        [| split; [reflexivity | left; reflexivity]]
  end.
  destruct (slope_of_flat c _ Hflat) as [-> | [q [-> Hq]]];
    [left; reflexivity |].
  unfold Np.mean. destruct (recent prices window) as [| p rest];
    [left; reflexivity |].
  cbn [Np.div]. destruct (Qeq_bool _ 0).
  - left. unfold Np.sign. rewrite Hq. reflexivity.
  - right. eexists. split; [reflexivity |]. rewrite Hq.
    unfold Qdiv. ring.
Qed.

Lemma flat_prices_have_no_trend_witness :
  trend_strength (evaluate_trend [7; 7; 7] 2) = 0.
Proof.
  apply (flat_prices_have_no_trend [7; 7; 7] 7 2).
  left. repeat constructor.
Defined.

End AdvisorVotes.

(** ** The trade ledger and the portfolio *)

Module PortfolioAccounts.

Import PerformanceTracker.

Lemma buy_is_not_sell (t : Trade) :
  String.eqb (trade_type t) "buy" = true ->
  String.eqb (trade_type t) "sell" = false.
Proof.
  intros H. apply String.eqb_eq in H. rewrite H. reflexivity.
Qed.

(** The loop of [calculate_portfolio_value], started with any balances. *)
Lemma portfolio_loop (trades : list Trade) :
  forall balance invested withdrawn : Q,
    let '(eth_balance, total_invested, total_withdrawn) :=
      fold_left
        (fun acc trade =>
           let '(eth_balance, total_invested, total_withdrawn) := acc in
           if String.eqb (trade_type trade) "buy" then
             (eth_balance + amount trade, total_invested + value trade,
              total_withdrawn)
           else if String.eqb (trade_type trade) "sell" then
             (eth_balance - amount trade, total_invested,
              total_withdrawn + value trade)
           else acc)
        trades (balance, invested, withdrawn) in
    eth_balance
    == balance + total_of amount (trades_of "buy" trades)
       - total_of amount (trades_of "sell" trades)
    /\ total_invested == invested + total_of value (trades_of "buy" trades)
    /\ total_withdrawn
       == withdrawn + total_of value (trades_of "sell" trades).
Proof.
  unfold total_of, trades_of, Np.sum.
  induction trades as [| t trades IH]; intros balance invested withdrawn.
  - cbn. repeat split; ring.
  - cbn [fold_left filter].
    destruct (String.eqb (trade_type t) "buy") eqn:Ebuy.
    + rewrite (buy_is_not_sell t Ebuy).
      specialize (IH (balance + amount t) (invested + value t) withdrawn).
      destruct (fold_left _ trades _) as [[b i] w].
      destruct IH as (Hb & Hi & Hw). cbn [map fold_right].
      rewrite Hb, Hi, Hw. repeat split; ring.
    + destruct (String.eqb (trade_type t) "sell") eqn:Esell.
      * specialize (IH (balance - amount t) invested (withdrawn + value t)).
        destruct (fold_left _ trades _) as [[b i] w].
        destruct IH as (Hb & Hi & Hw). cbn [map fold_right].
        rewrite Hb, Hi, Hw. repeat split; ring.
      * apply IH.
Qed.

Lemma portfolio_totals (trades : list Trade) (current_price : Q) :
  let p := calculate_portfolio_value trades current_price in
  eth_balance p
  == total_of amount (trades_of "buy" trades)
     - total_of amount (trades_of "sell" trades)
  /\ total_invested p == total_of value (trades_of "buy" trades)
  /\ total_withdrawn p == total_of value (trades_of "sell" trades)
  /\ current_value p = eth_balance p * current_price
  /\ realized_pl p = total_withdrawn p - total_invested p
  /\ unrealized_pl p
     = current_value p - (total_invested p - total_withdrawn p)
  /\ total_pl p = realized_pl p + unrealized_pl p
  /\ roi p = if Py.gtb (total_invested p) 0
             then total_pl p / total_invested p else 0.
Proof.
  cbv zeta. unfold calculate_portfolio_value.
  pose proof (portfolio_loop trades 0 0 0) as H.
  destruct (fold_left _ trades _) as [[b i] w].
  destruct H as (Hb & Hi & Hw).
  cbn [eth_balance total_invested total_withdrawn current_value realized_pl
       unrealized_pl total_pl roi].
  repeat split; try reflexivity.
  - rewrite Hb. ring.
  - rewrite Hi. ring.
  - rewrite Hw. ring.
Qed.



Lemma map_trade_id_app (trades : list RecordedTrade) (entry : RecordedTrade) :
  map trade_id (trades ++ [entry]) = map trade_id trades ++ [trade_id entry].
Proof. apply map_app. Qed.

Lemma trades_of_app (type : string) (l l' : list Trade) :
  trades_of type (l ++ l') = trades_of type l ++ trades_of type l'.
Proof. apply filter_app. Qed.

Lemma total_of_app (column : Trade -> Q) (l l' : list Trade) :
  total_of column (l ++ l') == total_of column l + total_of column l'.
Proof.
  unfold total_of, Np.sum. induction l as [| t l IH]; cbn [app map fold_right].
  - ring.
  - rewrite IH. ring.
Qed.

Lemma total_after_append (column : Trade -> Q) (type : string)
    (l : list Trade) (t : Trade) :
  total_of column (trades_of type (l ++ [t]))
  == total_of column (trades_of type l)
     + (if String.eqb (trade_type t) type then column t else 0).
Proof.
  rewrite trades_of_app, total_of_app.
  unfold trades_of at 2. cbn [filter].
  destruct (String.eqb (trade_type t) type); cbn; ring.
Qed.

(** X26.  [record_trade] appends one entry and returns it: its id is the
    new length of the ledger, so a ledger numbered 1, 2, ... stays so; its
    type is the given type in lower case and its value is price times
    amount.  In the portfolio computed from the new ledger, a type that
    reads [buy] in lower case adds the amount to the balance and the
    value to the investment, one that reads [sell] subtracts the amount
    and adds the value to the withdrawals, and an entry of any other type
    is recorded but changes no balance or total. *)
Theorem recorded_trade_enters_portfolio :
  forall (ledger : list RecordedTrade) (type : string) (price quantity : Q)
         (date : Z) (notes : string) (current_price : Q),
    let ledger' := fst (record_trade ledger type price quantity date notes) in
    let entry := snd (record_trade ledger type price quantity date notes) in
    let before := calculate_portfolio_value (map trade ledger) current_price in
    let after := calculate_portfolio_value (map trade ledger') current_price in
    ledger' = ledger ++ [entry]
    /\ trade_id entry = length ledger'
    /\ (map trade_id ledger = seq 1 (length ledger) ->
        map trade_id ledger' = seq 1 (length ledger'))
    /\ value (trade entry) = price * quantity
    /\ (Py.lower type = "buy"%string ->
        eth_balance after == eth_balance before + quantity
        /\ total_invested after == total_invested before + price * quantity
        /\ total_withdrawn after == total_withdrawn before)
    /\ (Py.lower type = "sell"%string ->
        eth_balance after == eth_balance before - quantity
        /\ total_invested after == total_invested before
        /\ total_withdrawn after == total_withdrawn before + price * quantity)
    /\ (Py.lower type <> "buy"%string -> Py.lower type <> "sell"%string ->
        eth_balance after == eth_balance before
        /\ total_invested after == total_invested before
        /\ total_withdrawn after == total_withdrawn before).
Proof.
  intros ledger type price quantity date notes current_price
    ledger' entry before after.
  assert (ledger' = ledger ++ [entry]) as Hledger by reflexivity.
  assert (length ledger' = (length ledger + 1)%nat) as Hlen
    by (rewrite Hledger, length_app; reflexivity).
  split; [exact Hledger |].
  split; [rewrite Hlen; reflexivity |].
  split.
  { intros Hids. rewrite Hlen, Hledger, map_trade_id_app, Hids.
    rewrite seq_app. cbn [seq Nat.add]. f_equal. f_equal.
    cbn [entry record_trade snd trade_id]. lia. }
  split; [reflexivity |].
  destruct (portfolio_totals (map trade ledger) current_price)
    as (Hb & Hi & Hw & _).
  destruct (portfolio_totals (map trade ledger') current_price)
    as (Hb' & Hi' & Hw' & _).
  fold before in Hb, Hi, Hw. fold after in Hb', Hi', Hw'.
  rewrite Hledger, map_app in Hb', Hi', Hw'. cbn [map] in Hb', Hi', Hw'.
  rewrite (total_after_append amount "buy"),
    (total_after_append amount "sell") in Hb'.
  rewrite (total_after_append value "buy") in Hi'.
  rewrite (total_after_append value "sell") in Hw'.
  cbn [entry record_trade snd trade trade_type amount value] in Hb', Hi', Hw'.
  rewrite Hb', Hi', Hw', Hb, Hi, Hw.
  split; [| split].
  - intros ->. cbn [String.eqb Ascii.eqb Bool.eqb]. repeat split; ring.
  - intros ->. cbn [String.eqb Ascii.eqb Bool.eqb]. repeat split; ring.
  - intros Hnb Hns.
    apply String.eqb_neq in Hnb, Hns. rewrite Hnb, Hns.
    repeat split; ring.
Qed.

Lemma recorded_trade_enters_portfolio_witness :
  let ledger' := fst (record_trade [] "BUY" 100 2 1 "") in
  total_invested (calculate_portfolio_value (map trade ledger') 120)
  == total_invested (calculate_portfolio_value [] 120) + 100 * 2.
Proof.
  intros ledger'.
  destruct (recorded_trade_enters_portfolio [] "BUY" 100 2 1 "" 120)
    as (_ & _ & _ & _ & Hbuy & _).
  destruct Hbuy as (_ & Hinv & _); [reflexivity | exact Hinv].
Defined.

End PortfolioAccounts.

(** ** The range of the decision accuracy *)

Module AccuracyRange.

Import PerformanceTracker.

Lemma unrecognised_is_never_correct (recommendation : string)
    (price_change : Np.float) :
  unrecognised recommendation ->
  was_correct recommendation price_change = false.
Proof.
  intros (Hbuy & Hsell & Hhold). unfold was_correct.
  apply String.eqb_neq in Hbuy, Hsell, Hhold.
  rewrite Hbuy, Hsell, Hhold. reflexivity.
Qed.

(** The counting loop over any positions: the first counter never
    overtakes the second, and it stands still when no recommendation of
    the log is recognised. *)
Lemma accuracy_loop (log : list Decision) (positions : list nat) :
  forall correct total : nat,
    (correct <= total)%nat ->
    let '(correct_decisions, total_evaluated) :=
      fold_left
        (fun counters i =>
           let '(correct_decisions, total_evaluated) := counters in
           match nth_error log i, nth_error log (i + 1) with
           | Some current_decision, Some next_decision =>
               let price_change :=
                 Np.div
                   (Np.Fin (price next_decision - price current_decision))
                   (Np.Fin (price current_decision)) in
               ((if was_correct (recommendation current_decision)
                      price_change
                 then correct_decisions + 1 else correct_decisions)%nat,
                (total_evaluated + 1)%nat)
           | _, _ => counters
           end)
        positions (correct, total) in
    (correct <= correct_decisions <= total_evaluated)%nat
    /\ (Forall (fun d => unrecognised (recommendation d)) log ->
        correct_decisions = correct).
Proof.
  induction positions as [| i positions IH]; intros correct total Hle;
    cbn [fold_left].
  - split; [lia | reflexivity].
  - destruct (nth_error log i) as [d |] eqn:Hd; [| apply IH; exact Hle].
    destruct (nth_error log (i + 1)) as [d' |]; [| apply IH; exact Hle].
    cbv zeta.
    destruct (was_correct (recommendation d) _) eqn:Hcorrect.
    + specialize (IH (correct + 1)%nat (total + 1)%nat).
      destruct (fold_left _ positions _) as [c t].
      destruct IH as [Hrange Hsame]; [lia |].
      split; [lia |]. intros Hlog. exfalso.
      rewrite Forall_forall in Hlog.
      rewrite unrecognised_is_never_correct in Hcorrect;
        [discriminate |].
      apply Hlog. eapply nth_error_In. exact Hd.
    + specialize (IH correct (total + 1)%nat).
      destruct (fold_left _ positions _) as [c t].
      destruct IH as [Hrange Hsame]; [lia |].
      split; [lia | exact Hsame].
Qed.

(** X27.  Whenever [calculate_performance_metrics] reports a decision
    accuracy, it lies between 0 and 1, whatever the prices are (a
    decision price of zero included) and in whatever order the sort
    leaves decisions of the same date.  A recommendation other than
    [BUY], [SELL] and [HOLD], such as the [STRONG BUY] of the analysis,
    never counts as correct: a log of such recommendations has accuracy
    0. *)
Theorem accuracy_between_zero_and_one :
  forall (rt : Runtime) (trades : list Trade) (decisions : list Decision)
         (current_price q : Q),
    accuracy_of (calculate_performance_metrics rt trades decisions
                   current_price) = Some q ->
    0 <= q <= 1
    /\ (sorts_by_date (sort_values rt) ->
        Forall (fun d => unrecognised (recommendation d)) decisions ->
        q == 0).
Proof.
  intros rt trades decisions current_price q.
  unfold calculate_performance_metrics.
  destruct (length trades =? 0)%nat; [discriminate |].
  destruct (annualized_return rt trades _) as [ran | e];
    cbn [Py.bind accuracy_of decision_accuracy]; [| discriminate].
  destruct (length decisions =? 0)%nat; [discriminate |].
  unfold evaluate_accuracy.
  pose proof (accuracy_loop (sort_values rt decisions)
                (seq 0 (length (sort_values rt decisions) - 1)) 0 0
                (Nat.le_refl 0)) as Hloop.
  destruct (fold_left _ _ _) as [correct total].
  destruct Hloop as [Hrange Hnone].
  destruct (Nat.ltb_spec 0 total) as [Hpos | _]; [| discriminate].
  intros H. injection H as <-.
  assert (0 < Np.of_nat total) as Htotal
    by (apply RelativeStrength.of_nat_pos; lia).
  assert (0 <= Np.of_nat correct <= Np.of_nat total) as Hq.
  { unfold Np.of_nat. split.
    - change 0 with (inject_Z 0). rewrite <- Zle_Qle. lia.
    - rewrite <- Zle_Qle. lia. }
  split.
  - split.
    + apply Qle_shift_div_l; [exact Htotal | lra].
    + apply Qle_shift_div_r; [exact Htotal | lra].
  - intros Hsort Hlog.
    rewrite Hnone
      by (eapply Permutation_Forall; [apply (Hsort decisions) | exact Hlog]).
    unfold Qdiv. change (Np.of_nat 0) with 0. ring.
Qed.

Lemma accuracy_between_zero_and_one_witness :
  let trades :=
    [{| trade_date := 1; trade_type := "buy"; trade_price := 100;
        amount := 1; value := 100 |}] in
  let decisions :=
    [{| date := 1; recommendation := "STRONG BUY"; price := 100 |};
     {| date := 2; recommendation := "STRONG BUY"; price := 150 |}] in
  accuracy_of
    (calculate_performance_metrics (ideal_runtime 864001) trades decisions
       160)
  = Some (0 / 1)
  /\ 0 <= 0 / 1 <= 1.
Proof.
  intros trades decisions.
  assert (accuracy_of
            (calculate_performance_metrics (ideal_runtime 864001) trades
               decisions 160)
          = Some (0 / 1)) as H by reflexivity.
  split; [exact H |].
  apply (accuracy_between_zero_and_one (ideal_runtime 864001) trades
           decisions 160 (0 / 1) H).
Defined.

End AccuracyRange.
